(** * Admin panel: image lifecycle of categories, partners and announcements

    A shallow embedding of the server side of the admin panel: the zod
    validators ([lib/validators.ts]), the upload helpers ([lib/uploads.ts]),
    the upload route, the entity routes written against Prisma, and the
    in-memory placeholder store; then of what stands around it: the pages
    that call the routes and the middleware in front of them.

    Conventions of the embedding.
    - A JavaScript string is a [string]: a sequence of code units, here
      restricted to the range U+0000..U+00FF (one [ascii] per code unit).
    - [string | null | undefined] is the three-constructor type [nullish].
    - Handlers are [async] functions that read and write the database and the
      file system and may throw: they live in the monad [Io], a state monad
      over [World] with exceptions.  Every effect is also appended to the
      world's event log, which is what the ordering statements talk about.
    - Timestamps are [Z] (milliseconds since the epoch).
    - A page is a React component: its state is a record, and each of its
      handlers a function on that record, in [Io] where it calls the
      server. *)

From Stdlib Require Import ZArith Lia Bool Ascii String List DecimalString.
From stdpp Require Import base option list strings gmap sorting.

Local Open Scope Z_scope.
Local Open Scope string_scope.

(* ================================================================== *)
(** ** JavaScript string primitives used by the code *)

Module JsString.

Definition code (c : ascii) : N := N_of_ascii c.

(** [WhiteSpace] and [LineTerminator] code points below U+0100: TAB, LF, VT,
    FF, CR, SP and NBSP.  These are what [String.prototype.trim] strips. *)
Definition isWhiteSpace (c : ascii) : bool :=
  let n := code c in
  ((9 <=? n) && (n <=? 13) || (n =? 32) || (n =? 160))%N.

Fixpoint trimStart (s : string) : string :=
  match s with
  | EmptyString => EmptyString
  | String c s' => if isWhiteSpace c then trimStart s' else s
  end.

Fixpoint trimEnd (s : string) : string :=
  match s with
  | EmptyString => EmptyString
  | String c s' =>
      let t := trimEnd s' in
      if isWhiteSpace c && String.eqb t "" then "" else String c t
  end.

(** [s.trim()] *)
Definition trim (s : string) : string := trimEnd (trimStart s).

(** Capital letters below U+0100: A-Z, and the Latin-1 capitals
    U+00C0..U+00DE except the multiplication sign U+00D7. *)
Definition isUpper (c : ascii) : bool :=
  let n := code c in
  ((65 <=? n) && (n <=? 90) || (192 <=? n) && (n <=? 222) && negb (n =? 215))%N.

(** Lower-case mapping of one code unit: the small letter of a capital
    is 32 code points above it. *)
Definition lowerChar (c : ascii) : ascii :=
  if isUpper c then ascii_of_N (code c + 32) else c.

(** [s.toLowerCase()] *)
Fixpoint toLowerCase (s : string) : string :=
  match s with
  | EmptyString => EmptyString
  | String c s' => String (lowerChar c) (toLowerCase s')
  end.

(** [s.startsWith(p)] *)
Definition startsWith (s p : string) : bool := String.prefix p s.

(** [s.includes(sub)] *)
Fixpoint includes (s sub : string) : bool :=
  if String.prefix sub s then true
  else match s with
       | EmptyString => false
       | String _ s' => includes s' sub
       end.

(** [s.length] *)
Definition length (s : string) : Z := Z.of_nat (String.length s).

(** A literal pattern anchored at the start, matched with the [i] flag:
    each pattern letter matches itself in either case. *)
Fixpoint matchPrefixIgnoreCase (pat s : string) : bool :=
  match pat, s with
  | EmptyString, _ => true
  | String _ _, EmptyString => false
  | String p pat', String c s' =>
      Ascii.eqb (lowerChar p) (lowerChar c) && matchPrefixIgnoreCase pat' s'
  end.

(** [/^https?:\/\//i.test(v)] *)
Definition testHttpScheme (v : string) : bool :=
  matchPrefixIgnoreCase "http://" v || matchPrefixIgnoreCase "https://" v.

(** [s.split(sep)] for a one-character separator. *)
Fixpoint split (sep : ascii) (s : string) : list string :=
  match s with
  | EmptyString => [EmptyString]
  | String c s' =>
      if Ascii.eqb c sep then EmptyString :: split sep s'
      else match split sep s' with
           | [] => [String c EmptyString]
           | seg :: rest => String c seg :: rest
           end
  end.

(** [parts.join(sep)] *)
Fixpoint join (sep : string) (parts : list string) : string :=
  match parts with
  | [] => EmptyString
  | [p] => p
  | p :: rest => p ++ sep ++ join sep rest
  end.

End JsString.

(* ================================================================== *)
(** ** [path.join] of Node, POSIX flavour *)

Module Path.

(** One step of [normalizeString]: the stack holds the segments kept so
    far, innermost first. *)
Definition normalizeStep (allowAboveRoot : bool)
    (stack : list string) (seg : string) : list string :=
  if String.eqb seg "" || String.eqb seg "." then stack
  else if String.eqb seg ".." then
    match stack with
    | top :: rest =>
        if String.eqb top ".."
        then (if allowAboveRoot then ".." :: stack else stack)
        else rest
    | [] => if allowAboveRoot then [".."] else []
    end
  else seg :: stack.

Definition normalizeString (allowAboveRoot : bool) (p : string) : string :=
  JsString.join "/"
    (rev (fold_left (normalizeStep allowAboveRoot) (JsString.split "/" p) [])).

Definition endsWithSlash (p : string) : bool :=
  match rev (list_ascii_of_string p) with
  | c :: _ => Ascii.eqb c "/"
  | [] => false
  end.

Definition normalize (p : string) : string :=
  if String.eqb p "" then "."
  else
    let isAbsolute := JsString.startsWith p "/" in
    let trailing := endsWithSlash p in
    let path := normalizeString (negb isAbsolute) p in
    if String.eqb path ""
    then (if isAbsolute then "/" else if trailing then "./" else ".")
    else
      let path := if trailing then path ++ "/" else path in
      if isAbsolute then "/" ++ path else path.

(** [path.extname(p)]: from the last dot of the last segment, unless that
    dot starts the segment. *)
Fixpoint lastDotSuffix (s : string) : option string :=
  match s with
  | EmptyString => None
  | String c s' =>
      match lastDotSuffix s' with
      | Some e => Some e
      | None => if Ascii.eqb c "." then Some s else None
      end
  end.

Definition extname (p : string) : string :=
  let base := List.last (JsString.split "/" p) "" in
  match base with
  | EmptyString => ""
  | String c rest =>
      if String.eqb base ".." then ""
      else match lastDotSuffix rest with
           | Some e => e
           | None => ""
           end
  end.

(** [path.join(...parts)] *)
Definition join (parts : list string) : string :=
  let nonEmpty := filter (fun p => p ≠ "") parts in
  match nonEmpty with
  | [] => "."
  | _ => normalize (JsString.join "/" nonEmpty)
  end.

End Path.

(* ================================================================== *)
(** ** Values, records and the world the handlers run in *)

(** [string | null | undefined] *)
Inductive nullish : Type :=
  | Undefined
  | Null
  | Str (s : string).

#[global] Instance nullish_eq_dec : EqDecision nullish.
Proof. solve_decision. Defined.

(** A nullable text column read back from the database: [string | null]. *)
Definition ofColumn (c : option string) : nullish :=
  match c with
  | Some s => Str s
  | None => Null
  end.

(** What writing the field [imageUrl] of an update does to the column:
    Prisma skips a field that is [undefined], stores NULL for [null]. *)
Definition applyImage (v : nullish) (old : option string) : option string :=
  match v with
  | Undefined => old
  | Null => None
  | Str s => Some s
  end.

(** Rows.  The first migration declares Category and Partner; the columns
    [imageUrl] and the table Announcement are the ones the routes read and
    write ([existing.imageUrl], [data.imageUrl], [datePublished]). *)
Record Category : Type := mkCategory {
  c_id : string;
  c_name : string;
  c_imageUrl : option string;
  c_createdAt : Z;
  c_updatedAt : Z
}.

Record Partner : Type := mkPartner {
  p_id : string;
  p_name : string;
  p_link : string;
  p_featured : bool;
  p_categoryId : option string;
  p_imageUrl : option string;
  p_createdAt : Z;
  p_updatedAt : Z
}.

Record Announcement : Type := mkAnnouncement {
  a_id : string;
  a_title : string;
  a_description : string;
  a_link : string;
  a_datePublished : Z;
  a_imageUrl : option string;
  a_createdAt : Z;
  a_updatedAt : Z
}.

Record Db : Type := mkDb {
  categories : list Category;
  partners : list Partner;
  announcements : list Announcement
}.

(** The file system: regular files by absolute path, and the paths the
    process may not modify (an operation on them fails with EACCES). *)
Record FileSystem : Type := mkFs {
  files : gmap string (list Byte.byte);
  readonly : gset string
}.

Inductive Table : Type := TCategory | TPartner | TAnnouncement.

(** Observable effects, in the order they happen.  A database event records
    a write that succeeded; [EvUnlink] and [EvWriteFile] record the attempt,
    whatever its result. *)
Inductive Event : Type :=
  | EvDbCreate (t : Table) (id : string)
  | EvDbUpdate (t : Table) (id : string)
  | EvDbDelete (t : Table) (id : string)
  | EvUnlink (path : string)
  | EvWriteFile (path : string).

Inductive Exn : Type :=
  | PrismaError (code : string)
  | FsError (errno : string)
  | TypeError (message : string)
  | Error (message : string).

Record World : Type := mkWorld {
  db : Db;
  fs : FileSystem;
  cwd : string;                 (* process.cwd() *)
  now : Z;                      (* Date.now() *)
  randomSource : nat -> string; (* the n-th draw of the random generator *)
  drawn : nat;
  log : list Event
}.

Definition set_db (d : Db) (w : World) : World :=
  mkWorld d (fs w) (cwd w) (now w) (randomSource w) (drawn w) (log w).
Definition set_fs (f : FileSystem) (w : World) : World :=
  mkWorld (db w) f (cwd w) (now w) (randomSource w) (drawn w) (log w).
Definition emit (e : Event) (w : World) : World :=
  mkWorld (db w) (fs w) (cwd w) (now w) (randomSource w) (drawn w) (log w ++ [e]).
Definition draw (w : World) : string * World :=
  (randomSource w (drawn w),
   mkWorld (db w) (fs w) (cwd w) (now w) (randomSource w) (S (drawn w)) (log w)).

(* ================================================================== *)
(** ** The monad of handlers: state over [World], with exceptions *)

Inductive outcome (A : Type) : Type :=
  | Done (a : A)
  | Thrown (e : Exn).
Arguments Done {A} a.
Arguments Thrown {A} e.

Definition Io (A : Type) : Type := World -> outcome A * World.

Definition ret {A} (a : A) : Io A := fun w => (Done a, w).
Definition throw {A} (e : Exn) : Io A := fun w => (Thrown e, w).
Definition bind {A B} (m : Io A) (k : A -> Io B) : Io B :=
  fun w => match m w with
           | (Done a, w') => k a w'
           | (Thrown e, w') => (Thrown e, w')
           end.
(** [try { m } catch { h }] *)
Definition tryCatch {A} (m : Io A) (h : Exn -> Io A) : Io A :=
  fun w => match m w with
           | (Done a, w') => (Done a, w')
           | (Thrown e, w') => h e w'
           end.
Definition gets {A} (f : World -> A) : Io A := fun w => (Done (f w), w).
Definition modify (f : World -> World) : Io unit := fun w => (Done tt, f w).

Declare Scope io_scope.
Delimit Scope io_scope with io.
Notation "'let*' x ':=' m 'in' k" := (bind m (fun x => k))
  (at level 10, x name, m at level 100, k at level 200) : io_scope.
Notation "m ';;' k" := (bind m (fun _ => k))
  (at level 100, k at level 200, right associativity) : io_scope.
Local Open Scope io_scope.

(* ================================================================== *)
(** ** [fs/promises] *)

Module Fs.

(** [unlink(path)] *)
Definition unlink (path : string) : Io unit := fun w =>
  let w := emit (EvUnlink path) w in
  if decide (path ∈ readonly (fs w)) then (Thrown (FsError "EACCES"), w)
  else match files (fs w) !! path with
       | None => (Thrown (FsError "ENOENT"), w)
       | Some _ =>
           (Done tt, set_fs (mkFs (delete path (files (fs w))) (readonly (fs w))) w)
       end.

(** [writeFile(path, data)] *)
Definition writeFile (path : string) (data : list Byte.byte) : Io unit := fun w =>
  let w := emit (EvWriteFile path) w in
  if decide (path ∈ readonly (fs w)) then (Thrown (FsError "EACCES"), w)
  else (Done tt, set_fs (mkFs (<[path := data]> (files (fs w))) (readonly (fs w))) w).

(** [mkdir(dir, { recursive: true })]: directories are implicit in the
    flat name space, so only the permission check remains. *)
Definition mkdir (dir : string) : Io unit := fun w =>
  if decide (dir ∈ readonly (fs w)) then (Thrown (FsError "EACCES"), w)
  else (Done tt, w).

End Fs.

(* ================================================================== *)
(** ** [lib/uploads.ts] *)

Module Uploads.

(** Accept only our public uploads path and block traversal. *)
Definition isLocalUpload (url : nullish) : bool :=
  match url with
  | Str u =>
      negb (String.eqb u "")
      && JsString.startsWith u "/uploads/"
      && negb (JsString.includes u "..")
  | _ => false
  end.

Definition toFsPath (url : string) : Io string :=
  gets (fun w => Path.join [cwd w; "public"; url]).

Definition deleteUploadIfLocal (url : nullish) : Io unit :=
  match url with
  | Str u =>
      if isLocalUpload url then
        tryCatch (let* p := toFsPath u in Fs.unlink p)
                 (fun _ => ret tt)
      else ret tt
  | _ => ret tt
  end.

End Uploads.

(* ================================================================== *)
(** ** Request bodies and the zod schemas of [lib/validators.ts] *)

(** The result of [JSON.parse]. Numbers are kept as integers: no schema
    here looks inside one, except date coercion, which belongs to the host. *)
#[warnings="-register-all"]
Inductive json : Type :=
  | JNull
  | JBool (b : bool)
  | JNumber (n : Z)
  | JString (s : string)
  | JArray (items : list json)
  | JObject (members : list (string * json)).

(** Library behaviour the schemas and the placeholder store rely on and the
    repository does not define: zod's [.url()] check, [z.coerce.date()],
    the local start of day as [new Date(d.getFullYear(), d.getMonth(),
    d.getDate())] gives it, and [String.prototype.localeCompare]. *)
Class Host : Type := mkHost {
  isUrl : string -> bool;
  coerceDate : option json -> option Z;
  startOfDay : Z -> Z;
  localeCompare : string -> string -> Z
}.

Module Zod.

(** [obj[key]]: [None] is [undefined], the key being absent.  A key
    written twice keeps its last value, as [JSON.parse] does. *)
Fixpoint member (o : list (string * json)) (key : string) : option json :=
  match o with
  | [] => None
  | (k, v) :: rest =>
      match member rest key with
      | Some v' => Some v'
      | None => if String.eqb k key then Some v else None
      end
  end.

(** [body.key] for any parsed body. *)
Definition field (body : json) (key : string) : option json :=
  match body with
  | JObject o => member o key
  | _ => None
  end.

Inductive ParseResult (T : Type) : Type :=
  | Success (data : T)
  | Failure (issues : list string).
Arguments Success {T} data.
Arguments Failure {T} issues.

(** The issue (its path) a field contributes when its schema rejects. *)
Definition issue {T} (path : string) (r : option T) : list string :=
  match r with
  | Some _ => []
  | None => [path]
  end.

(** [z.string()] *)
Definition zString (v : option json) : option string :=
  match v with
  | Some (JString s) => Some s
  | _ => None
  end.

(** [z.boolean()] *)
Definition zBoolean (v : option json) : option bool :=
  match v with
  | Some (JBool b) => Some b
  | _ => None
  end.

(** [.min(n)] and [.max(n)] on a string *)
Definition min (n : Z) (r : option string) : option string :=
  match r with
  | Some s => if (n <=? JsString.length s)%Z then Some s else None
  | None => None
  end.
Definition max (n : Z) (r : option string) : option string :=
  match r with
  | Some s => if (JsString.length s <=? n)%Z then Some s else None
  | None => None
  end.

(** [.trim()] *)
Definition trim (r : option string) : option string :=
  match r with
  | Some s => Some (JsString.trim s)
  | None => None
  end.

(** [.url()] *)
Definition url `{Host} (r : option string) : option string :=
  match r with
  | Some s => if isUrl s then Some s else None
  | None => None
  end.

(** The refinement of the image field:
    [v === "" || v.startsWith("/uploads/") || /^https?:\/\//i.test(v)] *)
Definition imageUrlRefinement (v : string) : bool :=
  String.eqb v "" || JsString.startsWith v "/uploads/" || JsString.testHttpScheme v.

(** [z.union([z.string().trim().refine(..), z.null(), z.undefined()])] *)
Definition imageUrlUnion (v : option json) : option nullish :=
  match v with
  | Some (JString s) =>
      let t := JsString.trim s in
      if imageUrlRefinement t then Some (Str t) else None
  | Some JNull => Some Null
  | None => Some Undefined
  | Some _ => None
  end.

(** [.transform(v => (v === "" ? null : v))] *)
Definition emptyToNull (r : option nullish) : option nullish :=
  match r with
  | Some (Str s) => if String.eqb s "" then Some Null else Some (Str s)
  | other => other
  end.

(** The [imageUrl] member, written out identically in the three schemas. *)
Definition imageUrlSchema (v : option json) : option nullish :=
  emptyToNull (imageUrlUnion v).

Record PartnerInput : Type := mkPartnerInput {
  pi_name : string;
  pi_categoryId : string;
  pi_link : string;
  pi_featured : bool;
  pi_imageUrl : nullish
}.

Record CategoryInput : Type := mkCategoryInput {
  ci_name : string;
  ci_imageUrl : nullish
}.

Record AnnouncementInput : Type := mkAnnouncementInput {
  ai_title : string;
  ai_description : string;
  ai_link : string;
  ai_datePublished : Z;
  ai_imageUrl : nullish
}.

(** [partnerSchema.safeParse(body)] *)
Definition partnerSchema `{Host} (body : json) : ParseResult PartnerInput :=
  match body with
  | JObject _ =>
      let name := min 2 (zString (field body "name")) in
      let categoryId := min 1 (zString (field body "categoryId")) in
      let link := url (zString (field body "link")) in
      let featured := zBoolean (field body "featured") in
      let imageUrl := imageUrlSchema (field body "imageUrl") in
      match name, categoryId, link, featured, imageUrl with
      | Some n, Some c, Some l, Some f, Some i =>
          Success (mkPartnerInput n c l f i)
      | _, _, _, _, _ =>
          Failure (issue "name" name ++ issue "categoryId" categoryId
                   ++ issue "link" link ++ issue "featured" featured
                   ++ issue "imageUrl" imageUrl)
      end
  | _ => Failure [""]
  end.

(** [categorySchema.safeParse(body)] *)
Definition categorySchema (body : json) : ParseResult CategoryInput :=
  match body with
  | JObject _ =>
      let name := min 2 (trim (zString (field body "name"))) in
      let imageUrl := imageUrlSchema (field body "imageUrl") in
      match name, imageUrl with
      | Some n, Some i => Success (mkCategoryInput n i)
      | _, _ => Failure (issue "name" name ++ issue "imageUrl" imageUrl)
      end
  | _ => Failure [""]
  end.

(** [announcementSchema.safeParse(body)] *)
Definition announcementSchema `{Host} (body : json) : ParseResult AnnouncementInput :=
  match body with
  | JObject _ =>
      let title := max 120 (min 2 (zString (field body "title"))) in
      let description := max 4000 (min 2 (zString (field body "description"))) in
      let link := url (zString (field body "link")) in
      let datePublished := startOfDay <$> coerceDate (field body "datePublished") in
      let imageUrl := imageUrlSchema (field body "imageUrl") in
      match title, description, link, datePublished, imageUrl with
      | Some t, Some d, Some l, Some p, Some i =>
          Success (mkAnnouncementInput t d l p i)
      | _, _, _, _, _ =>
          Failure (issue "title" title ++ issue "description" description
                   ++ issue "link" link ++ issue "datePublished" datePublished
                   ++ issue "imageUrl" imageUrl)
      end
  | _ => Failure [""]
  end.

End Zod.

(* ================================================================== *)
(** ** The Prisma client, as far as the routes use it *)

Fixpoint replaceFirst {A} (f : A -> bool) (x' : A) (l : list A) : list A :=
  match l with
  | [] => []
  | x :: rest => if f x then x' :: rest else x :: replaceFirst f x' rest
  end.

Fixpoint removeFirst {A} (f : A -> bool) (l : list A) : list A :=
  match l with
  | [] => []
  | x :: rest => if f x then rest else x :: removeFirst f rest
  end.

(** [orderBy: { name: "asc" }]: text compares code unit by code unit, the
    default collation of the column. *)
Definition nameAsc : relation Category :=
  fun a b => String.leb (c_name a) (c_name b) = true.

(** [orderBy: { createdAt: "desc" }] *)
Definition createdAtDesc : relation Partner :=
  fun a b => (p_createdAt b <= p_createdAt a)%Z.

(** [orderBy: [{ datePublished: "desc" }, { createdAt: "desc" }]] *)
Definition datePublishedDescThenCreatedAtDesc : relation Announcement :=
  fun a b =>
    (a_datePublished b < a_datePublished a)%Z
    \/ (a_datePublished a = a_datePublished b /\ (a_createdAt b <= a_createdAt a)%Z).

#[global] Instance nameAsc_dec a b : Decision (nameAsc a b).
Proof. unfold nameAsc. apply _. Defined.
#[global] Instance createdAtDesc_dec a b : Decision (createdAtDesc a b).
Proof. unfold createdAtDesc. apply _. Defined.
#[global] Instance datePublishedDescThenCreatedAtDesc_dec a b :
  Decision (datePublishedDescThenCreatedAtDesc a b).
Proof. unfold datePublishedDescThenCreatedAtDesc. apply _. Defined.

Module prisma.

Definition setCategories (l : list Category) (w : World) : World :=
  set_db (mkDb l (partners (db w)) (announcements (db w))) w.
Definition setPartners (l : list Partner) (w : World) : World :=
  set_db (mkDb (categories (db w)) l (announcements (db w))) w.
Definition setAnnouncements (l : list Announcement) (w : World) : World :=
  set_db (mkDb (categories (db w)) (partners (db w)) l) w.

Module category.

Definition hasId (id : string) (c : Category) : bool := String.eqb (c_id c) id.

(** The unique index [Category_name_key]: some other row has this name. *)
Definition nameTaken (self name : string) (l : list Category) : bool :=
  existsb (fun c => String.eqb (c_name c) name && negb (String.eqb (c_id c) self)) l.

Definition findMany : Io (list Category) :=
  gets (fun w => merge_sort nameAsc (categories (db w))).

Definition findUnique (id : string) : Io (option Category) :=
  gets (fun w => find (hasId id) (categories (db w))).

Definition create (data : Zod.CategoryInput) : Io Category := fun w =>
  let (id, w) := draw w in
  let rows := categories (db w) in
  if existsb (hasId id) rows || existsb (fun c => String.eqb (c_name c) (Zod.ci_name data)) rows
  then (Thrown (PrismaError "P2002"), w)
  else
    let row := mkCategory id (Zod.ci_name data)
                 (applyImage (Zod.ci_imageUrl data) None) (now w) (now w) in
    (Done row, emit (EvDbCreate TCategory id) (setCategories (rows ++ [row]) w)).

Definition update (id : string) (data : Zod.CategoryInput) : Io Category := fun w =>
  let rows := categories (db w) in
  match find (hasId id) rows with
  | None => (Thrown (PrismaError "P2025"), w)
  | Some old =>
      if nameTaken (c_id old) (Zod.ci_name data) rows
      then (Thrown (PrismaError "P2002"), w)
      else
        let row := mkCategory (c_id old) (Zod.ci_name data)
                     (applyImage (Zod.ci_imageUrl data) (c_imageUrl old))
                     (c_createdAt old) (now w) in
        (Done row,
         emit (EvDbUpdate TCategory id) (setCategories (replaceFirst (hasId id) row rows) w))
  end.

(** [ON DELETE SET NULL] of [Partner_categoryId_fkey] *)
Definition setNull (id : string) (p : Partner) : Partner :=
  if decide (p_categoryId p = Some id)
  then mkPartner (p_id p) (p_name p) (p_link p) (p_featured p) None
         (p_imageUrl p) (p_createdAt p) (p_updatedAt p)
  else p.

Definition delete (id : string) : Io Category := fun w =>
  let rows := categories (db w) in
  match find (hasId id) rows with
  | None => (Thrown (PrismaError "P2025"), w)
  | Some old =>
      let d := mkDb (removeFirst (hasId id) rows)
                    (map (setNull (c_id old)) (partners (db w)))
                    (announcements (db w)) in
      (Done old, emit (EvDbDelete TCategory id) (set_db d w))
  end.

End category.

Module partner.

Definition hasId (id : string) (p : Partner) : bool := String.eqb (p_id p) id.

(** [Partner_categoryId_fkey]: the referenced category exists. *)
Definition categoryExists (cid : string) (w : World) : bool :=
  existsb (category.hasId cid) (categories (db w)).

Definition findMany : Io (list Partner) :=
  gets (fun w => merge_sort createdAtDesc (partners (db w))).

Definition findUnique (id : string) : Io (option Partner) :=
  gets (fun w => find (hasId id) (partners (db w))).

Definition create (data : Zod.PartnerInput) : Io Partner := fun w =>
  let (id, w) := draw w in
  let rows := partners (db w) in
  if existsb (hasId id) rows then (Thrown (PrismaError "P2002"), w)
  else if negb (categoryExists (Zod.pi_categoryId data) w)
  then (Thrown (PrismaError "P2003"), w)
  else
    let row := mkPartner id (Zod.pi_name data) (Zod.pi_link data)
                 (Zod.pi_featured data) (Some (Zod.pi_categoryId data))
                 (applyImage (Zod.pi_imageUrl data) None) (now w) (now w) in
    (Done row, emit (EvDbCreate TPartner id) (setPartners (rows ++ [row]) w)).

Definition update (id : string) (data : Zod.PartnerInput) : Io Partner := fun w =>
  let rows := partners (db w) in
  match find (hasId id) rows with
  | None => (Thrown (PrismaError "P2025"), w)
  | Some old =>
      if negb (categoryExists (Zod.pi_categoryId data) w)
      then (Thrown (PrismaError "P2003"), w)
      else
        let row := mkPartner (p_id old) (Zod.pi_name data) (Zod.pi_link data)
                     (Zod.pi_featured data) (Some (Zod.pi_categoryId data))
                     (applyImage (Zod.pi_imageUrl data) (p_imageUrl old))
                     (p_createdAt old) (now w) in
        (Done row,
         emit (EvDbUpdate TPartner id) (setPartners (replaceFirst (hasId id) row rows) w))
  end.

Definition delete (id : string) : Io Partner := fun w =>
  let rows := partners (db w) in
  match find (hasId id) rows with
  | None => (Thrown (PrismaError "P2025"), w)
  | Some old =>
      (Done old, emit (EvDbDelete TPartner id) (setPartners (removeFirst (hasId id) rows) w))
  end.

End partner.

Module announcement.

Definition hasId (id : string) (a : Announcement) : bool := String.eqb (a_id a) id.

Definition findMany : Io (list Announcement) :=
  gets (fun w => merge_sort datePublishedDescThenCreatedAtDesc (announcements (db w))).

Definition findUnique (id : string) : Io (option Announcement) :=
  gets (fun w => find (hasId id) (announcements (db w))).

Definition create (data : Zod.AnnouncementInput) : Io Announcement := fun w =>
  let (id, w) := draw w in
  let rows := announcements (db w) in
  if existsb (hasId id) rows then (Thrown (PrismaError "P2002"), w)
  else
    let row := mkAnnouncement id (Zod.ai_title data) (Zod.ai_description data)
                 (Zod.ai_link data) (Zod.ai_datePublished data)
                 (applyImage (Zod.ai_imageUrl data) None) (now w) (now w) in
    (Done row, emit (EvDbCreate TAnnouncement id) (setAnnouncements (rows ++ [row]) w)).

Definition update (id : string) (data : Zod.AnnouncementInput) : Io Announcement := fun w =>
  let rows := announcements (db w) in
  match find (hasId id) rows with
  | None => (Thrown (PrismaError "P2025"), w)
  | Some old =>
      let row := mkAnnouncement (a_id old) (Zod.ai_title data) (Zod.ai_description data)
                   (Zod.ai_link data) (Zod.ai_datePublished data)
                   (applyImage (Zod.ai_imageUrl data) (a_imageUrl old))
                   (a_createdAt old) (now w) in
      (Done row,
       emit (EvDbUpdate TAnnouncement id)
         (setAnnouncements (replaceFirst (hasId id) row rows) w))
  end.

Definition delete (id : string) : Io Announcement := fun w =>
  let rows := announcements (db w) in
  match find (hasId id) rows with
  | None => (Thrown (PrismaError "P2025"), w)
  | Some old =>
      (Done old,
       emit (EvDbDelete TAnnouncement id)
         (setAnnouncements (removeFirst (hasId id) rows) w))
  end.

End announcement.

End prisma.

(* ================================================================== *)
(** ** Requests, responses and the route handlers *)

Record File : Type := mkFile {
  file_name : option string;
  file_type : string;
  file_bytes : list Byte.byte
}.

(** [file.size] *)
Definition file_size (f : File) : Z := Z.of_nat (List.length (file_bytes f)).

Inductive FormEntry : Type :=
  | FormFile (f : File)
  | FormText (s : string).

Record Request : Type := mkRequest {
  query : list (string * string);                  (* the URL's search parameters *)
  jsonBody : option json;                          (* [None]: req.json() rejects *)
  formBody : option (list (string * FormEntry))    (* [None]: req.formData() rejects *)
}.

Inductive Body : Type :=
  | BError (error : string)
  | BInvalid (issues : list string)     (* { error: "Invalid input", issues } *)
  | BCategory (c : Category)
  | BPartner (p : Partner)
  | BAnnouncement (a : Announcement)
  | BCategories (items : list Category)
  | BPartners (items : list Partner)
  | BAnnouncements (items : list Announcement)
  | BOk                                 (* { ok: true } *)
  | BUrl (url : string)                 (* { url } *)
  | BNone.

Record Response : Type := mkResponse {
  status : Z;
  body : Body
}.

(** [NextResponse.json(body)] and [NextResponse.json(body, { status })] *)
Definition respond (b : Body) : Io Response := ret (mkResponse 200 b).
Definition respondWith (st : Z) (b : Body) : Io Response := ret (mkResponse st b).

(** [await req.json().catch(() => ({}))] *)
Definition readJson (req : Request) : json :=
  match jsonBody req with
  | Some j => j
  | None => JObject []
  end.

(** [api/categories/route.ts] *)
Module CategoriesRoute.

Definition GET : Io Response :=
  let* items := prisma.category.findMany in
  respond (BCategories items).

Definition POST (req : Request) : Io Response :=
  let body := readJson req in
  match Zod.categorySchema body with
  | Zod.Failure issues => respondWith 400 (BInvalid issues)
  | Zod.Success data =>
      let* cat := prisma.category.create data in
      respondWith 201 (BCategory cat)
  end.

End CategoriesRoute.

(** [api/categories/[id]/route.ts] *)
Module CategoriesIdRoute.

Definition PUT (req : Request) (id : string) : Io Response :=
  let body := readJson req in
  match Zod.categorySchema body with
  | Zod.Failure issues => respondWith 400 (BInvalid issues)
  | Zod.Success parsed =>
      let* existing := prisma.category.findUnique id in
      match existing with
      | None => respondWith 404 (BError "Not found")
      | Some existing =>
          let name := Zod.ci_name parsed in
          let imageUrl := Zod.ci_imageUrl parsed in
          let data := Zod.mkCategoryInput name Undefined in
          let data :=
            if decide (imageUrl <> Undefined)
            then Zod.mkCategoryInput (Zod.ci_name data) imageUrl else data in
          let* updated := prisma.category.update id data in
          (if decide (imageUrl <> Undefined /\ imageUrl <> ofColumn (c_imageUrl existing))
           then Uploads.deleteUploadIfLocal (ofColumn (c_imageUrl existing))
           else ret tt) ;;
          respond (BCategory updated)
      end
  end.

Definition DELETE (id : string) : Io Response :=
  let* existing := prisma.category.findUnique id in
  match existing with
  | None => respondWith 404 (BError "Not found")
  | Some existing =>
      prisma.category.delete id ;;
      Uploads.deleteUploadIfLocal (ofColumn (c_imageUrl existing)) ;;
      respond BOk
  end.

End CategoriesIdRoute.

(** [api/partners/route.ts] *)
Module PartnersRoute.

Definition GET : Io Response :=
  let* items := prisma.partner.findMany in
  respond (BPartners items).

Definition POST `{Host} (req : Request) : Io Response :=
  let body := readJson req in
  match Zod.partnerSchema body with
  | Zod.Failure issues => respondWith 400 (BInvalid issues)
  | Zod.Success data =>
      let* p := prisma.partner.create data in
      respondWith 201 (BPartner p)
  end.

End PartnersRoute.

(** [api/partners/[id]/route.ts] *)
Module PartnersIdRoute.

Definition PUT `{Host} (req : Request) (id : string) : Io Response :=
  let body := readJson req in
  match Zod.partnerSchema body with
  | Zod.Failure issues => respondWith 400 (BInvalid issues)
  | Zod.Success parsed =>
      let* existing := prisma.partner.findUnique id in
      match existing with
      | None => respondWith 404 (BError "Not found")
      | Some existing =>
          let imageUrl := Zod.pi_imageUrl parsed in
          let data := Zod.mkPartnerInput (Zod.pi_name parsed) (Zod.pi_categoryId parsed)
                        (Zod.pi_link parsed) (Zod.pi_featured parsed) Undefined in
          let data :=
            if decide (imageUrl <> Undefined)
            then Zod.mkPartnerInput (Zod.pi_name data) (Zod.pi_categoryId data)
                   (Zod.pi_link data) (Zod.pi_featured data) imageUrl
            else data in
          let* updated := prisma.partner.update id data in
          (if decide (imageUrl <> Undefined /\ imageUrl <> ofColumn (p_imageUrl existing))
           then Uploads.deleteUploadIfLocal (ofColumn (p_imageUrl existing))
           else ret tt) ;;
          respond (BPartner updated)
      end
  end.

Definition DELETE (id : string) : Io Response :=
  let* existing := prisma.partner.findUnique id in
  match existing with
  | None => respondWith 404 (BError "Not found")
  | Some existing =>
      prisma.partner.delete id ;;
      Uploads.deleteUploadIfLocal (ofColumn (p_imageUrl existing)) ;;
      respond BOk
  end.

End PartnersIdRoute.

(** [api/announcements/route.ts] *)
Module AnnouncementsRoute.

Definition GET : Io Response :=
  let* items := prisma.announcement.findMany in
  respond (BAnnouncements items).

Definition POST `{Host} (req : Request) : Io Response :=
  let body := readJson req in
  match Zod.announcementSchema body with
  | Zod.Failure issues => respondWith 400 (BInvalid issues)
  | Zod.Success data =>
      let* a := prisma.announcement.create data in
      respondWith 201 (BAnnouncement a)
  end.

End AnnouncementsRoute.

(** [api/announcements/[id]/route.ts] *)
Module AnnouncementsIdRoute.

Definition PUT `{Host} (req : Request) (id : string) : Io Response :=
  let body := readJson req in
  match Zod.announcementSchema body with
  | Zod.Failure issues => respondWith 400 (BInvalid issues)
  | Zod.Success parsed =>
      let* existing := prisma.announcement.findUnique id in
      match existing with
      | None => respondWith 404 (BError "Not found")
      | Some existing =>
          (* undefined => no change; null => clear; string => set *)
          let suppliedImage := Zod.ai_imageUrl parsed in
          let data := Zod.mkAnnouncementInput (Zod.ai_title parsed)
                        (Zod.ai_description parsed) (Zod.ai_link parsed)
                        (Zod.ai_datePublished parsed) Undefined in
          let data :=
            if decide (suppliedImage <> Undefined)
            then Zod.mkAnnouncementInput (Zod.ai_title data) (Zod.ai_description data)
                   (Zod.ai_link data) (Zod.ai_datePublished data) suppliedImage
            else data in
          let* updated := prisma.announcement.update id data in
          (* if the image changed or was cleared, delete the old file *)
          (if decide (suppliedImage <> Undefined
                      /\ suppliedImage <> ofColumn (a_imageUrl existing))
           then Uploads.deleteUploadIfLocal (ofColumn (a_imageUrl existing))
           else ret tt) ;;
          respond (BAnnouncement updated)
      end
  end.

Definition DELETE (id : string) : Io Response :=
  let* existing := prisma.announcement.findUnique id in
  match existing with
  | None => respondWith 404 (BError "Not found")
  | Some existing =>
      prisma.announcement.delete id ;;
      Uploads.deleteUploadIfLocal (ofColumn (a_imageUrl existing)) ;;
      respond BOk
  end.

End AnnouncementsIdRoute.

(** [api/upload/route.ts] *)
Module UploadRoute.

Definition MAX_BYTES : Z := 5 * 1024 * 1024.

Definition ALLOWED : gset string :=
  {[ "image/jpeg"; "image/png"; "image/webp"; "image/gif" ]}.

(** [ALLOWED.has(type)] *)
Definition ALLOWED_has (type : string) : bool := bool_decide (type ∈ ALLOWED).

(** [form.get(name)] *)
Definition formGet (form : list (string * FormEntry)) (name : string) : option FormEntry :=
  snd <$> find (fun e => String.eqb (fst e) name) form.

(** [`${n}`] for an integer *)
Definition decimal (n : Z) : string := NilZero.string_of_int (Z.to_int n).

Definition POST (req : Request) : Io Response :=
  match formBody req with
  | None => throw (TypeError "Failed to parse body as FormData")
  | Some form =>
      match formGet form "file" with
      | Some (FormFile file) =>
          let type := if String.eqb (file_type file) ""
                      then "application/octet-stream" else file_type file in
          if negb (ALLOWED_has type)
          then respondWith 400 (BError "Unsupported file type")
          else if (MAX_BYTES <? file_size file)%Z
          then respondWith 400 (BError "File too large (max 5MB)")
          else
            (* extension by MIME, falling back to the original one *)
            let origExt :=
              match file_name file with
              | Some orig => if String.eqb orig "" then "" else Path.extname orig
              | None => ""
              end in
            let ext :=
              if String.eqb type "image/jpeg" then ".jpg"
              else if String.eqb type "image/png" then ".png"
              else if String.eqb type "image/webp" then ".webp"
              else if String.eqb type "image/gif" then ".gif"
              else if String.eqb origExt "" then ".bin" else origExt in
            let buf := file_bytes file in
            let* dir := gets (fun w => cwd w ++ "/public/uploads") in
            Fs.mkdir dir ;;
            let* stamp := gets now in
            let* rnd := (fun w => let (r, w') := draw w in (Done r, w')) in
            let name := decimal stamp ++ "_" ++ rnd ++ ext in
            let fullPath := dir ++ "/" ++ name in
            Fs.writeFile fullPath buf ;;
            let url := "/uploads/" ++ name in
            respondWith 201 (BUrl url)
      | _ => respondWith 400 (BError "No file provided")
      end
  end.

End UploadRoute.

(** How the framework serves a [route.ts]: the module's exported functions
    are its handlers, by HTTP method.  A method without an export is
    answered 405 Method Not Allowed; HEAD falls back on GET, and OPTIONS is
    answered by the framework itself. *)
Inductive Method : Type :=
  | M_GET | M_HEAD | M_OPTIONS | M_POST | M_PUT | M_DELETE | M_PATCH.

Module Next.

Definition Exports : Type := Method -> option (Request -> Io Response).

Definition handle (exports : Exports) (m : Method) (req : Request) : Io Response :=
  match exports m with
  | Some handler => handler req
  | None =>
      match m, exports M_GET with
      | M_HEAD, Some get => let* r := get req in ret (mkResponse (status r) BNone)
      | M_OPTIONS, _ => respondWith 204 BNone
      | _, _ => respondWith 405 BNone
      end
  end.

End Next.

(** What [api/upload/route.ts] exports: [POST] and nothing else. *)
Definition uploadRouteExports : Next.Exports :=
  fun m => match m with
           | M_POST => Some UploadRoute.POST
           | _ => None
           end.

(* ================================================================== *)
(** ** The in-memory placeholder store ([db] over [lib/types.ts]) *)

Module InMemory.

Record Category : Type := mkCategory {
  cat_id : string;
  cat_name : string
}.

Record Partner : Type := mkPartner {
  prt_id : string;
  prt_name : string;
  prt_categoryId : string;   (* FK to Category.id *)
  prt_link : string;
  prt_featured : bool;
  prt_createdAt : string;    (* ISO *)
  prt_updatedAt : string     (* ISO *)
}.

(** The module-level variables. *)
Record Store : Type := mkStore {
  _categories : list Category;
  _partners : list Partner
}.

(** The store as the module initialises it; [boot] is the ISO time of
    loading. *)
Definition initial (boot : string) : Store :=
  mkStore
    [ mkCategory "cat_exch" "Exchange";
      mkCategory "cat_brand" "Brand";
      mkCategory "cat_media" "Media" ]
    [ mkPartner "p_okx" "OKX" "cat_exch" "https://www.okx.com" true boot boot ].

(** [newId(prefix)]; [rnd] is [Math.random().toString(36).slice(2, 10)]. *)
Definition newId (prefix rnd : string) : string := prefix ++ "_" ++ rnd.

(** [Array.prototype.sort(cmp)]: a stable sort; an element goes before the
    first later one it does not compare greater than. *)
Fixpoint insertBy {A} (cmp : A -> A -> Z) (x : A) (l : list A) : list A :=
  match l with
  | [] => [x]
  | y :: rest => if (cmp x y <=? 0)%Z then x :: y :: rest else y :: insertBy cmp x rest
  end.
Definition sort {A} (cmp : A -> A -> Z) (l : list A) : list A :=
  foldr (insertBy cmp) [] l.

Definition listCategories `{Host} (st : Store) : list Category :=
  sort (fun a b => localeCompare (cat_name a) (cat_name b)) (_categories st).

Definition createCategory (name rnd : string) (st : Store) : outcome Category * Store :=
  let exists_ :=
    existsb (fun c => String.eqb (JsString.toLowerCase (cat_name c))
                                 (JsString.toLowerCase name)) (_categories st) in
  if exists_ then (Thrown (Error "Category already exists"), st)
  else
    let cat := mkCategory (newId "cat" rnd) name in
    (Done cat, mkStore (cat :: _categories st) (_partners st)).

Definition updateCategory (id name : string) (st : Store) : option Category * Store :=
  match find (fun c => String.eqb (cat_id c) id) (_categories st) with
  | None => (None, st)
  | Some old =>
      let cat := mkCategory (cat_id old) name in
      (Some cat,
       mkStore (replaceFirst (fun c => String.eqb (cat_id c) id) cat (_categories st))
               (_partners st))
  end.

Definition deleteCategory (id : string) (st : Store) : bool * Store :=
  (* also detach partners that referenced this category *)
  let partners' :=
    map (fun p => if String.eqb (prt_categoryId p) id
                  then mkPartner (prt_id p) (prt_name p) "" (prt_link p)
                         (prt_featured p) (prt_createdAt p) (prt_updatedAt p)
                  else p) (_partners st) in
  let before := List.length (_categories st) in
  let categories' := List.filter (fun c => negb (String.eqb (cat_id c) id)) (_categories st) in
  ((List.length categories' <? before)%nat, mkStore categories' partners').

Definition listPartners (st : Store) : list Partner :=
  sort (fun a b => if String.ltb (prt_createdAt a) (prt_createdAt b) then 1 else -1)%Z
       (_partners st).

(** [Omit<Partner, "id" | "createdAt" | "updatedAt">] *)
Record PartnerData : Type := mkPartnerData {
  pd_name : string;
  pd_categoryId : string;
  pd_link : string;
  pd_featured : bool
}.

(** [createdAt] and [updatedAt] are the times of the two [new Date()]. *)
Definition createPartner (data : PartnerData) (rnd createdAt updatedAt : string)
    (st : Store) : Partner * Store :=
  let p := mkPartner (newId "prtn" rnd) (pd_name data) (pd_categoryId data)
             (pd_link data) (pd_featured data) createdAt updatedAt in
  (p, mkStore (_categories st) (p :: _partners st)).

Definition deletePartner (id : string) (st : Store) : bool * Store :=
  let before := List.length (_partners st) in
  let partners' := List.filter (fun p => negb (String.eqb (prt_id p) id)) (_partners st) in
  ((List.length partners' <? before)%nat, mkStore (_categories st) partners').

End InMemory.

(* ================================================================== *)
(** ** The three entity kinds, side by side

    The PUT and POST handlers of categories, partners and announcements are
    written out three times in the source.  The statements below range over
    the kind of entity and pick the handler, the schema and the table. *)

Inductive Kind : Type := KCategory | KPartner | KAnnouncement.

Definition tableOf (k : Kind) : Table :=
  match k with
  | KCategory => TCategory
  | KPartner => TPartner
  | KAnnouncement => TAnnouncement
  end.

(** [PUT /api/<kind>/{id}] *)
Definition update `{Host} (k : Kind) : Request -> string -> Io Response :=
  match k with
  | KCategory => CategoriesIdRoute.PUT
  | KPartner => PartnersIdRoute.PUT
  | KAnnouncement => AnnouncementsIdRoute.PUT
  end.

(** [POST /api/<kind>] *)
Definition create `{Host} (k : Kind) : Request -> Io Response :=
  match k with
  | KCategory => CategoriesRoute.POST
  | KPartner => PartnersRoute.POST
  | KAnnouncement => AnnouncementsRoute.POST
  end.

(** The image signal of a request the kind's schema accepts; [None] when
    the schema rejects the body. *)
Definition parsedImage `{Host} (k : Kind) (req : Request) : option nullish :=
  match k with
  | KCategory =>
      match Zod.categorySchema (readJson req) with
      | Zod.Success d => Some (Zod.ci_imageUrl d)
      | Zod.Failure _ => None
      end
  | KPartner =>
      match Zod.partnerSchema (readJson req) with
      | Zod.Success d => Some (Zod.pi_imageUrl d)
      | Zod.Failure _ => None
      end
  | KAnnouncement =>
      match Zod.announcementSchema (readJson req) with
      | Zod.Success d => Some (Zod.ai_imageUrl d)
      | Zod.Failure _ => None
      end
  end.

(** The image column of the record [id]: [None] when there is no such
    record, [Some None] when its image is NULL. *)
Definition imageOf (k : Kind) (id : string) (d : Db) : option (option string) :=
  match k with
  | KCategory => c_imageUrl <$> find (prisma.category.hasId id) (categories d)
  | KPartner => p_imageUrl <$> find (prisma.partner.hasId id) (partners d)
  | KAnnouncement => a_imageUrl <$> find (prisma.announcement.hasId id) (announcements d)
  end.

(** The image field of a record sent back in a response. *)
Definition bodyImage (b : Body) : option (option string) :=
  match b with
  | BCategory c => Some (c_imageUrl c)
  | BPartner p => Some (p_imageUrl p)
  | BAnnouncement a => Some (a_imageUrl a)
  | _ => None
  end.

(** The response the client gets: the framework answers an exception that
    escapes the handler with 500. *)
Definition responseOf (o : outcome Response) : Response :=
  match o with
  | Done r => r
  | Thrown _ => mkResponse 500 BNone
  end.

(** The events a run added to the log. *)
Definition newEvents (w w' : World) : list Event :=
  drop (List.length (log w)) (log w').

Definition isUnlink (e : Event) : bool :=
  match e with
  | EvUnlink _ => true
  | _ => false
  end.

(** A blob deletion was attempted between [w] and [w']. *)
Definition deletionAttempted (w w' : World) : Prop :=
  existsb isUnlink (newEvents w w') = true.

(** The deletion [deleteUploadIfLocal(url)] attempts in world [w], if any. *)
Definition unlinkOf (url : nullish) (w : World) : list Event :=
  match url with
  | Str u =>
      if Uploads.isLocalUpload url then [EvUnlink (Path.join [cwd w; "public"; u])] else []
  | _ => []
  end.

(** The events that follow the store write of a PUT: the old blob goes when
    the field was supplied and differs from the stored one, and then only
    through [deleteUploadIfLocal]. *)
Definition cleanupOf (sig : nullish) (old : option string) (w : World) : list Event :=
  if decide (sig <> Undefined /\ sig <> ofColumn old) then unlinkOf (ofColumn old) w else [].

(** No row stores the empty string as its image. *)
Definition noEmptyImage (d : Db) : Prop :=
  Forall (fun c => c_imageUrl c <> Some "") (categories d)
  /\ Forall (fun p => p_imageUrl p <> Some "") (partners d)
  /\ Forall (fun a => a_imageUrl a <> Some "") (announcements d).



(** [orderBy: { createdAt: "desc" }] on announcements, which the route
    does not ask for. *)
Definition announcementCreatedAtDesc : relation Announcement :=
  fun a b => (a_createdAt b <= a_createdAt a)%Z.

(** A file of [n] zero bytes. *)
Definition zeroFile (type : string) (n : Z) : File :=
  mkFile None type (repeat Byte.x00 (Z.to_nat n)).

(** A request that carries [f] as its form field [file]. *)
Definition uploadRequest (f : File) : Request :=
  mkRequest [] None (Some [("file", FormFile f)]).

(** The declared media type the upload handler checks. *)
Definition declaredType (f : File) : string :=
  if String.eqb (file_type f) "" then "application/octet-stream" else file_type f.

(* ================================================================== *)
(** ** A host and worlds to run the handlers on *)

(** [new Date(v)] as far as the stand-in host reads it: the time value, or
    [None] for an invalid date. *)
Module JsDate.

Definition msPerDay : Z := 86400000.

(** The value of a decimal digit. *)
Definition digit (c : ascii) : option Z :=
  let n := JsString.code c in
  if ((48 <=? n) && (n <=? 57))%N then Some (Z.of_N n - 48) else None.

Definition twoDigits (a b : ascii) : option Z :=
  match digit a, digit b with
  | Some x, Some y => Some (10 * x + y)
  | _, _ => None
  end.

Definition fourDigits (a b c d : ascii) : option Z :=
  match twoDigits a b, twoDigits c d with
  | Some x, Some y => Some (100 * x + y)
  | _, _ => None
  end.

(** The day number, counted from 1 January 1970, of the first day of month
    [m] (1 to 12) of year [y] in the proleptic Gregorian calendar. *)
Definition firstOfMonth (y m : Z) : Z :=
  let y' := if (m <=? 2)%Z then y - 1 else y in
  let era := y' / 400 in
  let yoe := y' - era * 400 in
  let mp := (m + 9) mod 12 in
  let doy := (153 * mp + 2) / 5 in
  let doe := yoe * 365 + yoe / 4 - yoe / 100 + doy in
  era * 146097 + doe - 719468.

(** [Date.parse(s)] on the date-only form [YYYY-MM-DD]: midnight UTC of
    that day.  V8 takes a month from 1 to 12 and a day from 1 to 31, and
    counts a day past the end of the month on into the next one. *)
Definition parseDateOnly (s : string) : option Z :=
  match list_ascii_of_string s with
  | [y1; y2; y3; y4; s1; m1; m2; s2; d1; d2] =>
      if Ascii.eqb s1 "-" && Ascii.eqb s2 "-"
      then
        match fourDigits y1 y2 y3 y4, twoDigits m1 m2, twoDigits d1 d2 with
        | Some y, Some m, Some d =>
            if ((1 <=? m) && (m <=? 12) && (1 <=? d) && (d <=? 31))%Z
            then Some ((firstOfMonth y m + d - 1) * msPerDay)
            else None
        | _, _, _ => None
        end
      else None
  | _ => None
  end.

(** The year, month and day of a day number. *)
Definition civil (days : Z) : Z * Z * Z :=
  let z := days + 719468 in
  let era := z / 146097 in
  let doe := z - era * 146097 in
  let yoe := (doe - doe / 1460 + doe / 36524 - doe / 146096) / 365 in
  let doy := doe - (365 * yoe + yoe / 4 - yoe / 100) in
  let mp := (5 * doy + 2) / 153 in
  let d := doy - (153 * mp + 2) / 5 + 1 in
  let m := if (mp <? 10)%Z then mp + 3 else mp - 9 in
  (if (m <=? 2)%Z then yoe + era * 400 + 1 else yoe + era * 400, m, d).

(** [new Date(d.getFullYear(), d.getMonth(), d.getDate())] where local
    time is UTC: midnight of the day of [t].  The constructor reads a year
    from 0 to 99 as 1900 plus that year. *)
Definition startOfDay (t : Z) : Z :=
  let '(y, m, d) := civil (t / msPerDay) in
  let y := if ((0 <=? y) && (y <=? 99))%Z then 1900 + y else y in
  (firstOfMonth y m + d - 1) * msPerDay.

(** [TimeClip]: a time value is at most 8.64e15 ms from the epoch. *)
Definition timeClip (t : Z) : option Z :=
  if (Z.abs t <=? 8640000000000000)%Z then Some t else None.

(** What [z.coerce.date()] makes of a JSON value.  A number is a time
    value, [null] and the booleans are converted to numbers, a string is
    parsed; [undefined] is no date.  Of the strings the stand-in reads the
    date-only form, which is what the pages send; for the other forms, and
    for arrays and objects (converted to strings first), what [Date.parse]
    accepts is left to the implementation, and the stand-in takes none. *)
Definition coerce (v : option json) : option Z :=
  match v with
  | Some (JNumber n) => timeClip n
  | Some JNull => Some 0
  | Some (JBool b) => Some (if b then 1 else 0)
  | Some (JString s) => parseDateOnly s
  | _ => None
  end.

End JsDate.

Definition demoHost : Host :=
  mkHost JsString.testHttpScheme
    JsDate.coerce
    JsDate.startOfDay
    (fun a b => match String.compare a b with Lt => -1 | Eq => 0 | Gt => 1 end).

Definition demoWorld (image : option string) : World :=
  mkWorld
    (mkDb [mkCategory "c1" "Exchange" None 1 1]
          [mkPartner "p1" "OKX" "https://okx.com" true (Some "c1") image 5 5]
          [mkAnnouncement "a1" "Launch" "We are live" "https://trl.co" 20 None 10 10;
           mkAnnouncement "a2" "Update" "Version two" "https://trl.co" 10 None 30 30])
    (mkFs {[ "/srv/app/public/uploads/a.jpg" := [] ]} ∅)
    "/srv/app" 100 (fun _ => "0a1b2c3d4e5f") 0 [].

Definition partnerBody (name : string) (image : option json) : json :=
  JObject ([("name", JString name); ("categoryId", JString "c1");
            ("link", JString "https://okx.com"); ("featured", JBool true)]
           ++ match image with Some v => [("imageUrl", v)] | None => [] end).

Definition partnerPut (name : string) (image : option json) : Request :=
  mkRequest [] (Some (partnerBody name image)) None.

(* ================================================================== *)
(** ** The whole API, request by request *)

(** [DELETE /api/<kind>/{id}] *)
Definition remove (k : Kind) : string -> Io Response :=
  match k with
  | KCategory => CategoriesIdRoute.DELETE
  | KPartner => PartnersIdRoute.DELETE
  | KAnnouncement => AnnouncementsIdRoute.DELETE
  end.

(** [GET /api/<kind>] *)
Definition listing (k : Kind) : Io Response :=
  match k with
  | KCategory => CategoriesRoute.GET
  | KPartner => PartnersRoute.GET
  | KAnnouncement => AnnouncementsRoute.GET
  end.

(** The primary keys of the table of a kind, in table order. *)
Definition idsOf (k : Kind) (d : Db) : list string :=
  match k with
  | KCategory => map c_id (categories d)
  | KPartner => map p_id (partners d)
  | KAnnouncement => map a_id (announcements d)
  end.

(** One request to the API. *)
Inductive Call : Type :=
  | CallList (k : Kind)
  | CallCreate (k : Kind) (req : Request)
  | CallUpdate (k : Kind) (req : Request) (id : string)
  | CallRemove (k : Kind) (id : string)
  | CallUpload (req : Request).

Definition call `{Host} (c : Call) : Io Response :=
  match c with
  | CallList k => listing k
  | CallCreate k req => create k req
  | CallUpdate k req id => update k req id
  | CallRemove k id => remove k id
  | CallUpload req => UploadRoute.POST req
  end.

(** Requests served one after the other: each runs in the world the one
    before left, whatever it answered. *)
Fixpoint serve `{Host} (cs : list Call) (w : World) : World :=
  match cs with
  | [] => w
  | c :: rest => serve rest (snd (call c w))
  end.

(** What the migration declares: primary keys, the unique index on the
    category name, and the foreign key of a partner's category. *)
Definition consistent (d : Db) : Prop :=
  NoDup (map c_id (categories d))
  /\ NoDup (map p_id (partners d))
  /\ NoDup (map a_id (announcements d))
  /\ NoDup (map c_name (categories d))
  /\ Forall (fun p => forall c, p_categoryId p = Some c -> In c (map c_id (categories d)))
       (partners d).

(** The tables once the record [id] of a kind is deleted; deleting a
    category also nulls the reference of the partners that had it. *)
Definition withoutRecord (k : Kind) (id : string) (d : Db) : Db :=
  match k with
  | KCategory =>
      mkDb (removeFirst (prisma.category.hasId id) (categories d))
           (map (prisma.category.setNull id) (partners d)) (announcements d)
  | KPartner =>
      mkDb (categories d) (removeFirst (prisma.partner.hasId id) (partners d))
           (announcements d)
  | KAnnouncement =>
      mkDb (categories d) (partners d)
           (removeFirst (prisma.announcement.hasId id) (announcements d))
  end.

(** The directory the uploads live in, as [toFsPath] names it. *)
Definition uploadsDir (w : World) : string := Path.join [cwd w; "public"; "uploads"].

(** [p] is the uploads directory or a path below it. *)
Definition withinUploads (w : World) (p : string) : Prop :=
  p = uploadsDir w \/ JsString.startsWith p (uploadsDir w ++ "/") = true.

(** The paths of the unlinks among some events. *)
Definition unlinkedPaths (evs : list Event) : list string :=
  flat_map (fun e => match e with EvUnlink p => [p] | _ => [] end) evs.

(** The segments [normalizeString] keeps. *)
Definition keptSegment (s : string) : bool :=
  negb (String.eqb s "" || String.eqb s ".").

(** [c] occurs in [s]. *)
Definition hasChar (c : ascii) (s : string) : bool :=
  existsb (Ascii.eqb c) (list_ascii_of_string s).

(** A working directory as [process.cwd()] gives it: absolute, already
    normalized, and not ending in a slash (so not the root). *)
Definition normalDirectory (d : string) : Prop :=
  JsString.startsWith d "/" = true
  /\ Path.endsWithSlash d = false
  /\ Path.normalize d = d.

(** The extension the upload handler gives to a file of an allowed type. *)
Definition extensionOf (type : string) : string :=
  if String.eqb type "image/jpeg" then ".jpg"
  else if String.eqb type "image/png" then ".png"
  else if String.eqb type "image/webp" then ".webp"
  else ".gif".

(** What a run from [w] to [w'] leaves alone: the working directory
    stays, every [unlink] it logs names the uploads directory or a path
    below it, and no file elsewhere is removed. *)
Definition sparesOutside (w w' : World) : Prop :=
  cwd w' = cwd w
  /\ (exists evs, log w' = (log w ++ evs)%list
                  /\ Forall (withinUploads w) (unlinkedPaths evs))
  /\ (forall p, ~ withinUploads w p ->
                is_Some (files (fs w) !! p) -> is_Some (files (fs w') !! p)).

(** A computation that spares the files outside the uploads directory,
    whenever the working directory is absolute. *)
Definition tame {A} (m : Io A) : Prop :=
  forall w, JsString.startsWith (cwd w) "/" = true -> sparesOutside w (snd (m w)).

(** [randomBytes(6).toString("hex")] writes with these digits. *)
Definition isHexDigit (c : ascii) : bool := hasChar c "0123456789abcdef".

Definition isHex (s : string) : bool := forallb isHexDigit (list_ascii_of_string s).

(** An image address as the schemas let it through: trimmed, not empty,
    and either below [/uploads/] or with an http(s) scheme. *)
Definition isAddress (s : string) : Prop :=
  s <> ""
  /\ JsString.trim s = s
  /\ (JsString.startsWith s "/uploads/" = true \/ JsString.testHttpScheme s = true).

(** Every image column that is set holds a [good] string. *)
Definition imagesAre (good : string -> Prop) (d : Db) : Prop :=
  Forall (fun c => forall s, c_imageUrl c = Some s -> good s) (categories d)
  /\ Forall (fun p => forall s, p_imageUrl p = Some s -> good s) (partners d)
  /\ Forall (fun a => forall s, a_imageUrl a = Some s -> good s) (announcements d).

(** [JSON.stringify] of an object with the member [imageUrl]: a member
    that is [undefined] is left out. *)
Definition imageMember (i : nullish) : list (string * json) :=
  match i with
  | Undefined => []
  | Null => [("imageUrl", JNull)]
  | Str s => [("imageUrl", JString s)]
  end.

(** [JSON.parse(JSON.stringify(data))] of what the category and partner
    schemas return. *)
Definition categoryJson (d : Zod.CategoryInput) : json :=
  JObject (("name", JString (Zod.ci_name d)) :: imageMember (Zod.ci_imageUrl d)).

Definition partnerJson (d : Zod.PartnerInput) : json :=
  JObject ([("name", JString (Zod.pi_name d));
            ("categoryId", JString (Zod.pi_categoryId d));
            ("link", JString (Zod.pi_link d));
            ("featured", JBool (Zod.pi_featured d))]
           ++ imageMember (Zod.pi_imageUrl d))%list.

(** The names of the placeholder store, letter case put aside. *)
Definition lowerNames (st : InMemory.Store) : list string :=
  map (fun c => JsString.toLowerCase (InMemory.cat_name c)) (InMemory._categories st).

(* ================================================================== *)
(** ** The browser side *)

Module Browser.

(** [res.ok] *)
Definition ok (res : Response) : bool :=
  (200 <=? status res)%Z && (status res <=? 299)%Z.

(** [fetch(url, init)], the url and the method having selected [handler].
    An exception that escapes a handler is answered 500 by the framework,
    with a body that is not JSON.  The pages are used within a session, so
    the middleware lets their requests through. *)
Definition fetch (handler : Io Response) : Io Response :=
  tryCatch handler (fun _ => respondWith 500 BNone).

(** [json.error] of a parsed body *)
Definition errorOf (b : Body) : option string :=
  match b with
  | BError e => Some e
  | BInvalid _ => Some "Invalid input"
  | _ => None
  end.

(** [await res.json()]: rejects when the body is not JSON; the message of
    the [SyntaxError] is the engine's. *)
Definition parseJson (res : Response) : Io Body :=
  match body res with
  | BNone => throw (Error "Unexpected end of JSON input")
  | b => ret b
  end.

(** The helper [api] the pages define:
    [if (!res.ok) throw new Error((await res.json().catch(() => ({}))).error
      ?? "Request failed"); return res.json()] *)
Definition api (handler : Io Response) : Io Body :=
  let* res := fetch handler in
  if negb (ok res)
  then throw (Error (default "Request failed" (errorOf (body res))))
  else parseJson res.

(** [e.message] *)
Definition message (e : Exn) : string :=
  match e with
  | PrismaError m | FsError m | TypeError m | Error m => m
  end.

(** A request whose body is [JSON.stringify(payload)]. *)
Definition jsonRequest (payload : json) : Request :=
  mkRequest [] (Some payload) None.

End Browser.

(* ================================================================== *)
(** ** The categories page *)

Module CategoriesPage.

Record NewDraft : Type := mkNewDraft {
  nd_name : string;
  nd_imageUrl : nullish;
  nd_file : option File;          (* _file *)
  nd_preview : option string      (* _preview *)
}.

Record EditDraft : Type := mkEditDraft {
  ed_id : string;
  ed_name : string;
  ed_imageUrl : nullish;          (* undefined: no change, string: set, null: clear *)
  ed_file : option File;
  ed_preview : option string
}.

(** [Record<string, string>], the keys in the order they were set. *)
Definition Errors : Type := list (string * string).

(** [CategorySchema.safeParse({ name, imageUrl })]: the issues, each with
    its path and message; none when the parse succeeds. *)
Definition CategorySchema (name : string) (imageUrl : nullish) : list (string * string) :=
  ((if (2 <=? JsString.length (JsString.trim name))%Z then []
    else [("name", "Name must be at least 2 characters")])
   ++ match imageUrl with
      | Str s =>
          let v := JsString.trim s in
          if JsString.startsWith v "/uploads/" || JsString.testHttpScheme v then []
          else [("imageUrl", "Image must be a full URL or start with /uploads/")]
      | _ => []
      end)%list.

(** [for (const issue of issues) { if (!map[k]) map[k] = issue.message }] *)
Definition collect (issues : list (string * string)) : Errors :=
  fold_left
    (fun map issue =>
       match find (fun e => String.eqb (fst e) (fst issue)) map with
       | Some e =>
           if String.eqb (snd e) ""
           then replaceFirst (fun e => String.eqb (fst e) (fst issue)) issue map
           else map
       | None => (map ++ [issue])%list
       end)
    issues [].

Definition validateNew (d : NewDraft) : Errors :=
  collect (CategorySchema (nd_name d) (nd_imageUrl d)).

Definition validateEdit (d : EditDraft) : Errors :=
  let imageUrl := match ed_imageUrl d with Null => Undefined | v => v end in
  collect (CategorySchema (ed_name d) imageUrl).

(** The state of the page, and what [alert] has shown. *)
Record Page : Type := mkPage {
  items : list Category;
  loading : bool;
  pageError : option string;
  create : NewDraft;
  createErrors : Errors;
  createBusy : bool;
  edit : option EditDraft;
  editErrors : Errors;
  editBusy : bool;
  alerts : list string
}.

Definition setItems (v : list Category) (p : Page) : Page :=
  mkPage v (loading p) (pageError p) (create p) (createErrors p) (createBusy p)
    (edit p) (editErrors p) (editBusy p) (alerts p).
Definition setCreate (v : NewDraft) (p : Page) : Page :=
  mkPage (items p) (loading p) (pageError p) v (createErrors p) (createBusy p)
    (edit p) (editErrors p) (editBusy p) (alerts p).
Definition setCreateErrors (v : Errors) (p : Page) : Page :=
  mkPage (items p) (loading p) (pageError p) (create p) v (createBusy p)
    (edit p) (editErrors p) (editBusy p) (alerts p).
Definition setCreateBusy (v : bool) (p : Page) : Page :=
  mkPage (items p) (loading p) (pageError p) (create p) (createErrors p) v
    (edit p) (editErrors p) (editBusy p) (alerts p).
Definition setEdit (v : option EditDraft) (p : Page) : Page :=
  mkPage (items p) (loading p) (pageError p) (create p) (createErrors p) (createBusy p)
    v (editErrors p) (editBusy p) (alerts p).
Definition setEditErrors (v : Errors) (p : Page) : Page :=
  mkPage (items p) (loading p) (pageError p) (create p) (createErrors p) (createBusy p)
    (edit p) v (editBusy p) (alerts p).
Definition setEditBusy (v : bool) (p : Page) : Page :=
  mkPage (items p) (loading p) (pageError p) (create p) (createErrors p) (createBusy p)
    (edit p) (editErrors p) v (alerts p).
(** [alert(message)] *)
Definition alert (m : string) (p : Page) : Page :=
  mkPage (items p) (loading p) (pageError p) (create p) (createErrors p) (createBusy p)
    (edit p) (editErrors p) (editBusy p) (alerts p ++ [m])%list.

(** The state the page starts in. *)
Definition initial : Page :=
  mkPage [] true None (mkNewDraft "" Undefined None None) [] false None [] false [].

(** [upload(file)] *)
Definition upload (file : option File) : Io nullish :=
  match file with
  | None => ret Null
  | Some f =>
      let* res := Browser.fetch (Next.handle uploadRouteExports M_POST (uploadRequest f)) in
      let* parsed := Browser.parseJson res in
      if negb (Browser.ok res)
      then throw (Error (match Browser.errorOf parsed with
                         | Some e => if String.eqb e "" then "Upload failed" else e
                         | None => "Upload failed"
                         end))
      else ret (match parsed with BUrl url => Str url | _ => Undefined end)
  end.

(** The orphan cleanup of the [catch] blocks:
    [if (uploaded && uploaded.startsWith("/uploads/"))
       fetch(`/api/upload?url=...`, { method: "DELETE" }).catch(() => {})] *)
Definition cleanup (uploaded : nullish) : Io unit :=
  match uploaded with
  | Str u =>
      if negb (String.eqb u "") && JsString.startsWith u "/uploads/"
      then Browser.fetch
             (Next.handle uploadRouteExports M_DELETE (mkRequest [("url", u)] None None)) ;;
           ret tt
      else ret tt
  | _ => ret tt
  end.

(** [{ name: create.name.trim(), imageUrl: uploaded ?? null }] *)
Definition addPayload (d : NewDraft) (uploaded : nullish) : json :=
  JObject [("name", JString (JsString.trim (nd_name d)));
           ("imageUrl", match uploaded with Str u => JString u | _ => JNull end)].

(** [add()].  The variable [uploaded] is set by the first statement of the
    [try] block and read by the [catch] block; the two handlers below are
    that one [catch] block, before and after the assignment. *)
Definition add (p : Page) : Io Page :=
  let errs := validateNew (create p) in
  let p := setCreateErrors errs p in
  match errs with
  | _ :: _ => ret p
  | [] =>
      let p := setCreateBusy true p in
      let* p :=
        tryCatch
          (let* uploaded := upload (nd_file (create p)) in
           tryCatch
             (let payload := addPayload (create p) uploaded in
              let* cat := Browser.api (CategoriesRoute.POST (Browser.jsonRequest payload)) in
              let p := match cat with
                       | BCategory c => setItems (c :: items p) p
                       | _ => p
                       end in
              let p := setCreate (mkNewDraft "" Undefined None None) p in
              ret (setCreateErrors [] p))
             (fun e => cleanup uploaded ;; ret (alert (Browser.message e) p)))
          (fun e => ret (alert (Browser.message e) p)) in
      ret (setCreateBusy false p)
  end.

(** [startEdit(c)] *)
Definition startEdit (c : Category) (p : Page) : Page :=
  let d := mkEditDraft (c_id c) (c_name c) Undefined None None in
  setEditErrors (validateEdit d) (setEdit (Some d) p).

(** The body [save()] sends: [{ name: edit.name.trim() }], with the member
    [imageUrl] when [uploaded !== undefined]. *)
Definition savePayload (d : EditDraft) (uploaded : nullish) : json :=
  JObject (("name", JString (JsString.trim (ed_name d)))
           :: match uploaded with
              | Undefined => []
              | Null => [("imageUrl", JNull)]
              | Str u => [("imageUrl", JString u)]
              end).

(** [save()], with [uploaded] as in [add]. *)
Definition save (p : Page) : Io Page :=
  match edit p with
  | None => ret p
  | Some d =>
      let errs := validateEdit d in
      let p := setEditErrors errs p in
      match errs with
      | _ :: _ => ret p
      | [] =>
          let p := setEditBusy true p in
          let* p :=
            tryCatch
              (let* uploaded :=
                 match ed_file d with
                 | Some f => upload (Some f)
                 | None => ret (match ed_imageUrl d with Null => Undefined | v => v end)
                 end in
               tryCatch
                 (let payload := savePayload d uploaded in
                  let* updated :=
                    Browser.api (CategoriesIdRoute.PUT (Browser.jsonRequest payload) (ed_id d)) in
                  let p := match updated with
                           | BCategory u =>
                               setItems
                                 (map (fun c => if String.eqb (c_id c) (c_id u) then u else c)
                                    (items p)) p
                           | _ => p
                           end in
                  ret (setEditErrors [] (setEdit None p)))
                 (fun e => cleanup uploaded ;; ret (alert (Browser.message e) p)))
              (fun e => ret (alert (Browser.message e) p)) in
          ret (setEditBusy false p)
      end
  end.

(** [del(id)]; [confirmed] is what the user answers to [confirm]. *)
Definition del (confirmed : bool) (id : string) (p : Page) : Io Page :=
  if negb confirmed then ret p
  else
    tryCatch
      (Browser.api (CategoriesIdRoute.DELETE id) ;;
       ret (setItems (List.filter (fun c => negb (String.eqb (c_id c) id)) (items p)) p))
      (fun e => ret (alert (Browser.message e) p)).

End CategoriesPage.

(* ================================================================== *)
(** ** The partners page *)

Module PartnersPage.

(** [PartnerFormState].  [categoryId] is [None] when the row the draft was
    made from has no category (the column is NULL once its category is
    deleted). *)
Record PartnerFormState : Type := mkPartnerFormState {
  fs_id : option string;
  fs_name : string;
  fs_categoryId : option string;
  fs_link : string;
  fs_featured : bool;
  fs_imageUrl : nullish;
  fs_file : option File;          (* _file *)
  fs_preview : option string      (* _preview *)
}.

(** [PartnerFormSchema.safeParse(...)]: the issues, each with its path and
    message; none when the parse succeeds. *)
Definition PartnerFormSchema `{Host} (d : PartnerFormState) : list (string * string) :=
  ((if (2 <=? JsString.length (JsString.trim (fs_name d)))%Z then []
    else [("name", "Name must be at least 2 characters")])
   ++ match fs_categoryId d with
      | None => [("categoryId", "Expected string, received null")]
      | Some c => if (1 <=? JsString.length c)%Z then []
                  else [("categoryId", "Choose a category")]
      end
   ++ (if isUrl (JsString.trim (fs_link d)) then []
       else [("link", "Please enter a valid URL (https://...)")])
   ++ match fs_imageUrl d with
      | Str s =>
          let v := JsString.trim s in
          if JsString.startsWith v "/uploads/" || JsString.testHttpScheme v then []
          else [("imageUrl", "Image must be a full URL or start with /uploads/")]
      | _ => []
      end)%list.

(** [validateDraft(d)], with the loop of the categories page. *)
Definition validateDraft `{Host} (d : PartnerFormState) : CategoriesPage.Errors :=
  CategoriesPage.collect (PartnerFormSchema d).

(** The state of the page. *)
Record Page : Type := mkPage {
  items : list Partner;
  cats : list Category;
  loading : bool;
  error : option string;
  modalOpen : bool;
  draft : option PartnerFormState;
  errors : CategoriesPage.Errors;
  formAlert : option string;
  saving : bool;
  alerts : list string            (* what [alert] has shown *)
}.

Definition setItems (v : list Partner) (p : Page) : Page :=
  mkPage v (cats p) (loading p) (error p) (modalOpen p) (draft p) (errors p)
    (formAlert p) (saving p) (alerts p).
Definition setModalOpen (v : bool) (p : Page) : Page :=
  mkPage (items p) (cats p) (loading p) (error p) v (draft p) (errors p)
    (formAlert p) (saving p) (alerts p).
Definition setDraft (v : option PartnerFormState) (p : Page) : Page :=
  mkPage (items p) (cats p) (loading p) (error p) (modalOpen p) v (errors p)
    (formAlert p) (saving p) (alerts p).
Definition setErrors (v : CategoriesPage.Errors) (p : Page) : Page :=
  mkPage (items p) (cats p) (loading p) (error p) (modalOpen p) (draft p) v
    (formAlert p) (saving p) (alerts p).
Definition setFormAlert (v : option string) (p : Page) : Page :=
  mkPage (items p) (cats p) (loading p) (error p) (modalOpen p) (draft p) (errors p)
    v (saving p) (alerts p).
Definition setSaving (v : bool) (p : Page) : Page :=
  mkPage (items p) (cats p) (loading p) (error p) (modalOpen p) (draft p) (errors p)
    (formAlert p) v (alerts p).
Definition alert (m : string) (p : Page) : Page :=
  mkPage (items p) (cats p) (loading p) (error p) (modalOpen p) (draft p) (errors p)
    (formAlert p) (saving p) (alerts p ++ [m])%list.

(** [openCreate()] *)
Definition openCreate `{Host} (p : Page) : Page :=
  let first := match cats p with c :: _ => c_id c | [] => "" end in
  let d := mkPartnerFormState None "" (Some first) "" false Undefined None None in
  setModalOpen true (setFormAlert None (setErrors (validateDraft d) (setDraft (Some d) p))).

(** [openEdit(p)] *)
Definition openEdit `{Host} (row : Partner) (p : Page) : Page :=
  let d := mkPartnerFormState (Some (p_id row)) (p_name row) (p_categoryId row)
             (p_link row) (p_featured row)
             (match p_imageUrl row with Some s => Str s | None => Undefined end)
             None None in
  setModalOpen true (setFormAlert None (setErrors (validateDraft d) (setDraft (Some d) p))).

(** [uploadFileIfNeeded()]; the request is the one [upload] of the
    categories page makes. *)
Definition uploadFileIfNeeded (p : Page) : Io nullish :=
  match draft p with
  | Some d =>
      match fs_file d with
      | Some f => CategoriesPage.upload (Some f)
      | None => ret (match fs_imageUrl d with Undefined => Null | v => v end)
      end
  | None => ret Null
  end.

(** The body [submitDraft] sends. *)
Definition payload (d : PartnerFormState) (uploadedUrl : nullish) : json :=
  JObject ([("name", JString (JsString.trim (fs_name d)));
            ("categoryId", match fs_categoryId d with Some c => JString c | None => JNull end);
            ("link", JString (JsString.trim (fs_link d)));
            ("featured", JBool (fs_featured d))]
           ++ match uploadedUrl with
              | Undefined => []
              | Null => [("imageUrl", JNull)]
              | Str u => [("imageUrl", JString u)]
              end)%list.

(** The cleanup of the [catch] block, made for an edit only. *)
Definition cleanup (d : PartnerFormState) (uploadedUrl : nullish) : Io unit :=
  match fs_id d with
  | Some id => if String.eqb id "" then ret tt else CategoriesPage.cleanup uploadedUrl
  | None => ret tt
  end.

(** [setFormAlert(e.message || "Save failed")] *)
Definition failed (e : Exn) (p : Page) : Page :=
  setFormAlert
    (Some (if String.eqb (Browser.message e) "" then "Save failed" else Browser.message e)) p.

(** [submitDraft()], with [uploadedUrl] as [uploaded] in the categories
    page: the two handlers are the one [catch] block, before and after the
    assignment. *)
Definition submitDraft `{Host} (p : Page) : Io Page :=
  match draft p with
  | None => ret p
  | Some d =>
      let clientErrors := validateDraft d in
      let p := setErrors clientErrors p in
      match clientErrors with
      | _ :: _ => ret (setFormAlert (Some "Please fix the highlighted fields.") p)
      | [] =>
          let p := setFormAlert None (setSaving true p) in
          let* p :=
            tryCatch
              (let* uploadedUrl := uploadFileIfNeeded p in
               tryCatch
                 (let body := Browser.jsonRequest (payload d uploadedUrl) in
                  let* p :=
                    match fs_id d with
                    | Some id =>
                        if String.eqb id ""
                        then
                          let* created := Browser.api (PartnersRoute.POST body) in
                          ret (match created with
                               | BPartner c => setItems (c :: items p) p
                               | _ => p
                               end)
                        else
                          let* updated := Browser.api (PartnersIdRoute.PUT body id) in
                          ret (match updated with
                               | BPartner u =>
                                   setItems
                                     (map (fun x => if String.eqb (p_id x) (p_id u) then u else x)
                                        (items p)) p
                               | _ => p
                               end)
                    | None =>
                        let* created := Browser.api (PartnersRoute.POST body) in
                        ret (match created with
                             | BPartner c => setItems (c :: items p) p
                             | _ => p
                             end)
                    end in
                  ret (setDraft None (setModalOpen false p)))
                 (fun e => cleanup d uploadedUrl ;; ret (failed e p)))
              (fun e => ret (failed e p)) in
          ret (setSaving false p)
      end
  end.

(** [deletePartner(id)]; [confirmed] is what the user answers to [confirm]. *)
Definition deletePartner (confirmed : bool) (id : string) (p : Page) : Io Page :=
  if negb confirmed then ret p
  else
    tryCatch
      (Browser.api (PartnersIdRoute.DELETE id) ;;
       ret (setItems (List.filter (fun x => negb (String.eqb (p_id x) id)) (items p)) p))
      (fun e => ret (alert (Browser.message e) p)).

End PartnersPage.

(* ================================================================== *)
(** ** The announcements page *)

Module AnnouncementsPage.

Record Draft : Type := mkDraft {
  dr_id : option string;
  dr_title : string;
  dr_description : string;
  dr_link : string;
  dr_datePublished : string;      (* "yyyy-MM-dd" of the date input *)
  dr_imageUrl : nullish;
  dr_file : option File;          (* _file *)
  dr_preview : option string      (* _preview *)
}.

(** [\d] *)
Definition isDigit (c : ascii) : bool :=
  let n := JsString.code c in ((48 <=? n) && (n <=? 57))%N.

(** [/^\d{4}-\d{2}-\d{2}$/.test(s)] *)
Definition isDateInput (s : string) : bool :=
  match list_ascii_of_string s with
  | [y1; y2; y3; y4; s1; m1; m2; s2; d1; d2] =>
      forallb isDigit [y1; y2; y3; y4; m1; m2; d1; d2]
      && Ascii.eqb s1 "-" && Ascii.eqb s2 "-"
  | _ => false
  end.

(** [AnnFormSchema.safeParse(...)]: the issues, each with its path and
    message; none when the parse succeeds. *)
Definition AnnFormSchema `{Host} (d : Draft) : list (string * string) :=
  ((if (2 <=? JsString.length (JsString.trim (dr_title d)))%Z then []
    else [("title", "Title must be at least 2 characters")])
   ++ (if (2 <=? JsString.length (JsString.trim (dr_description d)))%Z then []
       else [("description", "Description must be at least 2 characters")])
   ++ (if isUrl (JsString.trim (dr_link d)) then []
       else [("link", "Please enter a valid URL (https://...)")])
   ++ (if isDateInput (dr_datePublished d) then []
       else [("datePublished", "Pick a date")])
   ++ match dr_imageUrl d with
      | Str s =>
          let v := JsString.trim s in
          if String.eqb v "" || JsString.startsWith v "/uploads/" || JsString.testHttpScheme v
          then []
          else [("imageUrl", "Image must be a full URL or start with /uploads/")]
      | _ => []
      end)%list.

(** [validateDraft(d)], with the loop of the categories page. *)
Definition validateDraft `{Host} (d : Draft) : CategoriesPage.Errors :=
  CategoriesPage.collect (AnnFormSchema d).

(** The state of the page, and what [alert] has shown. *)
Record Page : Type := mkPage {
  items : list Announcement;
  loading : bool;
  error : option string;
  modalOpen : bool;
  draft : option Draft;
  saving : bool;
  errors : CategoriesPage.Errors;
  formAlert : option string;
  alerts : list string
}.

Definition setItems (v : list Announcement) (p : Page) : Page :=
  mkPage v (loading p) (error p) (modalOpen p) (draft p) (saving p) (errors p)
    (formAlert p) (alerts p).
Definition setModalOpen (v : bool) (p : Page) : Page :=
  mkPage (items p) (loading p) (error p) v (draft p) (saving p) (errors p)
    (formAlert p) (alerts p).
Definition setDraft (v : option Draft) (p : Page) : Page :=
  mkPage (items p) (loading p) (error p) (modalOpen p) v (saving p) (errors p)
    (formAlert p) (alerts p).
Definition setSaving (v : bool) (p : Page) : Page :=
  mkPage (items p) (loading p) (error p) (modalOpen p) (draft p) v (errors p)
    (formAlert p) (alerts p).
Definition setErrors (v : CategoriesPage.Errors) (p : Page) : Page :=
  mkPage (items p) (loading p) (error p) (modalOpen p) (draft p) (saving p) v
    (formAlert p) (alerts p).
Definition setFormAlert (v : option string) (p : Page) : Page :=
  mkPage (items p) (loading p) (error p) (modalOpen p) (draft p) (saving p) (errors p)
    v (alerts p).
Definition alert (m : string) (p : Page) : Page :=
  mkPage (items p) (loading p) (error p) (modalOpen p) (draft p) (saving p) (errors p)
    (formAlert p) (alerts p ++ [m])%list.

(** [uploadFileIfNeeded()]; the request is the one [upload] of the
    categories page makes. *)
Definition uploadFileIfNeeded (p : Page) : Io nullish :=
  match draft p with
  | Some d =>
      match dr_file d with
      | Some f => CategoriesPage.upload (Some f)
      | None => ret (match dr_imageUrl d with Undefined => Null | v => v end)
      end
  | None => ret Null
  end.

(** The body [submitDraft] sends. *)
Definition payload (d : Draft) (imageUrl : nullish) : json :=
  JObject ([("title", JString (JsString.trim (dr_title d)));
            ("description", JString (JsString.trim (dr_description d)));
            ("link", JString (JsString.trim (dr_link d)));
            ("datePublished", JString (dr_datePublished d))]
           ++ match imageUrl with
              | Undefined => []
              | Null => [("imageUrl", JNull)]
              | Str u => [("imageUrl", JString u)]
              end)%list.

(** [setFormAlert(e.message || "Save failed")] *)
Definition failed (e : Exn) (p : Page) : Page :=
  setFormAlert
    (Some (if String.eqb (Browser.message e) "" then "Save failed" else Browser.message e)) p.

(** [submitDraft()] *)
Definition submitDraft `{Host} (p : Page) : Io Page :=
  match draft p with
  | None => ret p
  | Some d =>
      let clientErrors := validateDraft d in
      let p := setErrors clientErrors p in
      match clientErrors with
      | _ :: _ => ret (setFormAlert (Some "Please fix the highlighted fields.") p)
      | [] =>
          let p := setFormAlert None (setSaving true p) in
          let* p :=
            tryCatch
              (let* imageUrl := uploadFileIfNeeded p in
               let body := Browser.jsonRequest (payload d imageUrl) in
               let* p :=
                 match dr_id d with
                 | Some id =>
                     if String.eqb id ""
                     then
                       let* created := Browser.api (AnnouncementsRoute.POST body) in
                       ret (match created with
                            | BAnnouncement c => setItems (c :: items p) p
                            | _ => p
                            end)
                     else
                       let* updated := Browser.api (AnnouncementsIdRoute.PUT body id) in
                       ret (match updated with
                            | BAnnouncement u =>
                                setItems
                                  (map (fun x => if String.eqb (a_id x) (a_id u) then u else x)
                                     (items p)) p
                            | _ => p
                            end)
                 | None =>
                     let* created := Browser.api (AnnouncementsRoute.POST body) in
                     ret (match created with
                          | BAnnouncement c => setItems (c :: items p) p
                          | _ => p
                          end)
                 end in
               ret (setDraft None (setModalOpen false p)))
              (fun e => ret (failed e p)) in
          ret (setSaving false p)
      end
  end.

(** [deleteAnnouncement(id)]; [confirmed] is what the user answers to
    [confirm]. *)
Definition deleteAnnouncement (confirmed : bool) (id : string) (p : Page) : Io Page :=
  if negb confirmed then ret p
  else
    tryCatch
      (Browser.api (AnnouncementsIdRoute.DELETE id) ;;
       ret (setItems (List.filter (fun x => negb (String.eqb (a_id x) id)) (items p)) p))
      (fun e => ret (alert (Browser.message e) p)).

End AnnouncementsPage.

(* ================================================================== *)
(** ** The middleware *)

(** [jwtVerify(token, secret)] of jose: whether it resolves when the
    request is handled (the signature is good and the token has not
    expired). *)
Class Jose : Type := mkJose {
  jwtVerify : string -> string -> bool
}.

Module Middleware.

(** [process.env.AUTH_SECRET ?? "dev_secret_change_me"] *)
Definition SECRET (AUTH_SECRET : option string) : string :=
  default "dev_secret_change_me" AUTH_SECRET.

(** Anything here is accessible without a session. *)
Definition PUBLIC_PREFIXES : list string :=
  ["/login"; "/api/login"; "/_next/"; "/favicon.ico"; "/public/"; "/images/"; "/uploads/"].

Definition isPublic (pathname : string) : bool :=
  existsb (fun p => String.eqb pathname p || JsString.startsWith pathname p) PUBLIC_PREFIXES.

(** What the middleware reads of the request: [req.nextUrl.pathname],
    [req.nextUrl.searchParams], and [req.cookies.get("trlco_session")?.value]. *)
Record NextRequest : Type := mkNextRequest {
  pathname : string;
  searchParams : list (string * string);
  session : option string
}.

(** [NextResponse.next()] and [NextResponse.redirect(url)]; of the url, the
    path and the search parameters it is written out with. *)
Inductive Verdict : Type :=
  | next
  | redirect (pathname : string) (searchParams : list (string * string)).

(** [s.endsWith("/")] *)
Fixpoint endsWithSlash (s : string) : bool :=
  match s with
  | EmptyString => false
  | String c EmptyString => Ascii.eqb c "/"
  | String _ rest => endsWithSlash rest
  end.

(** A [NextURL] remembers whether the path it was made from ended in a
    slash ([pathname !== "/" && pathname.endsWith("/")], the configuration
    setting no [trailingSlash]); [clone()] keeps that, and assigning
    [pathname] does not change it. *)
Definition trailingSlash (req : NextRequest) : bool :=
  negb (String.eqb (pathname req) "/") && endsWithSlash (pathname req).

(** The path the url is written out with once [pathname] has been set to
    [/login]: with the slash at the end when the url remembers one.  (No
    [basePath] and no locales are configured, and the request is not one
    for [/_next/data/].) *)
Definition loginPath (req : NextRequest) : string :=
  if trailingSlash req then "/login/" else "/login".

(** [searchParams.set(name, value)]: the first entry of that name takes
    the value and the others go; without one, the entry is appended. *)
Fixpoint searchParamsSet (name value : string) (l : list (string * string))
    : list (string * string) :=
  match l with
  | [] => [(name, value)]
  | (k, v) :: rest =>
      if String.eqb k name
      then (name, value) :: List.filter (fun e => negb (String.eqb (fst e) name)) rest
      else (k, v) :: searchParamsSet name value rest
  end.

(** [searchParams.get(name)] *)
Definition searchParamsGet (name : string) (l : list (string * string)) : option string :=
  snd <$> find (fun e => String.eqb (fst e) name) l.

(** The redirect both branches make: the request's url with [pathname] set
    to [/login] and [next] set to the path that was asked for. *)
Definition toLogin (req : NextRequest) : Verdict :=
  redirect (loginPath req)
    (searchParamsSet "next" (pathname req) (searchParams req)).

Definition middleware `{Jose} (AUTH_SECRET : option string) (req : NextRequest) : Verdict :=
  if isPublic (pathname req) then next
  else
    match session req with
    | None => toLogin req
    | Some token =>
        if String.eqb token "" then toLogin req
        else if jwtVerify token (SECRET AUTH_SECRET) then next
        else toLogin req
    end.

End Middleware.

(** A stand-in to run the middleware on: a token is the secret it was made
    with, after a mark. *)
Definition demoJose : Jose :=
  mkJose (fun token secret => String.eqb token ("signed:" ++ secret)).

(* ================================================================== *)
(** * Properties *)

Local Open Scope list_scope.

(** ** Strings *)

Lemma prefix_empty (s : string) : String.prefix "" s = true.
Proof. destruct s; reflexivity. Qed.

Lemma split_head_prefix (sep : ascii) (s : string) :
  match JsString.split sep s with
  | seg :: _ => String.prefix seg s = true
  | [] => False
  end.
Proof.
  induction s as [|c s IH]; simpl; [reflexivity|].
  destruct (Ascii.eqb c sep); [reflexivity|].
  destruct (JsString.split sep s) as [|seg rest]; [contradiction|].
  simpl. destruct (ascii_dec c c); [assumption|congruence].
Qed.

Lemma includes_cons (c : ascii) (s x : string) :
  JsString.includes (String c s) x
  = String.prefix x (String c s) || JsString.includes s x.
Proof.
  change (JsString.includes (String c s) x)
    with (if String.prefix x (String c s) then true else JsString.includes s x).
  destruct (String.prefix x (String c s)); reflexivity.
Qed.

Lemma prefix_cons (c : ascii) (s t : string) :
  String.prefix (String c s) (String c t) = String.prefix s t.
Proof. simpl. destruct (ascii_dec c c); [reflexivity|congruence]. Qed.

(** A segment of a path is a substring of the path. *)
Lemma split_In_includes (sep : ascii) (s x : string) :
  In x (JsString.split sep s) -> JsString.includes s x = true.
Proof.
  induction s as [|c s IH].
  - intros [<-|[]]. reflexivity.
  - rewrite includes_cons. cbn [JsString.split].
    destruct (Ascii.eqb c sep).
    + intros [<-|Hin]; [reflexivity|].
      rewrite (IH Hin). apply orb_true_r.
    + pose proof (split_head_prefix sep s) as Hhd.
      destruct (JsString.split sep s) as [|seg rest]; [contradiction|].
      intros [<-|Hin].
      * rewrite prefix_cons, Hhd. reflexivity.
      * rewrite IH by (right; assumption). apply orb_true_r.
Qed.

Lemma no_dotdot_segment (u : string) :
  JsString.includes u ".." = false -> ~ In ".." (JsString.split "/" u).
Proof.
  intros Hno Hin. apply split_In_includes in Hin. congruence.
Qed.

(** ** The blob removal operation *)

Lemma isLocalUpload_inv (url : nullish) :
  Uploads.isLocalUpload url = true ->
  exists u, url = Str u
            /\ JsString.startsWith u "/uploads/" = true
            /\ JsString.includes u ".." = false.
Proof.
  destruct url as [| |u]; simpl; try discriminate.
  intros Hl. apply andb_true_iff in Hl as [Hl Hdots].
  apply andb_true_iff in Hl as [_ Hpre].
  exists u. split; [reflexivity|]. split; [assumption|].
  now apply negb_true_iff.
Qed.

(** What a call of [deleteUploadIfLocal] does, whatever the file system
    answers: it returns, logs at most the one [unlink], and leaves the
    database, the clock and the random source alone. *)
Lemma deleteUploadIfLocal_run (url : nullish) (w : World) :
  exists w', Uploads.deleteUploadIfLocal url w = (Done tt, w')
             /\ db w' = db w
             /\ log w' = log w ++ unlinkOf url w
             /\ (Uploads.isLocalUpload url = false -> w' = w).
Proof.
  unfold Uploads.deleteUploadIfLocal, unlinkOf.
  destruct url as [| |u]; try (exists w; rewrite app_nil_r; auto).
  destruct (Uploads.isLocalUpload (Str u)) eqn:Hl.
  - unfold tryCatch, bind, Uploads.toFsPath, gets, Fs.unlink, ret. simpl.
    destruct (decide _); [|destruct (files (fs w) !! _)];
      eexists; (split; [reflexivity|]); simpl; auto using eq_refl; repeat split; discriminate.
  - exists w. rewrite app_nil_r. auto.
Qed.

(** C5. [deleteUploadIfLocal] returns normally on every address and in every
    world.  It attempts the [unlink] only for an address that starts with
    [/uploads/] and has no [..] in it (so no [..] path segment either); for
    any other address nothing changes at all.  Whether the [unlink] fails
    (file missing, path not writable) does not show in the result. *)
Theorem deleteUploadIfLocal_never_throws (url : nullish) (w : World) :
  exists w',
    Uploads.deleteUploadIfLocal url w = (Done tt, w')
    /\ db w' = db w
    /\ if Uploads.isLocalUpload url
       then exists u, url = Str u
                      /\ JsString.startsWith u "/uploads/" = true
                      /\ JsString.includes u ".." = false
                      /\ ~ In ".." (JsString.split "/" u)
                      /\ newEvents w w' = [EvUnlink (Path.join [cwd w; "public"; u])]
       else w' = w.
Proof.
  destruct (deleteUploadIfLocal_run url w) as (w' & Hrun & Hdb & Hlog & Hsame).
  exists w'. split; [assumption|]. split; [assumption|].
  destruct (Uploads.isLocalUpload url) eqn:Hl; [|auto].
  destruct (isLocalUpload_inv url Hl) as (u & -> & Hpre & Hdots).
  exists u. repeat split; auto using no_dotdot_segment.
  unfold newEvents. rewrite Hlog. unfold unlinkOf. rewrite Hl.
  now rewrite drop_app_length.
Qed.

(** ** Tables *)

Lemma find_replaceFirst {A} (f : A -> bool) (x' old : A) (l : list A) :
  find f l = Some old -> f x' = true -> find f (replaceFirst f x' l) = Some x'.
Proof.
  intros Hfind Hx'. induction l as [|x l IH]; simpl in *; [discriminate|].
  destruct (f x) eqn:Hfx; simpl.
  - now rewrite Hx'.
  - rewrite Hfx. auto.
Qed.

Lemma Forall_replaceFirst {A} (P : A -> Prop) (f : A -> bool) (x' : A) (l : list A) :
  Forall P l -> P x' -> Forall P (replaceFirst f x' l).
Proof.
  intros Hl Hx'. induction Hl as [|x l Hx Hl IH]; simpl; [constructor|].
  destruct (f x); constructor; auto.
Qed.

(** The field [imageUrl] of the [data] object a PUT handler builds is the
    parsed one: set when it is not [undefined], left out otherwise. *)
Lemma supplied_or_omitted (sig : nullish) :
  (if decide (sig <> Undefined) then sig else Undefined) = sig.
Proof.
  destruct (decide (sig <> Undefined)) as [|Hn]; [reflexivity|].
  destruct sig; [reflexivity | exfalso; apply Hn; discriminate ..].
Qed.

(** ** The PUT handlers, step by step *)

Lemma cleanup_run (sig : nullish) (old : option string) (w : World) :
  exists w',
    (if decide (sig <> Undefined /\ sig <> ofColumn old)
     then Uploads.deleteUploadIfLocal (ofColumn old)
     else ret tt) w = (Done tt, w')
    /\ db w' = db w
    /\ log w' = log w ++ cleanupOf sig old w
    /\ (cleanupOf sig old w = [] -> w' = w).
Proof.
  unfold cleanupOf. destruct (decide _).
  - destruct (deleteUploadIfLocal_run (ofColumn old) w) as (w' & Hrun & Hdb & Hlog & Hsame).
    exists w'. repeat split; auto.
    intros Hnone. apply Hsame. unfold unlinkOf in Hnone.
    destruct (ofColumn old); [reflexivity..|].
    destruct (Uploads.isLocalUpload (Str s)); [discriminate|reflexivity].
  - exists w. rewrite app_nil_r. auto.
Qed.

(** The end of each PUT proof: the store write has been done and logged;
    run the cleanup in the world it left, and read off the answer. *)
Ltac after_write sig old :=
  match goal with
  | Hid : _ = true |- context [emit ?e ?w0] =>
      let w' := fresh "w'" in
      let Hrun := fresh "Hrun" in
      let Hdb := fresh "Hdb" in
      let Hlog := fresh "Hlog" in
      let Hsame := fresh "Hsame" in
      destruct (cleanup_run sig old (emit e w0)) as (w' & Hrun & Hdb & Hlog & Hsame);
      rewrite Hrun; unfold respond, ret;
      eexists _, w'; split; [reflexivity|];
      split; [reflexivity|]; split; [exact Hdb|]; split; [exact Hid|];
      split; [rewrite Hlog; cbn [log emit]; rewrite <- app_assoc; reflexivity|];
      let Hnone := fresh "Hnone" in
      intros Hnone; rewrite (Hsame Hnone); reflexivity
  end.

Section Handlers.
Context `{Host}.

Lemma partner_PUT_run (req : Request) (id : string) (w : World)
    (parsed : Zod.PartnerInput) (existing : Partner) :
  Zod.partnerSchema (readJson req) = Zod.Success parsed ->
  find (prisma.partner.hasId id) (partners (db w)) = Some existing ->
  if prisma.partner.categoryExists (Zod.pi_categoryId parsed) w
  then exists updated w',
      PartnersIdRoute.PUT req id w = (Done (mkResponse 200 (BPartner updated)), w')
      /\ p_imageUrl updated = applyImage (Zod.pi_imageUrl parsed) (p_imageUrl existing)
      /\ db w' = mkDb (categories (db w))
                   (replaceFirst (prisma.partner.hasId id) updated (partners (db w)))
                   (announcements (db w))
      /\ prisma.partner.hasId id updated = true
      /\ log w' = log w ++ EvDbUpdate TPartner id
                   :: cleanupOf (Zod.pi_imageUrl parsed) (p_imageUrl existing) w
      /\ (cleanupOf (Zod.pi_imageUrl parsed) (p_imageUrl existing) w = [] -> fs w' = fs w)
  else PartnersIdRoute.PUT req id w = (Thrown (PrismaError "P2003"), w).
Proof.
  intros Hparse Hfind.
  pose proof (find_some _ _ Hfind) as [_ Hid].
  unfold PartnersIdRoute.PUT. rewrite Hparse. cbv zeta.
  cbn [Zod.pi_categoryId Zod.pi_name Zod.pi_link Zod.pi_featured Zod.pi_imageUrl].
  replace (if decide (Zod.pi_imageUrl parsed <> Undefined) then _ else _)
    with (Zod.mkPartnerInput (Zod.pi_name parsed) (Zod.pi_categoryId parsed)
            (Zod.pi_link parsed) (Zod.pi_featured parsed) (Zod.pi_imageUrl parsed))
    by (rewrite <- (supplied_or_omitted (Zod.pi_imageUrl parsed)) at 1;
        destruct (decide _); reflexivity).
  unfold bind, prisma.partner.findUnique, prisma.partner.update, gets.
  cbv beta. rewrite Hfind. cbv beta iota. rewrite Hfind.
  cbn [Zod.pi_categoryId Zod.pi_name Zod.pi_link Zod.pi_featured Zod.pi_imageUrl].
  destruct (prisma.partner.categoryExists (Zod.pi_categoryId parsed) w);
    cbn [negb]; [|reflexivity].
  after_write (Zod.pi_imageUrl parsed) (p_imageUrl existing).
Qed.

Lemma category_PUT_run (req : Request) (id : string) (w : World)
    (parsed : Zod.CategoryInput) (existing : Category) :
  Zod.categorySchema (readJson req) = Zod.Success parsed ->
  find (prisma.category.hasId id) (categories (db w)) = Some existing ->
  if prisma.category.nameTaken (c_id existing) (Zod.ci_name parsed) (categories (db w))
  then CategoriesIdRoute.PUT req id w = (Thrown (PrismaError "P2002"), w)
  else exists updated w',
      CategoriesIdRoute.PUT req id w = (Done (mkResponse 200 (BCategory updated)), w')
      /\ c_imageUrl updated = applyImage (Zod.ci_imageUrl parsed) (c_imageUrl existing)
      /\ db w' = mkDb (replaceFirst (prisma.category.hasId id) updated (categories (db w)))
                   (partners (db w)) (announcements (db w))
      /\ prisma.category.hasId id updated = true
      /\ log w' = log w ++ EvDbUpdate TCategory id
                   :: cleanupOf (Zod.ci_imageUrl parsed) (c_imageUrl existing) w
      /\ (cleanupOf (Zod.ci_imageUrl parsed) (c_imageUrl existing) w = [] -> fs w' = fs w).
Proof.
  intros Hparse Hfind.
  pose proof (find_some _ _ Hfind) as [_ Hid].
  unfold CategoriesIdRoute.PUT. rewrite Hparse. cbv zeta.
  cbn [Zod.ci_name Zod.ci_imageUrl].
  replace (if decide (Zod.ci_imageUrl parsed <> Undefined) then _ else _)
    with (Zod.mkCategoryInput (Zod.ci_name parsed) (Zod.ci_imageUrl parsed))
    by (rewrite <- (supplied_or_omitted (Zod.ci_imageUrl parsed)) at 1;
        destruct (decide _); reflexivity).
  unfold bind, prisma.category.findUnique, prisma.category.update, gets.
  cbv beta. rewrite Hfind. cbv beta iota. rewrite Hfind.
  cbn [Zod.ci_name Zod.ci_imageUrl].
  destruct (prisma.category.nameTaken _ _ _); [reflexivity|].
  after_write (Zod.ci_imageUrl parsed) (c_imageUrl existing).
Qed.

Lemma announcement_PUT_run (req : Request) (id : string) (w : World)
    (parsed : Zod.AnnouncementInput) (existing : Announcement) :
  Zod.announcementSchema (readJson req) = Zod.Success parsed ->
  find (prisma.announcement.hasId id) (announcements (db w)) = Some existing ->
  exists updated w',
    AnnouncementsIdRoute.PUT req id w = (Done (mkResponse 200 (BAnnouncement updated)), w')
    /\ a_imageUrl updated = applyImage (Zod.ai_imageUrl parsed) (a_imageUrl existing)
    /\ db w' = mkDb (categories (db w)) (partners (db w))
                 (replaceFirst (prisma.announcement.hasId id) updated (announcements (db w)))
    /\ prisma.announcement.hasId id updated = true
    /\ log w' = log w ++ EvDbUpdate TAnnouncement id
                 :: cleanupOf (Zod.ai_imageUrl parsed) (a_imageUrl existing) w
    /\ (cleanupOf (Zod.ai_imageUrl parsed) (a_imageUrl existing) w = [] -> fs w' = fs w).
Proof.
  intros Hparse Hfind.
  pose proof (find_some _ _ Hfind) as [_ Hid].
  unfold AnnouncementsIdRoute.PUT. rewrite Hparse. cbv zeta.
  cbn [Zod.ai_title Zod.ai_description Zod.ai_link Zod.ai_datePublished Zod.ai_imageUrl].
  replace (if decide (Zod.ai_imageUrl parsed <> Undefined) then _ else _)
    with (Zod.mkAnnouncementInput (Zod.ai_title parsed) (Zod.ai_description parsed)
            (Zod.ai_link parsed) (Zod.ai_datePublished parsed) (Zod.ai_imageUrl parsed))
    by (rewrite <- (supplied_or_omitted (Zod.ai_imageUrl parsed)) at 1;
        destruct (decide _); reflexivity).
  unfold bind, prisma.announcement.findUnique, prisma.announcement.update, gets.
  cbv beta. rewrite Hfind. cbv beta iota. rewrite Hfind.
  cbn [Zod.ai_title Zod.ai_description Zod.ai_link Zod.ai_datePublished Zod.ai_imageUrl].
  after_write (Zod.ai_imageUrl parsed) (a_imageUrl existing).
Qed.

End Handlers.

(** ** The PUT handlers, over the kind of entity *)

Lemma imageUrlSchema_omitted (sig : nullish) :
  Zod.imageUrlSchema None = Some sig -> sig = Undefined.
Proof. cbn. congruence. Qed.

Lemma cleanup_attempted (sig : nullish) (old : option string) (w : World) :
  existsb isUnlink (cleanupOf sig old w) = true
  <-> sig <> Undefined /\ sig <> ofColumn old /\ Uploads.isLocalUpload (ofColumn old) = true.
Proof.
  unfold cleanupOf, unlinkOf.
  destruct (decide (sig <> Undefined /\ sig <> ofColumn old)) as [[Hs Hd]|Hn].
  - destruct (ofColumn old) as [| |u] eqn:Hold.
    + split; [discriminate|intros (_ & _ & ?); discriminate].
    + split; [discriminate|intros (_ & _ & ?); discriminate].
    + destruct (Uploads.isLocalUpload (Str u)) eqn:Hl.
      * split; auto.
      * split; [discriminate|]. intros (_ & _ & ?). discriminate.
  - split; [discriminate|]. intros (? & ? & _). tauto.
Qed.

Lemma newEvents_app (w w' : World) (evs : list Event) :
  log w' = log w ++ evs -> newEvents w w' = evs.
Proof. intros Hlog. unfold newEvents. rewrite Hlog. apply drop_app_length. Qed.

Lemma newEvents_same (w : World) : newEvents w w = [].
Proof. apply newEvents_app. now rewrite app_nil_r. Qed.

Section Kinds.
Context `{Host}.

(** Each schema hands the [imageUrl] member to the same sub-schema. *)
Lemma categorySchema_image (body : json) (d : Zod.CategoryInput) :
  Zod.categorySchema body = Zod.Success d ->
  Zod.imageUrlSchema (Zod.field body "imageUrl") = Some (Zod.ci_imageUrl d).
Proof.
  unfold Zod.categorySchema. destruct body; try discriminate.
  destruct (Zod.min _ _); destruct (Zod.imageUrlSchema _); try discriminate.
  intros [= <-]. reflexivity.
Qed.

Lemma partnerSchema_image (body : json) (d : Zod.PartnerInput) :
  Zod.partnerSchema body = Zod.Success d ->
  Zod.imageUrlSchema (Zod.field body "imageUrl") = Some (Zod.pi_imageUrl d).
Proof.
  unfold Zod.partnerSchema. destruct body; try discriminate.
  destruct (Zod.min 2 _); destruct (Zod.min 1 _); destruct (Zod.url _);
    destruct (Zod.zBoolean _); destruct (Zod.imageUrlSchema _); try discriminate.
  intros [= <-]. reflexivity.
Qed.

Lemma announcementSchema_image (body : json) (d : Zod.AnnouncementInput) :
  Zod.announcementSchema body = Zod.Success d ->
  Zod.imageUrlSchema (Zod.field body "imageUrl") = Some (Zod.ai_imageUrl d).
Proof.
  unfold Zod.announcementSchema. destruct body; try discriminate.
  destruct (Zod.max 120 _); destruct (Zod.max 4000 _); destruct (Zod.url _);
    destruct (startOfDay <$> _); destruct (Zod.imageUrlSchema _); try discriminate.
  intros [= <-]. reflexivity.
Qed.

Lemma parsedImage_schema (k : Kind) (req : Request) (sig : nullish) :
  parsedImage k req = Some sig ->
  Zod.imageUrlSchema (Zod.field (readJson req) "imageUrl") = Some sig.
Proof.
  destruct k; cbn [parsedImage].
  - destruct (Zod.categorySchema _) eqn:Hs; [|discriminate].
    intros [= <-]. now apply categorySchema_image.
  - destruct (Zod.partnerSchema _) eqn:Hs; [|discriminate].
    intros [= <-]. now apply partnerSchema_image.
  - destruct (Zod.announcementSchema _) eqn:Hs; [|discriminate].
    intros [= <-]. now apply announcementSchema_image.
Qed.

Lemma parsedImage_omitted (k : Kind) (req : Request) (sig : nullish) :
  Zod.field (readJson req) "imageUrl" = None ->
  parsedImage k req = Some sig -> sig = Undefined.
Proof.
  intros Hf Hp. apply parsedImage_schema in Hp. rewrite Hf in Hp.
  now apply imageUrlSchema_omitted.
Qed.

Lemma update_rejected (k : Kind) (req : Request) (id : string) (w : World) :
  parsedImage k req = None ->
  exists issues, update k req id w = (Done (mkResponse 400 (BInvalid issues)), w).
Proof.
  destruct k; cbn [parsedImage update];
    [unfold CategoriesIdRoute.PUT; destruct (Zod.categorySchema _)
    |unfold PartnersIdRoute.PUT; destruct (Zod.partnerSchema _)
    |unfold AnnouncementsIdRoute.PUT; destruct (Zod.announcementSchema _)];
    try discriminate; intros _; eexists; reflexivity.
Qed.

Lemma update_not_found (k : Kind) (req : Request) (id : string) (w : World)
    (sig : nullish) :
  parsedImage k req = Some sig ->
  imageOf k id (db w) = None ->
  update k req id w = (Done (mkResponse 404 (BError "Not found")), w).
Proof.
  destruct k; cbn [parsedImage update imageOf];
    [unfold CategoriesIdRoute.PUT; destruct (Zod.categorySchema _)
    |unfold PartnersIdRoute.PUT; destruct (Zod.partnerSchema _)
    |unfold AnnouncementsIdRoute.PUT; destruct (Zod.announcementSchema _)];
    try discriminate; intros _ Hnone; apply fmap_None in Hnone;
    unfold bind, prisma.category.findUnique, prisma.partner.findUnique,
      prisma.announcement.findUnique, gets; rewrite Hnone; reflexivity.
Qed.

Lemma update_found (k : Kind) (req : Request) (id : string) (w : World)
    (sig : nullish) (old : option string) :
  parsedImage k req = Some sig ->
  imageOf k id (db w) = Some old ->
  (exists e, update k req id w = (Thrown e, w))
  \/ (exists resp w',
        update k req id w = (Done resp, w')
        /\ status resp = 200
        /\ bodyImage (body resp) = Some (applyImage sig old)
        /\ imageOf k id (db w') = Some (applyImage sig old)
        /\ log w' = log w ++ EvDbUpdate (tableOf k) id :: cleanupOf sig old w
        /\ (cleanupOf sig old w = [] -> fs w' = fs w)).
Proof.
  destruct k; cbn [parsedImage update imageOf tableOf]; intros Hp Hold;
    apply fmap_Some in Hold as (existing & Hfind & ->).
  - destruct (Zod.categorySchema (readJson req)) as [parsed|] eqn:Hparse; [|discriminate].
    injection Hp as <-.
    pose proof (category_PUT_run req id w parsed existing Hparse Hfind) as Hrun.
    destruct (prisma.category.nameTaken _ _ _); [left; eauto|right].
    destruct Hrun as (updated & w' & Hrun & Himg & Hdb & Hid & Hlog & Hfs).
    exists (mkResponse 200 (BCategory updated)), w'. repeat split; auto.
    + cbn. now rewrite Himg.
    + rewrite Hdb. cbn [categories].
      rewrite (find_replaceFirst _ updated existing) by auto. cbn. now rewrite Himg.
  - destruct (Zod.partnerSchema (readJson req)) as [parsed|] eqn:Hparse; [|discriminate].
    injection Hp as <-.
    pose proof (partner_PUT_run req id w parsed existing Hparse Hfind) as Hrun.
    destruct (prisma.partner.categoryExists _ _); [right|left; eauto].
    destruct Hrun as (updated & w' & Hrun & Himg & Hdb & Hid & Hlog & Hfs).
    exists (mkResponse 200 (BPartner updated)), w'. repeat split; auto.
    + cbn. now rewrite Himg.
    + rewrite Hdb. cbn [partners].
      rewrite (find_replaceFirst _ updated existing) by auto. cbn. now rewrite Himg.
  - destruct (Zod.announcementSchema (readJson req)) as [parsed|] eqn:Hparse; [|discriminate].
    injection Hp as <-. right.
    destruct (announcement_PUT_run req id w parsed existing Hparse Hfind)
      as (updated & w' & Hrun & Himg & Hdb & Hid & Hlog & Hfs).
    exists (mkResponse 200 (BAnnouncement updated)), w'. repeat split; auto.
    + cbn. now rewrite Himg.
    + rewrite Hdb. cbn [announcements].
      rewrite (find_replaceFirst _ updated existing) by auto. cbn. now rewrite Himg.
Qed.

(** An update that throws has changed nothing: the only thing that throws
    is the store write, and no cleanup runs before it. *)
Lemma update_thrown_keeps_world (k : Kind) (req : Request) (id : string)
    (w w' : World) (e : Exn) :
  update k req id w = (Thrown e, w') -> w' = w.
Proof.
  intros Hrun.
  destruct (parsedImage k req) as [sig|] eqn:Hp.
  - destruct (imageOf k id (db w)) as [old|] eqn:Hold.
    + destruct (update_found k req id w sig old Hp Hold)
        as [(e' & Hthrown)|(resp & w'' & Hdone & _)]; congruence.
    + rewrite (update_not_found k req id w sig Hp Hold) in Hrun. discriminate.
  - destruct (update_rejected k req id w Hp) as (issues & Hrej). congruence.
Qed.

(** C3. An update whose payload passes validation and whose id names no
    record answers 404 "Not found" and leaves the world as it was: the
    database, the file system and the event log are unchanged, so there is
    no store write and no blob deletion. *)
Theorem update_of_missing_record_is_not_found (k : Kind) (req : Request)
    (id : string) (w : World) (sig : nullish) :
  parsedImage k req = Some sig ->
  imageOf k id (db w) = None ->
  update k req id w = (Done (mkResponse 404 (BError "Not found")), w).
Proof. apply update_not_found. Qed.

(** C2. An update whose body omits [imageUrl] leaves the image of the
    record as it was, whatever the other fields are and however the update
    ends; it attempts no blob deletion and does not touch the file system. *)
Theorem update_without_image_keeps_image (k : Kind) (req : Request)
    (id : string) (w : World) :
  Zod.field (readJson req) "imageUrl" = None ->
  imageOf k id (db (snd (update k req id w))) = imageOf k id (db w)
  /\ fs (snd (update k req id w)) = fs w
  /\ ~ deletionAttempted w (snd (update k req id w)).
Proof.
  intros Homit. unfold deletionAttempted.
  destruct (parsedImage k req) as [sig|] eqn:Hp.
  - pose proof (parsedImage_omitted k req sig Homit Hp) as ->.
    destruct (imageOf k id (db w)) as [old|] eqn:Hold.
    + destruct (update_found k req id w Undefined old Hp Hold)
        as [(e & ->)|(resp & w' & -> & _ & _ & Himg & Hlog & Hfs)]; cbn [snd].
      * rewrite Hold, newEvents_same. cbn. auto.
      * assert (Hnone : cleanupOf Undefined old w = [])
          by (unfold cleanupOf; destruct (decide _) as [[Hu _]|]; [congruence|reflexivity]).
        rewrite Hnone in Hlog. rewrite (newEvents_app _ _ _ Hlog).
        cbn. rewrite Himg. auto.
    + rewrite (update_not_found k req id w Undefined Hp Hold). cbn [snd].
      rewrite Hold, newEvents_same. cbn. auto.
  - destruct (update_rejected k req id w Hp) as (issues & ->). cbn [snd].
    rewrite newEvents_same. cbn. auto.
Qed.

End Kinds.

Section ImageLifecycle.
Context `{Host}.

(** C1, as the code has it.  A successful update (status 200) of an
    existing record writes the record first: the new events start with the
    store write.  The image of the record afterwards is the one the signal
    asks for: the old one for an omitted field, none for [null], [b] for
    the string [b].  The deletion of the previous blob is attempted exactly
    when the field was supplied, differs from the stored value, and the
    stored value is a local upload (it starts with [/uploads/] and has no
    [..]); it then follows the write.  A stored image that is an external
    URL is never deleted. *)
Theorem update_deletes_replaced_local_upload (k : Kind) (req : Request)
    (id : string) (w w' : World) (resp : Response) :
  update k req id w = (Done resp, w') ->
  status resp = 200 ->
  exists (sig : nullish) (old : option string),
    parsedImage k req = Some sig
    /\ imageOf k id (db w) = Some old
    /\ imageOf k id (db w')
       = Some (match sig with Undefined => old | Null => None | Str b => Some b end)
    /\ bodyImage (body resp) = imageOf k id (db w')
    /\ newEvents w w' = EvDbUpdate (tableOf k) id :: cleanupOf sig old w
    /\ (deletionAttempted w w'
        <-> sig <> Undefined /\ sig <> ofColumn old
            /\ Uploads.isLocalUpload (ofColumn old) = true)
    /\ (sig = ofColumn old -> ~ deletionAttempted w w').
Proof.
  intros Hrun Hok.
  destruct (parsedImage k req) as [sig|] eqn:Hp.
  2:{ destruct (update_rejected k req id w Hp) as (issues & Hrej).
      rewrite Hrej in Hrun. injection Hrun as <- <-. discriminate. }
  destruct (imageOf k id (db w)) as [old|] eqn:Hold.
  2:{ rewrite (update_not_found k req id w sig Hp Hold) in Hrun.
      injection Hrun as <- <-. discriminate. }
  destruct (update_found k req id w sig old Hp Hold)
    as [(e & Hthrown)|(resp' & w'' & Hdone & _ & Hbody & Himg & Hlog & _)].
  { rewrite Hthrown in Hrun. discriminate. }
  rewrite Hdone in Hrun. injection Hrun as -> ->.
  apply newEvents_app in Hlog.
  assert (Hatt : deletionAttempted w w'
                 <-> sig <> Undefined /\ sig <> ofColumn old
                     /\ Uploads.isLocalUpload (ofColumn old) = true).
  { unfold deletionAttempted. rewrite Hlog. cbn [existsb isUnlink orb].
    apply cleanup_attempted. }
  exists sig, old. split; [reflexivity|]. split; [reflexivity|].
  split; [exact Himg|]. split; [congruence|]. split; [exact Hlog|].
  split; [exact Hatt|]. intros Heq Hdel. apply Hatt in Hdel. tauto.
Qed.

End ImageLifecycle.

Lemma update_deletes_replaced_local_upload_witness :
  let w := demoWorld (Some "/uploads/a.jpg") in
  let out := @update demoHost KPartner
               (partnerPut "OKX" (Some (JString "/uploads/b.jpg"))) "p1" w in
  (out = (Done (responseOf (fst out)), snd out) /\ status (responseOf (fst out)) = 200)
  /\ exists (sig : nullish) (old : option string),
      @parsedImage demoHost KPartner (partnerPut "OKX" (Some (JString "/uploads/b.jpg")))
      = Some sig
      /\ imageOf KPartner "p1" (db w) = Some old
      /\ imageOf KPartner "p1" (db (snd out))
         = Some (match sig with Undefined => old | Null => None | Str b => Some b end)
      /\ bodyImage (body (responseOf (fst out))) = imageOf KPartner "p1" (db (snd out))
      /\ newEvents w (snd out) = EvDbUpdate (tableOf KPartner) "p1" :: cleanupOf sig old w
      /\ (deletionAttempted w (snd out)
          <-> sig <> Undefined /\ sig <> ofColumn old
              /\ Uploads.isLocalUpload (ofColumn old) = true)
      /\ (sig = ofColumn old -> ~ deletionAttempted w (snd out)).
Proof.
  cbv zeta. split; [split; vm_compute; reflexivity|].
  apply (@update_deletes_replaced_local_upload demoHost); vm_compute; reflexivity.
Defined.

(** The claim of C1 fails where the stored image is an external URL: the
    field is supplied, differs from the stored value, the stored value is
    present, the update succeeds, and no deletion is attempted. *)
Lemma update_keeps_external_image_counterexample :
  let w := demoWorld (Some "https://cdn.example.com/a.png") in
  let req := partnerPut "OKX" (Some (JString "/uploads/b.jpg")) in
  let out := @update demoHost KPartner req "p1" w in
  status (responseOf (fst out)) = 200
  /\ @parsedImage demoHost KPartner req = Some (Str "/uploads/b.jpg")
  /\ imageOf KPartner "p1" (db w) = Some (Some "https://cdn.example.com/a.png")
  /\ imageOf KPartner "p1" (db (snd out)) = Some (Some "/uploads/b.jpg")
  /\ ~ deletionAttempted w (snd out).
Proof.
  vm_compute. repeat split; intros Hdel; discriminate Hdel.
Qed.

Lemma update_without_image_keeps_image_witness :
  let w := demoWorld (Some "/uploads/a.jpg") in
  let req := partnerPut "OKX Global" None in
  Zod.field (readJson req) "imageUrl" = None
  /\ (imageOf KPartner "p1" (db (snd (@update demoHost KPartner req "p1" w)))
      = imageOf KPartner "p1" (db w)
      /\ fs (snd (@update demoHost KPartner req "p1" w)) = fs w
      /\ ~ deletionAttempted w (snd (@update demoHost KPartner req "p1" w))).
Proof.
  cbv zeta. split; [reflexivity|].
  apply (@update_without_image_keeps_image demoHost). reflexivity.
Defined.

Lemma update_of_missing_record_is_not_found_witness :
  let w := demoWorld None in
  let req := partnerPut "OKX" (Some JNull) in
  @parsedImage demoHost KPartner req = Some Null
  /\ imageOf KPartner "p9" (db w) = None
  /\ @update demoHost KPartner req "p9" w
     = (Done (mkResponse 404 (BError "Not found")), w).
Proof.
  cbv zeta. split; [reflexivity|]. split; [reflexivity|].
  apply (@update_of_missing_record_is_not_found demoHost KPartner _ _ _ Null); reflexivity.
Defined.

(** ** The upload route *)

Lemma file_size_zeroFile (type : string) (n : Z) :
  (0 <= n)%Z -> file_size (zeroFile type n) = n.
Proof.
  intros Hn. unfold file_size, zeroFile. cbn [file_bytes].
  rewrite repeat_length. now apply Z2Nat.id.
Qed.

Lemma POST_unsupported (req : Request) (form : list (string * FormEntry))
    (f : File) (w : World) :
  formBody req = Some form ->
  UploadRoute.formGet form "file" = Some (FormFile f) ->
  UploadRoute.ALLOWED_has (declaredType f) = false ->
  UploadRoute.POST req w = (Done (mkResponse 400 (BError "Unsupported file type")), w).
Proof.
  intros Hform Hget Htype. unfold UploadRoute.POST. rewrite Hform, Hget.
  fold (declaredType f). cbv zeta. rewrite Htype. reflexivity.
Qed.

Lemma POST_too_large (req : Request) (form : list (string * FormEntry))
    (f : File) (w : World) :
  formBody req = Some form ->
  UploadRoute.formGet form "file" = Some (FormFile f) ->
  UploadRoute.ALLOWED_has (declaredType f) = true ->
  (UploadRoute.MAX_BYTES < file_size f)%Z ->
  UploadRoute.POST req w = (Done (mkResponse 400 (BError "File too large (max 5MB)")), w).
Proof.
  intros Hform Hget Htype Hsize. unfold UploadRoute.POST. rewrite Hform, Hget.
  fold (declaredType f). cbv zeta. rewrite Htype. cbn [negb].
  apply Z.ltb_lt in Hsize. rewrite Hsize. reflexivity.
Qed.

(** C4, as the code has it.  The media type is checked first.  A file whose
    declared type is not one of the four allowed ones is answered 400
    "Unsupported file type", whatever its size; a file of an allowed type
    with more than 5 MiB is answered 400 "File too large (max 5MB)".  In
    both cases the world is returned as it was: nothing is written. *)
Theorem upload_rejects_before_writing (req : Request)
    (form : list (string * FormEntry)) (f : File) (w : World) :
  formBody req = Some form ->
  UploadRoute.formGet form "file" = Some (FormFile f) ->
  UploadRoute.ALLOWED_has (declaredType f) = false
  \/ (UploadRoute.MAX_BYTES < file_size f)%Z ->
  UploadRoute.POST req w
  = (Done (mkResponse 400
             (BError (if UploadRoute.ALLOWED_has (declaredType f)
                      then "File too large (max 5MB)"
                      else "Unsupported file type"))), w).
Proof.
  intros Hform Hget Hbad.
  destruct (UploadRoute.ALLOWED_has (declaredType f)) eqn:Htype.
  - destruct Hbad as [Hno|Hsize]; [discriminate|].
    now apply (POST_too_large req form f w).
  - now apply (POST_unsupported req form f w).
Qed.

Lemma upload_rejects_before_writing_witness :
  let small := mkFile (Some "notes.txt") "text/plain" [] in
  let big := zeroFile "image/png" 6291456 in
  let w := demoWorld None in
  UploadRoute.POST (uploadRequest small) w
  = (Done (mkResponse 400
             (BError (if UploadRoute.ALLOWED_has (declaredType small)
                      then "File too large (max 5MB)"
                      else "Unsupported file type"))), w)
  /\ UploadRoute.POST (uploadRequest big) w
     = (Done (mkResponse 400
                (BError (if UploadRoute.ALLOWED_has (declaredType big)
                         then "File too large (max 5MB)"
                         else "Unsupported file type"))), w).
Proof.
  intros small big w. split.
  - apply (upload_rejects_before_writing (uploadRequest small) [("file", FormFile small)]);
      [reflexivity | reflexivity | left; reflexivity].
  - apply (upload_rejects_before_writing (uploadRequest big) [("file", FormFile big)]);
      [reflexivity | reflexivity | right].
    unfold big. rewrite file_size_zeroFile by lia. reflexivity.
Defined.

(** The claim of C4 fails for a file that is both too large and of a type
    that is not allowed: the answer is the one for the type, not the one for
    the size. *)
Lemma upload_oversized_text_file_counterexample :
  let f := zeroFile "text/plain" 6291456 in
  let w := demoWorld None in
  (5 * 1024 * 1024 < file_size f)%Z
  /\ UploadRoute.POST (uploadRequest f) w
     = (Done (mkResponse 400 (BError "Unsupported file type")), w)
  /\ UploadRoute.POST (uploadRequest f) w
     <> (Done (mkResponse 400 (BError "File too large (max 5MB)")), w).
Proof.
  cbv zeta.
  assert (Hrun : UploadRoute.POST (uploadRequest (zeroFile "text/plain" 6291456))
                   (demoWorld None)
                 = (Done (mkResponse 400 (BError "Unsupported file type")), demoWorld None))
    by (apply (POST_unsupported _ [("file", FormFile (zeroFile "text/plain" 6291456))]
                 (zeroFile "text/plain" 6291456)); reflexivity).
  split; [rewrite file_size_zeroFile by lia; reflexivity|].
  split; [exact Hrun|]. rewrite Hrun. intros Heq. discriminate Heq.
Qed.

(** C6. The upload route exports no DELETE handler: a DELETE request to it,
    with whatever query, is answered 405 by the framework, and nothing is
    deleted.  The pages send [DELETE /api/upload?url=...] to undo an upload. *)
Theorem upload_route_does_not_handle_DELETE (req : Request) (w : World) :
  uploadRouteExports M_DELETE = None
  /\ Next.handle uploadRouteExports M_DELETE req w = (Done (mkResponse 405 BNone), w).
Proof. split; reflexivity. Qed.

(** ** The in-memory store *)








(** C8, what the in-memory store does.  Deleting the category [cat_exch] of
    the initial store removes the category and keeps the partner that
    referenced it, but the partner's [categoryId] becomes the empty string:
    a string, not an absent reference, and the id of no category. *)
Theorem in_memory_deleteCategory_writes_empty_string (boot : string) :
  InMemory.deleteCategory "cat_exch" (InMemory.initial boot)
  = (true,
     InMemory.mkStore
       [InMemory.mkCategory "cat_brand" "Brand"; InMemory.mkCategory "cat_media" "Media"]
       [InMemory.mkPartner "p_okx" "OKX" "" "https://www.okx.com" true boot boot]).
Proof. reflexivity. Qed.

(** In the in-memory store in general: no partner is removed, exactly the
    partners that referenced the category are changed, and what they get is
    the empty string. *)
Lemma in_memory_deleteCategory_partners (id : string) (st : InMemory.Store) :
  Forall2
    (fun p p' =>
       if String.eqb (InMemory.prt_categoryId p) id
       then InMemory.prt_id p' = InMemory.prt_id p /\ InMemory.prt_categoryId p' = ""
       else p' = p)
    (InMemory._partners st)
    (InMemory._partners (snd (InMemory.deleteCategory id st))).
Proof.
  cbn. generalize (InMemory._partners st). intros l.
  induction l as [|p l IH]; cbn; constructor; [|exact IH].
  destruct (String.eqb (InMemory.prt_categoryId p) id); cbn; auto.
Qed.

Lemma insertBy_In {A} (cmp : A -> A -> Z) (x y : A) (l : list A) :
  In x (InMemory.insertBy cmp y l) -> x = y \/ In x l.
Proof.
  induction l as [|z l IH]; cbn.
  - intros [<-|[]]. now left.
  - destruct (cmp y z <=? 0)%Z; cbn; intros [<-|Hin]; auto.
    destruct (IH Hin); auto.
Qed.

Lemma sort_In {A} (cmp : A -> A -> Z) (x : A) (l : list A) :
  In x (InMemory.sort cmp l) -> In x l.
Proof.
  unfold InMemory.sort. induction l as [|y l IH]; cbn; [auto|].
  intros Hin. apply insertBy_In in Hin as [<-|Hin]; auto.
Qed.

(** The deleted category is gone from the in-memory listing, however the
    host collates names. *)
Lemma in_memory_deleteCategory_listing `{Host} (id : string) (st : InMemory.Store)
    (c : InMemory.Category) :
  In c (InMemory.listCategories (snd (InMemory.deleteCategory id st))) ->
  InMemory.cat_id c <> id.
Proof.
  unfold InMemory.listCategories. intros Hin. apply sort_In in Hin. cbn in Hin.
  apply filter_In in Hin as [_ Hne]. apply negb_true_iff in Hne.
  now apply String.eqb_neq.
Qed.

(** ** Deleting a category through the route: ON DELETE SET NULL *)

Lemma removeFirst_unique (id : string) (l : list Category) (c : Category) :
  NoDup (map c_id l) ->
  In c (removeFirst (prisma.category.hasId id) l) -> c_id c <> id.
Proof.
  induction l as [|x l IH]; cbn; [contradiction|].
  intros Hnd Hin. apply NoDup_cons in Hnd as [Hx Hnd].
  unfold prisma.category.hasId at 1 in Hin.
  destruct (String.eqb_spec (c_id x) id) as [Heq|Hne].
  - intros Hc. apply Hx. rewrite Heq, <- Hc. apply list_elem_of_In, in_map, Hin.
  - destruct Hin as [<-|Hin]; auto.
Qed.

(** The route that the pages call deletes the category row and lets the
    foreign key null the reference of exactly the partners that had it; no
    partner row goes away, and the category is gone from the table. *)
Lemma category_DELETE_detaches_to_null (id : string) (w : World) (existing : Category) :
  find (prisma.category.hasId id) (categories (db w)) = Some existing ->
  exists w',
    CategoriesIdRoute.DELETE id w = (Done (mkResponse 200 BOk), w')
    /\ Forall2
         (fun p p' =>
            p_id p' = p_id p
            /\ p_categoryId p'
               = if decide (p_categoryId p = Some id) then None else p_categoryId p)
         (partners (db w)) (partners (db w'))
    /\ (NoDup (map c_id (categories (db w))) ->
        exists items,
          CategoriesRoute.GET w' = (Done (mkResponse 200 (BCategories items)), w')
          /\ forall c, In c items -> c_id c <> id).
Proof.
  intros Hfind. pose proof (find_some _ _ Hfind) as [_ Hid].
  apply String.eqb_eq in Hid.
  unfold CategoriesIdRoute.DELETE, bind, prisma.category.findUnique,
    prisma.category.delete, gets.
  cbv beta. rewrite Hfind. cbv beta iota. rewrite Hfind. rewrite Hid.
  match goal with
  | |- context [emit ?e ?w0] =>
      destruct (deleteUploadIfLocal_run (ofColumn (c_imageUrl existing)) (emit e w0))
        as (w' & Hrun & Hdb & _)
  end.
  rewrite Hrun. exists w'. split; [reflexivity|]. rewrite Hdb. cbn [db emit set_db partners categories].
  split.
  - generalize (partners (db w)). intros l.
    induction l as [|p l IH]; cbn; constructor; [|exact IH].
    unfold prisma.category.setNull. destruct (decide _); auto.
  - intros Hnd. eexists. split; [reflexivity|]. intros c Hin.
    apply (removeFirst_unique id (categories (db w))); [assumption|].
    apply (Permutation_in _ (merge_sort_Permutation nameAsc _)) in Hin.
    now rewrite Hdb in Hin.
Qed.

Example category_DELETE_detaches_to_null_ex :
  partners (db (snd (CategoriesIdRoute.DELETE "c1" (demoWorld None))))
  = [mkPartner "p1" "OKX" "https://okx.com" true None None 5 5].
Proof. reflexivity. Qed.

(** ** Listings *)

Lemma string_leb_trans (a b c : string) :
  String.leb a b = true -> String.leb b c = true -> String.leb a c = true.
Proof.
  unfold String.leb. revert b c.
  induction a as [|x a IH]; intros [|y b] [|z c]; cbn [String.compare];
    try reflexivity; try discriminate.
  unfold Ascii.compare.
  destruct (N.compare_spec (N_of_ascii x) (N_of_ascii y)) as [Hxy|Hxy|Hxy];
    destruct (N.compare_spec (N_of_ascii y) (N_of_ascii z)) as [Hyz|Hyz|Hyz];
    destruct (N.compare_spec (N_of_ascii x) (N_of_ascii z)) as [Hxz|Hxz|Hxz];
    try lia; try discriminate; try reflexivity.
  apply IH.
Qed.

#[local] Instance nameAsc_total : Total nameAsc.
Proof. intros a b. apply String.leb_total. Qed.
#[local] Instance nameAsc_trans : Transitive nameAsc.
Proof. intros a b c. apply string_leb_trans. Qed.
#[local] Instance createdAtDesc_total : Total createdAtDesc.
Proof. intros a b. unfold createdAtDesc. lia. Qed.
#[local] Instance createdAtDesc_trans : Transitive createdAtDesc.
Proof. intros a b c. unfold createdAtDesc. lia. Qed.
#[local] Instance datePublishedDescThenCreatedAtDesc_total :
  Total datePublishedDescThenCreatedAtDesc.
Proof. intros a b. unfold datePublishedDescThenCreatedAtDesc. lia. Qed.
#[local] Instance datePublishedDescThenCreatedAtDesc_trans :
  Transitive datePublishedDescThenCreatedAtDesc.
Proof. intros a b c. unfold datePublishedDescThenCreatedAtDesc. lia. Qed.

(** C9, as the code has it.  Each GET answers 200 with the rows of its
    table, all of them, in order: categories by name ascending, partners by
    creation time descending, announcements by publication date descending
    and, among those of one date, by creation time descending.  The world is
    left as it was. *)
Theorem listings_are_ordered (w : World) :
  (exists items,
      CategoriesRoute.GET w = (Done (mkResponse 200 (BCategories items)), w)
      /\ StronglySorted nameAsc items
      /\ Permutation items (categories (db w)))
  /\ (exists items,
         PartnersRoute.GET w = (Done (mkResponse 200 (BPartners items)), w)
         /\ StronglySorted createdAtDesc items
         /\ Permutation items (partners (db w)))
  /\ (exists items,
         AnnouncementsRoute.GET w = (Done (mkResponse 200 (BAnnouncements items)), w)
         /\ StronglySorted datePublishedDescThenCreatedAtDesc items
         /\ Permutation items (announcements (db w))).
Proof.
  repeat split; eexists; (split; [reflexivity|]);
    (split; [apply StronglySorted_merge_sort; apply _ | apply merge_sort_Permutation]).
Qed.

(** The claim of C9 fails for announcements: the one created first comes
    first when it has the later publication date. *)
Lemma announcements_not_by_creation_time_counterexample :
  let w := demoWorld None in
  let a1 := mkAnnouncement "a1" "Launch" "We are live" "https://trl.co" 20 None 10 10 in
  let a2 := mkAnnouncement "a2" "Update" "Version two" "https://trl.co" 10 None 30 30 in
  AnnouncementsRoute.GET w = (Done (mkResponse 200 (BAnnouncements [a1; a2])), w)
  /\ ~ Sorted announcementCreatedAtDesc [a1; a2].
Proof.
  cbv zeta. split; [reflexivity|].
  intros Hs. inversion Hs as [|? ? _ Hhd]; subst.
  inversion Hhd as [|? ? Hle]; subst.
  unfold announcementCreatedAtDesc in Hle. cbn in Hle. lia.
Qed.

(** ** The image field of the schemas *)

Lemma imageUrlSchema_not_empty (v : option json) (sig : nullish) :
  Zod.imageUrlSchema v = Some sig -> sig <> Str "".
Proof.
  unfold Zod.imageUrlSchema, Zod.imageUrlUnion, Zod.emptyToNull.
  destruct v as [[| | |s| |]|]; try discriminate; try (intros [= <-]; discriminate).
  destruct (Zod.imageUrlRefinement (JsString.trim s)); [|discriminate].
  destruct (String.eqb_spec (JsString.trim s) ""); intros [= <-]; congruence.
Qed.

Lemma imageUrlSchema_blank (s : string) (sig : nullish) :
  JsString.trim s = "" ->
  Zod.imageUrlSchema (Some (JString s)) = Some sig -> sig = Null.
Proof.
  intros Hblank. unfold Zod.imageUrlSchema, Zod.imageUrlUnion, Zod.emptyToNull.
  rewrite Hblank. cbn. congruence.
Qed.

Lemma applyImage_not_empty (sig : nullish) (old : option string) :
  sig <> Str "" -> old <> Some "" -> applyImage sig old <> Some "".
Proof. destruct sig; cbn; congruence. Qed.

Section EmptyImage.
Context `{Host}.

Lemma update_noEmptyImage (k : Kind) (req : Request) (id : string) (w : World) :
  noEmptyImage (db w) -> noEmptyImage (db (snd (update k req id w))).
Proof.
  intros Hinv.
  destruct (parsedImage k req) as [sig|] eqn:Hp.
  2:{ destruct (update_rejected k req id w Hp) as (issues & ->). exact Hinv. }
  pose proof (imageUrlSchema_not_empty _ _ (parsedImage_schema k req sig Hp)) as Hsig.
  destruct (imageOf k id (db w)) as [old|] eqn:Hold.
  2:{ rewrite (update_not_found k req id w sig Hp Hold). exact Hinv. }
  destruct Hinv as (Hc & Hp' & Ha).
  destruct k; cbn [parsedImage imageOf update] in *;
    apply fmap_Some in Hold as (existing & Hfind & ->);
    pose proof (find_some _ _ Hfind) as [Hin _].
  - destruct (Zod.categorySchema (readJson req)) as [parsed|] eqn:Hparse; [|discriminate].
    injection Hp as <-.
    pose proof (category_PUT_run req id w parsed existing Hparse Hfind) as Hrun.
    destruct (prisma.category.nameTaken _ _ _).
    + rewrite Hrun. repeat split; assumption.
    + destruct Hrun as (updated & w' & -> & Himg & Hdb & _). cbn [snd]. rewrite Hdb.
      repeat split; cbn; try assumption.
      apply Forall_replaceFirst; [assumption|]. rewrite Himg.
      apply applyImage_not_empty; [assumption|].
      apply (proj1 (Forall_forall _ _) Hc), list_elem_of_In, Hin.
  - destruct (Zod.partnerSchema (readJson req)) as [parsed|] eqn:Hparse; [|discriminate].
    injection Hp as <-.
    pose proof (partner_PUT_run req id w parsed existing Hparse Hfind) as Hrun.
    destruct (prisma.partner.categoryExists _ _).
    + destruct Hrun as (updated & w' & -> & Himg & Hdb & _). cbn [snd]. rewrite Hdb.
      repeat split; cbn; try assumption.
      apply Forall_replaceFirst; [assumption|]. rewrite Himg.
      apply applyImage_not_empty; [assumption|].
      apply (proj1 (Forall_forall _ _) Hp'), list_elem_of_In, Hin.
    + rewrite Hrun. repeat split; assumption.
  - destruct (Zod.announcementSchema (readJson req)) as [parsed|] eqn:Hparse; [|discriminate].
    injection Hp as <-.
    destruct (announcement_PUT_run req id w parsed existing Hparse Hfind)
      as (updated & w' & -> & Himg & Hdb & _). cbn [snd]. rewrite Hdb.
    repeat split; cbn; try assumption.
    apply Forall_replaceFirst; [assumption|]. rewrite Himg.
    apply applyImage_not_empty; [assumption|].
    apply (proj1 (Forall_forall _ _) Ha), list_elem_of_In, Hin.
Qed.

Lemma create_noEmptyImage (k : Kind) (req : Request) (w : World) :
  noEmptyImage (db w) -> noEmptyImage (db (snd (create k req w))).
Proof.
  intros (Hc & Hp & Ha).
  destruct k; cbn [create].
  - unfold CategoriesRoute.POST.
    destruct (Zod.categorySchema (readJson req)) as [data|] eqn:Hparse;
      [|repeat split; assumption].
    pose proof (imageUrlSchema_not_empty _ _ (categorySchema_image _ _ Hparse)) as Hsig.
    unfold bind, prisma.category.create, draw. cbn.
    destruct (_ || _); cbn; repeat split; cbn; try assumption.
    apply Forall_app. split; [assumption|]. constructor; [|constructor].
    cbn. now apply applyImage_not_empty.
  - unfold PartnersRoute.POST.
    destruct (Zod.partnerSchema (readJson req)) as [data|] eqn:Hparse;
      [|repeat split; assumption].
    pose proof (imageUrlSchema_not_empty _ _ (partnerSchema_image _ _ Hparse)) as Hsig.
    unfold bind, prisma.partner.create, draw. cbn.
    destruct (existsb _ _); cbn; [repeat split; assumption|].
    destruct (negb _); cbn; repeat split; cbn; try assumption.
    apply Forall_app. split; [assumption|]. constructor; [|constructor].
    cbn. now apply applyImage_not_empty.
  - unfold AnnouncementsRoute.POST.
    destruct (Zod.announcementSchema (readJson req)) as [data|] eqn:Hparse;
      [|repeat split; assumption].
    pose proof (imageUrlSchema_not_empty _ _ (announcementSchema_image _ _ Hparse)) as Hsig.
    unfold bind, prisma.announcement.create, draw. cbn.
    destruct (existsb _ _); cbn; repeat split; cbn; try assumption.
    apply Forall_app. split; [assumption|]. constructor; [|constructor].
    cbn. now apply applyImage_not_empty.
Qed.

(** C10. When a schema accepts a body, the image signal it hands on is
    never the empty string; if the body's [imageUrl] is a string that is
    empty once trimmed, the signal is [null].  So a POST or a PUT of any of
    the three kinds keeps the tables free of rows whose image is the empty
    string. *)
Theorem empty_imageUrl_becomes_null (k : Kind) (req : Request) (sig : nullish) :
  parsedImage k req = Some sig ->
  (forall s, Zod.field (readJson req) "imageUrl" = Some (JString s) ->
             JsString.trim s = "" -> sig = Null)
  /\ sig <> Str ""
  /\ (forall id w, noEmptyImage (db w) ->
                   noEmptyImage (db (snd (update k req id w)))
                   /\ noEmptyImage (db (snd (create k req w)))).
Proof.
  intros Hp. apply parsedImage_schema in Hp. split; [|split].
  - intros s Hfield Hblank. rewrite Hfield in Hp.
    now apply (imageUrlSchema_blank s).
  - now apply (imageUrlSchema_not_empty _ _ Hp).
  - intros id w Hinv. split;
      [now apply update_noEmptyImage | now apply create_noEmptyImage].
Qed.

End EmptyImage.

Lemma empty_imageUrl_becomes_null_witness :
  let req := partnerPut "OKX" (Some (JString "   ")) in
  @parsedImage demoHost KPartner req = Some Null
  /\ ((forall s, Zod.field (readJson req) "imageUrl" = Some (JString s) ->
                 JsString.trim s = "" -> Null = Null)
      /\ Null <> Str ""
      /\ (forall id w, noEmptyImage (db w) ->
                       noEmptyImage (db (snd (@update demoHost KPartner req id w)))
                       /\ noEmptyImage (db (snd (@create demoHost KPartner req w))))).
Proof.
  cbv zeta. split; [reflexivity|].
  apply (@empty_imageUrl_becomes_null demoHost). reflexivity.
Defined.

(** ** Scenarios *)

(** A partner whose image is the upload [/uploads/a.jpg] is updated with
    [imageUrl: null]: the record is written, then the file is unlinked, and
    it is gone from the file system. *)
Example clear_deletes_the_upload :
  let w := demoWorld (Some "/uploads/a.jpg") in
  let out := @update demoHost KPartner (partnerPut "OKX" (Some JNull)) "p1" w in
  status (responseOf (fst out)) = 200
  /\ imageOf KPartner "p1" (db (snd out)) = Some None
  /\ newEvents w (snd out)
     = [EvDbUpdate TPartner "p1"; EvUnlink "/srv/app/public/uploads/a.jpg"]
  /\ files (fs (snd out)) !! "/srv/app/public/uploads/a.jpg" = None.
Proof. vm_compute. repeat split. Qed.

(** Sending the stored address again is not a change: no deletion. *)
Example same_image_deletes_nothing :
  let w := demoWorld (Some "/uploads/a.jpg") in
  let out := @update demoHost KPartner
               (partnerPut "OKX" (Some (JString "/uploads/a.jpg"))) "p1" w in
  status (responseOf (fst out)) = 200
  /\ newEvents w (snd out) = [EvDbUpdate TPartner "p1"]
  /\ fs (snd out) = fs w.
Proof. vm_compute. repeat split. Qed.

(** An update that names a category that does not exist is refused by the
    foreign key: the handler throws, and the old upload stays. *)
Example failed_write_deletes_nothing :
  let w := demoWorld (Some "/uploads/a.jpg") in
  let req := mkRequest []
               (Some (JObject [("name", JString "OKX"); ("categoryId", JString "c9");
                               ("link", JString "https://okx.com");
                               ("featured", JBool true); ("imageUrl", JNull)])) None in
  @update demoHost KPartner req "p1" w = (Thrown (PrismaError "P2003"), w).
Proof. reflexivity. Qed.

(** An upload that passes both checks is written under a fresh name below
    [public/uploads], and the address sent back maps to that file. *)
Example upload_accepts_png :
  let w := demoWorld None in
  let out := UploadRoute.POST (uploadRequest (mkFile (Some "logo.PNG") "image/png" [])) w in
  fst out = Done (mkResponse 201 (BUrl "/uploads/100_0a1b2c3d4e5f.png"))
  /\ newEvents w (snd out) = [EvWriteFile "/srv/app/public/uploads/100_0a1b2c3d4e5f.png"]
  /\ Path.join [cwd w; "public"; "/uploads/100_0a1b2c3d4e5f.png"]
     = "/srv/app/public/uploads/100_0a1b2c3d4e5f.png".
Proof. vm_compute. repeat split. Qed.


(* ================================================================== *)
(** * Further properties of the routes *)

(** ** Tables, once more *)

Lemma find_removeFirst_same {A} (key : A -> string) (id : string) (l : list A) :
  NoDup (map key l) ->
  find (fun x => String.eqb (key x) id)
       (removeFirst (fun x => String.eqb (key x) id) l) = None.
Proof.
  induction l as [|x l IH]; cbn; [reflexivity|].
  intros Hnd. apply NoDup_cons in Hnd as [Hx Hnd].
  destruct (String.eqb_spec (key x) id) as [Heq|Hne].
  - destruct (find _ l) as [y|] eqn:Hfind; [|reflexivity].
    apply find_some in Hfind as [Hin Hy]. apply String.eqb_eq in Hy.
    exfalso. apply Hx. rewrite Heq, <- Hy. apply list_elem_of_In, in_map, Hin.
  - cbn. destruct (String.eqb_spec (key x) id); [contradiction|]. auto.
Qed.

Lemma find_removeFirst_other {A} (key : A -> string) (id id' : string) (l : list A) :
  id' <> id ->
  find (fun x => String.eqb (key x) id')
       (removeFirst (fun x => String.eqb (key x) id) l)
  = find (fun x => String.eqb (key x) id') l.
Proof.
  intros Hne. induction l as [|x l IH]; cbn; [reflexivity|].
  destruct (String.eqb_spec (key x) id) as [Heq|Hx].
  - destruct (String.eqb_spec (key x) id'); [congruence|reflexivity].
  - cbn. now rewrite IH.
Qed.

Lemma length_removeFirst {A} (f : A -> bool) (l : list A) (x : A) :
  find f l = Some x -> S (List.length (removeFirst f l)) = List.length l.
Proof.
  induction l as [|y l IH]; cbn; [discriminate|].
  destruct (f y); [reflexivity|]. intros Hfind. cbn. now rewrite IH.
Qed.

Lemma find_app_fresh {A} (f : A -> bool) (l : list A) (x : A) :
  existsb f l = false -> f x = true -> find f (l ++ [x]) = Some x.
Proof.
  intros Hfresh Hx. induction l as [|y l IH]; cbn in *; [now rewrite Hx|].
  apply orb_false_iff in Hfresh as [Hy Hl]. rewrite Hy. auto.
Qed.

Lemma find_over_app {A} (f : A -> bool) (l l' : list A) :
  find f (l ++ l') = match find f l with Some x => Some x | None => find f l' end.
Proof.
  induction l as [|y l IH]; cbn; [reflexivity|]. destruct (f y); auto.
Qed.

Lemma existsb_find_none {A} (f : A -> bool) (l : list A) :
  existsb f l = false -> find f l = None.
Proof.
  induction l as [|y l IH]; cbn; [reflexivity|].
  intros Hf. apply orb_false_iff in Hf as [-> Hl]. auto.
Qed.

(** ** Saving twice *)

Lemma cleanupOf_after_apply (sig : nullish) (old : option string) (w : World) :
  cleanupOf sig (applyImage sig old) w = [].
Proof.
  unfold cleanupOf. destruct (decide _) as [[Hs Hd]|]; [|reflexivity].
  destruct sig; cbn in *; congruence.
Qed.

Lemma applyImage_twice (sig : nullish) (old : option string) :
  applyImage sig (applyImage sig old) = applyImage sig old.
Proof. destruct sig; reflexivity. Qed.

Section Repeat.
Context `{Host}.

(** X1. Sending the same PUT a second time deletes nothing, whatever the first
    one did: the stored image already is what the request asks for.  The
    image column and the file system are the same after the second request
    as after the first. *)
Theorem update_repeated_deletes_nothing (k : Kind) (req : Request) (id : string)
    (w : World) :
  let w1 := snd (update k req id w) in
  let w2 := snd (update k req id w1) in
  ~ deletionAttempted w1 w2
  /\ imageOf k id (db w2) = imageOf k id (db w1)
  /\ fs w2 = fs w1.
Proof.
  cbv zeta. unfold deletionAttempted.
  destruct (parsedImage k req) as [sig|] eqn:Hp.
  2:{ destruct (update_rejected k req id w Hp) as (i1 & ->). cbn [snd].
      destruct (update_rejected k req id w Hp) as (i2 & ->). cbn [snd].
      rewrite newEvents_same. cbn. auto. }
  destruct (imageOf k id (db w)) as [old|] eqn:Hold.
  2:{ rewrite (update_not_found k req id w sig Hp Hold). cbn [snd].
      rewrite (update_not_found k req id w sig Hp Hold). cbn [snd].
      rewrite newEvents_same. cbn. auto. }
  destruct (update_found k req id w sig old Hp Hold)
    as [(e & Hthrown)|(resp & w1 & Hdone & _ & _ & Himg & _ & _)].
  { rewrite Hthrown. cbn [snd]. rewrite Hthrown. cbn [snd].
    rewrite newEvents_same. cbn. auto. }
  rewrite Hdone. cbn [snd].
  destruct (update_found k req id w1 sig _ Hp Himg)
    as [(e & ->)|(resp2 & w2 & -> & _ & _ & Himg2 & Hlog2 & Hfs2)]; cbn [snd].
  { rewrite newEvents_same. cbn. auto. }
  rewrite cleanupOf_after_apply in Hlog2.
  rewrite (newEvents_app _ _ _ Hlog2). cbn.
  rewrite Himg2, Himg, applyImage_twice.
  repeat split; [discriminate|]. apply Hfs2, cleanupOf_after_apply.
Qed.

End Repeat.

(** ** The DELETE handlers *)

Lemma remove_not_found (k : Kind) (id : string) (w : World) :
  imageOf k id (db w) = None ->
  remove k id w = (Done (mkResponse 404 (BError "Not found")), w).
Proof.
  destruct k; cbn [imageOf remove]; intros Hnone; apply fmap_None in Hnone;
    unfold CategoriesIdRoute.DELETE, PartnersIdRoute.DELETE, AnnouncementsIdRoute.DELETE,
      bind, prisma.category.findUnique, prisma.partner.findUnique,
      prisma.announcement.findUnique, gets;
    rewrite Hnone; reflexivity.
Qed.

Lemma remove_found (k : Kind) (id : string) (w : World) (old : option string) :
  imageOf k id (db w) = Some old ->
  exists w',
    remove k id w = (Done (mkResponse 200 BOk), w')
    /\ db w' = withoutRecord k id (db w)
    /\ log w' = log w ++ EvDbDelete (tableOf k) id :: unlinkOf (ofColumn old) w.
Proof.
  destruct k; cbn [imageOf remove tableOf withoutRecord]; intros Hold;
    apply fmap_Some in Hold as (existing & Hfind & ->);
    pose proof (find_some _ _ Hfind) as [_ Hid]; apply String.eqb_eq in Hid.
  - unfold CategoriesIdRoute.DELETE, bind, prisma.category.findUnique,
      prisma.category.delete, gets.
    cbv beta. rewrite Hfind. cbv beta iota. rewrite Hfind, Hid.
    match goal with
    | |- context [emit ?e ?w0] =>
        destruct (deleteUploadIfLocal_run (ofColumn (c_imageUrl existing)) (emit e w0))
          as (w' & Hrun & Hdb & Hlog & _)
    end.
    rewrite Hrun. exists w'. split; [reflexivity|]. split; [exact Hdb|].
    rewrite Hlog. cbn [log emit]. now rewrite <- app_assoc.
  - unfold PartnersIdRoute.DELETE, bind, prisma.partner.findUnique,
      prisma.partner.delete, gets.
    cbv beta. rewrite Hfind. cbv beta iota. rewrite Hfind.
    match goal with
    | |- context [emit ?e ?w0] =>
        destruct (deleteUploadIfLocal_run (ofColumn (p_imageUrl existing)) (emit e w0))
          as (w' & Hrun & Hdb & Hlog & _)
    end.
    rewrite Hrun. exists w'. split; [reflexivity|]. split; [exact Hdb|].
    rewrite Hlog. cbn [log emit]. now rewrite <- app_assoc.
  - unfold AnnouncementsIdRoute.DELETE, bind, prisma.announcement.findUnique,
      prisma.announcement.delete, gets.
    cbv beta. rewrite Hfind. cbv beta iota. rewrite Hfind.
    match goal with
    | |- context [emit ?e ?w0] =>
        destruct (deleteUploadIfLocal_run (ofColumn (a_imageUrl existing)) (emit e w0))
          as (w' & Hrun & Hdb & Hlog & _)
    end.
    rewrite Hrun. exists w'. split; [reflexivity|]. split; [exact Hdb|].
    rewrite Hlog. cbn [log emit]. now rewrite <- app_assoc.
Qed.

Lemma imageOf_withoutRecord_same (k : Kind) (id : string) (d : Db) :
  NoDup (idsOf k d) -> imageOf k id (withoutRecord k id d) = None.
Proof.
  destruct k; cbn [idsOf imageOf withoutRecord categories partners announcements];
    intros Hnd; apply fmap_None.
  - apply (find_removeFirst_same c_id id _ Hnd).
  - apply (find_removeFirst_same p_id id _ Hnd).
  - apply (find_removeFirst_same a_id id _ Hnd).
Qed.

Lemma imageOf_withoutRecord_other (k : Kind) (id id' : string) (d : Db) :
  id' <> id -> imageOf k id' (withoutRecord k id d) = imageOf k id' d.
Proof.
  destruct k; cbn [imageOf withoutRecord categories partners announcements];
    intros Hne; f_equal.
  - apply (find_removeFirst_other c_id id id' _ Hne).
  - apply (find_removeFirst_other p_id id id' _ Hne).
  - apply (find_removeFirst_other a_id id id' _ Hne).
Qed.

Lemma length_idsOf_withoutRecord (k : Kind) (id : string) (d : Db) (old : option string) :
  imageOf k id d = Some old ->
  S (List.length (idsOf k (withoutRecord k id d))) = List.length (idsOf k d).
Proof.
  destruct k; cbn [idsOf imageOf withoutRecord categories partners announcements];
    intros Hold; apply fmap_Some in Hold as (existing & Hfind & _);
    rewrite !length_map; now apply (length_removeFirst _ _ existing).
Qed.

(** X2. Deleting a record that exists answers 200 [{ ok: true }].  The row is
    deleted first and the blob second; the blob is unlinked only if the
    stored image is a local upload.  Afterwards the id names no record, the
    table has one row less, and every other record of the kind has the
    image it had. *)
Theorem remove_deletes_record_then_blob (k : Kind) (id : string) (w : World)
    (old : option string) :
  imageOf k id (db w) = Some old ->
  NoDup (idsOf k (db w)) ->
  exists w',
    remove k id w = (Done (mkResponse 200 BOk), w')
    /\ newEvents w w' = EvDbDelete (tableOf k) id :: unlinkOf (ofColumn old) w
    /\ imageOf k id (db w') = None
    /\ S (List.length (idsOf k (db w'))) = List.length (idsOf k (db w))
    /\ forall id', id' <> id -> imageOf k id' (db w') = imageOf k id' (db w).
Proof.
  intros Hold Hnd.
  destruct (remove_found k id w old Hold) as (w' & Hrun & Hdb & Hlog).
  exists w'. split; [exact Hrun|]. split; [now apply newEvents_app|].
  rewrite Hdb. split; [now apply imageOf_withoutRecord_same|].
  split; [now apply (length_idsOf_withoutRecord k id (db w) old)|].
  intros id' Hne. now apply imageOf_withoutRecord_other.
Qed.

Lemma remove_deletes_record_then_blob_witness :
  let w := demoWorld (Some "/uploads/a.jpg") in
  imageOf KPartner "p1" (db w) = Some (Some "/uploads/a.jpg")
  /\ NoDup (idsOf KPartner (db w))
  /\ exists w',
      remove KPartner "p1" w = (Done (mkResponse 200 BOk), w')
      /\ newEvents w w'
         = EvDbDelete (tableOf KPartner) "p1" :: unlinkOf (ofColumn (Some "/uploads/a.jpg")) w
      /\ imageOf KPartner "p1" (db w') = None
      /\ S (List.length (idsOf KPartner (db w'))) = List.length (idsOf KPartner (db w))
      /\ forall id', id' <> "p1" ->
                     imageOf KPartner id' (db w') = imageOf KPartner id' (db w).
Proof.
  cbv zeta.
  assert (Hnd : NoDup (idsOf KPartner (db (demoWorld (Some "/uploads/a.jpg")))))
    by (cbn; repeat constructor; intros Hin; inversion Hin).
  split; [reflexivity|]. split; [exact Hnd|].
  apply (remove_deletes_record_then_blob KPartner "p1" _ (Some "/uploads/a.jpg"));
    [reflexivity | exact Hnd].
Defined.

(** X3. Deleting under an id that names no record answers 404 "Not found" and
    changes nothing: no row is deleted and no file is touched. *)
Theorem remove_of_missing_record_is_not_found (k : Kind) (id : string) (w : World) :
  imageOf k id (db w) = None ->
  remove k id w = (Done (mkResponse 404 (BError "Not found")), w).
Proof. apply remove_not_found. Qed.

Lemma remove_of_missing_record_is_not_found_witness :
  let w := demoWorld None in
  imageOf KAnnouncement "a9" (db w) = None
  /\ remove KAnnouncement "a9" w = (Done (mkResponse 404 (BError "Not found")), w).
Proof.
  cbv zeta. split; [reflexivity|].
  apply (remove_of_missing_record_is_not_found KAnnouncement "a9"). reflexivity.
Defined.

(** ** The POST handlers *)

Section Creation.
Context `{Host}.

Lemma create_rejected (k : Kind) (req : Request) (w : World) :
  parsedImage k req = None ->
  exists issues, create k req w = (Done (mkResponse 400 (BInvalid issues)), w).
Proof.
  destruct k; cbn [parsedImage create];
    [unfold CategoriesRoute.POST; destruct (Zod.categorySchema _)
    |unfold PartnersRoute.POST; destruct (Zod.partnerSchema _)
    |unfold AnnouncementsRoute.POST; destruct (Zod.announcementSchema _)];
    try discriminate; intros _; eexists; reflexivity.
Qed.

(** What a POST with an accepted body does: it draws the id, and either
    the insert is refused and the handler throws with the tables as they
    were, or the row is appended and sent back with 201. *)
Lemma create_accepted (k : Kind) (req : Request) (w : World) (sig : nullish) :
  parsedImage k req = Some sig ->
  let id := randomSource w (drawn w) in
  (exists e w', create k req w = (Thrown e, w')
                /\ db w' = db w /\ fs w' = fs w /\ log w' = log w)
  \/ (exists resp w',
        create k req w = (Done resp, w')
        /\ status resp = 201
        /\ bodyImage (body resp) = Some (applyImage sig None)
        /\ imageOf k id (db w) = None
        /\ imageOf k id (db w') = Some (applyImage sig None)
        /\ (forall id', id' <> id -> imageOf k id' (db w') = imageOf k id' (db w))
        /\ idsOf k (db w') = idsOf k (db w) ++ [id]
        /\ fs w' = fs w
        /\ log w' = log w ++ [EvDbCreate (tableOf k) id]).
Proof.
  destruct k; cbn [parsedImage create imageOf idsOf tableOf]; intros Hp; cbv zeta.
  - destruct (Zod.categorySchema (readJson req)) as [data|] eqn:Hparse; [|discriminate].
    injection Hp as <-.
    unfold CategoriesRoute.POST. rewrite Hparse.
    unfold bind, prisma.category.create, draw. cbn.
    destruct (existsb (prisma.category.hasId _) _) eqn:Hid; cbn;
      [left; eexists _, _; repeat split; reflexivity|].
    destruct (existsb (fun c => String.eqb (c_name c) (Zod.ci_name data)) (categories (db w)))
      eqn:Hname; cbn; [left; eexists _, _; repeat split; reflexivity|]. right.
    eexists _, _. split; [reflexivity|]. cbn.
    rewrite (existsb_find_none _ _ Hid).
    rewrite find_app_fresh by (auto; apply String.eqb_refl).
    repeat split; auto.
    + intros id' Hne. f_equal. rewrite find_over_app. destruct (find _ _); [reflexivity|].
      cbn. unfold prisma.category.hasId. cbn.
      destruct (String.eqb_spec (randomSource w (drawn w)) id'); [congruence|reflexivity].
    + now rewrite map_app.
  - destruct (Zod.partnerSchema (readJson req)) as [data|] eqn:Hparse; [|discriminate].
    injection Hp as <-.
    unfold PartnersRoute.POST. rewrite Hparse.
    unfold bind, prisma.partner.create, draw. cbn.
    destruct (existsb (prisma.partner.hasId _) _) eqn:Hid; cbn;
      [left; eexists _, _; repeat split; reflexivity|].
    destruct (negb _) eqn:Hfk; cbn; [left; eexists _, _; repeat split; reflexivity|]. right.
    eexists _, _. split; [reflexivity|]. cbn.
    rewrite (existsb_find_none _ _ Hid).
    rewrite find_app_fresh by (auto; apply String.eqb_refl).
    repeat split; auto.
    + intros id' Hne. f_equal. rewrite find_over_app. destruct (find _ _); [reflexivity|].
      cbn. unfold prisma.partner.hasId. cbn.
      destruct (String.eqb_spec (randomSource w (drawn w)) id'); [congruence|reflexivity].
    + now rewrite map_app.
  - destruct (Zod.announcementSchema (readJson req)) as [data|] eqn:Hparse; [|discriminate].
    injection Hp as <-.
    unfold AnnouncementsRoute.POST. rewrite Hparse.
    unfold bind, prisma.announcement.create, draw. cbn.
    destruct (existsb (prisma.announcement.hasId _) _) eqn:Hid; cbn;
      [left; eexists _, _; repeat split; reflexivity|]. right.
    eexists _, _. split; [reflexivity|]. cbn.
    rewrite (existsb_find_none _ _ Hid).
    rewrite find_app_fresh by (auto; apply String.eqb_refl).
    repeat split; auto.
    + intros id' Hne. f_equal. rewrite find_over_app. destruct (find _ _); [reflexivity|].
      cbn. unfold prisma.announcement.hasId. cbn.
      destruct (String.eqb_spec (randomSource w (drawn w)) id'); [congruence|reflexivity].
    + now rewrite map_app.
Qed.

End Creation.

Section CreationProperties.
Context `{Host}.

(** X4. A POST that answers 201 has appended one row to the table of its kind,
    under an id that was free, and nothing else: the other records are as
    they were and no file is touched.  The image of the new record is the
    address in the body, or none when the body has [null] or no image. *)
Theorem create_appends_one_record (k : Kind) (req : Request) (w w' : World)
    (resp : Response) :
  create k req w = (Done resp, w') ->
  status resp = 201 ->
  exists (sig : nullish) (id : string),
    parsedImage k req = Some sig
    /\ imageOf k id (db w) = None
    /\ imageOf k id (db w')
       = Some (match sig with Str b => Some b | _ => None end)
    /\ bodyImage (body resp) = imageOf k id (db w')
    /\ idsOf k (db w') = idsOf k (db w) ++ [id]
    /\ (forall id', id' <> id -> imageOf k id' (db w') = imageOf k id' (db w))
    /\ newEvents w w' = [EvDbCreate (tableOf k) id]
    /\ fs w' = fs w.
Proof.
  intros Hrun Hok.
  destruct (parsedImage k req) as [sig|] eqn:Hp.
  2:{ destruct (create_rejected k req w Hp) as (issues & Hrej).
      rewrite Hrej in Hrun. injection Hrun as <- <-. discriminate. }
  destruct (create_accepted k req w sig Hp)
    as [(e & w0 & Hthrown & _)|(resp' & w0 & Hdone & _ & Hbody & Hfree & Himg & Hrest
                               & Hids & Hfs & Hlog)].
  { rewrite Hthrown in Hrun. discriminate. }
  rewrite Hdone in Hrun. injection Hrun as -> ->.
  exists sig, (randomSource w (drawn w)).
  split; [reflexivity|]. split; [exact Hfree|].
  split; [rewrite Himg; destruct sig; reflexivity|].
  split; [congruence|]. split; [exact Hids|]. split; [exact Hrest|].
  split; [now apply newEvents_app|exact Hfs].
Qed.

(** X5. A POST never writes or deletes a file, whatever it answers, and unless
    it answers 201 it leaves every table as it was.  So the image that was
    uploaded for a record whose insert is then refused stays where it is. *)
Theorem create_leaves_files_alone (k : Kind) (req : Request) (w : World) :
  let out := create k req w in
  fs (snd out) = fs w
  /\ ~ deletionAttempted w (snd out)
  /\ (status (responseOf (fst out)) = 201 \/ db (snd out) = db w).
Proof.
  cbv zeta. unfold deletionAttempted.
  destruct (parsedImage k req) as [sig|] eqn:Hp.
  - destruct (create_accepted k req w sig Hp)
      as [(e & w0 & -> & Hdb & Hfs & Hlog)|(resp' & w0 & -> & Hok & _ & _ & _ & _
                                           & _ & Hfs & Hlog)]; cbn [fst snd responseOf].
    + rewrite (newEvents_app w w0 []) by (now rewrite app_nil_r). cbn. auto.
    + rewrite (newEvents_app _ _ _ Hlog). cbn. auto.
  - destruct (create_rejected k req w Hp) as (issues & ->). cbn [fst snd].
    rewrite newEvents_same. cbn. auto.
Qed.

Lemma parsedImage_without_object (k : Kind) (req : Request) :
  (forall members, jsonBody req <> Some (JObject members)) ->
  parsedImage k req = None.
Proof.
  intros Hno. unfold parsedImage, readJson.
  destruct (jsonBody req) as [[| | | | |members]|];
    try (destruct k; reflexivity).
  exfalso. now apply (Hno members).
Qed.

(** X6. A request whose body is missing, is not JSON, or is JSON but not an
    object is answered 400 "Invalid input" by the POST and the PUT of every
    kind, and nothing is read from or written to the store. *)
Theorem body_without_object_is_invalid_input (k : Kind) (req : Request)
    (id : string) (w : World) :
  (forall members, jsonBody req <> Some (JObject members)) ->
  (exists issues, create k req w = (Done (mkResponse 400 (BInvalid issues)), w))
  /\ (exists issues, update k req id w = (Done (mkResponse 400 (BInvalid issues)), w)).
Proof.
  intros Hno. pose proof (parsedImage_without_object k req Hno) as Hp.
  split; [now apply create_rejected | now apply update_rejected].
Qed.

End CreationProperties.

Lemma create_appends_one_record_witness :
  let w := demoWorld None in
  let req := partnerPut "Bybit" (Some (JString " /uploads/b.jpg ")) in
  let out := @create demoHost KPartner req w in
  (out = (Done (responseOf (fst out)), snd out) /\ status (responseOf (fst out)) = 201)
  /\ exists (sig : nullish) (id : string),
      @parsedImage demoHost KPartner req = Some sig
      /\ imageOf KPartner id (db w) = None
      /\ imageOf KPartner id (db (snd out))
         = Some (match sig with Str b => Some b | _ => None end)
      /\ bodyImage (body (responseOf (fst out))) = imageOf KPartner id (db (snd out))
      /\ idsOf KPartner (db (snd out)) = idsOf KPartner (db w) ++ [id]
      /\ (forall id', id' <> id ->
                      imageOf KPartner id' (db (snd out)) = imageOf KPartner id' (db w))
      /\ newEvents w (snd out) = [EvDbCreate (tableOf KPartner) id]
      /\ fs (snd out) = fs w.
Proof.
  cbv zeta. split; [split; vm_compute; reflexivity|].
  apply (@create_appends_one_record demoHost); vm_compute; reflexivity.
Defined.

Lemma body_without_object_is_invalid_input_witness :
  let req := mkRequest [] None None in
  (forall members, jsonBody req <> Some (JObject members))
  /\ (exists issues,
         @create demoHost KCategory req (demoWorld None)
         = (Done (mkResponse 400 (BInvalid issues)), demoWorld None))
  /\ (exists issues,
         @update demoHost KCategory req "c1" (demoWorld None)
         = (Done (mkResponse 400 (BInvalid issues)), demoWorld None)).
Proof.
  cbv zeta. assert (Hno : forall members, @None json <> Some (JObject members))
    by (intros members Heq; discriminate Heq).
  split; [exact Hno|].
  apply (@body_without_object_is_invalid_input demoHost KCategory
           (mkRequest [] None None) "c1" _ Hno).
Defined.

(** ** The constraints of the migration, kept by every request *)

Lemma In_removeFirst {A} (f : A -> bool) (l : list A) (x : A) :
  In x (removeFirst f l) -> In x l.
Proof.
  induction l as [|y l IH]; cbn; [auto|].
  destruct (f y); [auto|]. intros [<-|Hin]; auto.
Qed.

Lemma In_replaceFirst {A} (f : A -> bool) (x' : A) (l : list A) (x : A) :
  In x (replaceFirst f x' l) -> x = x' \/ In x l.
Proof.
  induction l as [|y l IH]; cbn; [auto|].
  destruct (f y); cbn; intros [<-|Hin]; auto.
  destruct (IH Hin); auto.
Qed.

Lemma NoDup_map_removeFirst {A B} (key : A -> B) (f : A -> bool) (l : list A) :
  NoDup (map key l) -> NoDup (map key (removeFirst f l)).
Proof.
  induction l as [|y l IH]; cbn; [auto|].
  intros Hnd. apply NoDup_cons in Hnd as [Hy Hnd].
  destruct (f y); [assumption|]. cbn. apply NoDup_cons. split; [|auto].
  intros Hin. apply Hy. apply list_elem_of_In in Hin. apply list_elem_of_In.
  apply in_map_iff in Hin as (x & Hx & Hin). apply in_map_iff.
  exists x. split; [assumption|]. now apply (In_removeFirst f).
Qed.

Lemma map_replaceFirst_key {A B} (key : A -> B) (f : A -> bool) (x' old : A)
    (l : list A) :
  find f l = Some old -> key x' = key old ->
  map key (replaceFirst f x' l) = map key l.
Proof.
  intros Hfind Hkey. induction l as [|y l IH]; cbn in *; [discriminate|].
  destruct (f y); cbn; [injection Hfind as <-; now rewrite Hkey|].
  now rewrite IH.
Qed.

Lemma NoDup_snoc_fresh {A} (key : A -> string) (l : list A) (x : A) :
  NoDup (map key l) ->
  existsb (fun y => String.eqb (key y) (key x)) l = false ->
  NoDup (map key (l ++ [x])).
Proof.
  intros Hnd Hfresh. rewrite map_app. cbn. apply NoDup_app. split; [assumption|].
  split; [|apply NoDup_singleton].
  intros k Hin Hk. apply list_elem_of_In in Hin, Hk. destruct Hk as [<-|[]].
  apply in_map_iff in Hin as (y & Hy & Hin).
  assert (Hex : existsb (fun y => String.eqb (key y) (key x)) l = true)
    by (apply existsb_exists; exists y; split; [assumption|now apply String.eqb_eq]).
  congruence.
Qed.

Lemma existsb_hasId_In (cid : string) (cats : list Category) :
  existsb (prisma.category.hasId cid) cats = true -> In cid (map c_id cats).
Proof.
  intros Hex. apply existsb_exists in Hex as (c & Hin & Hc).
  apply String.eqb_eq in Hc. subst cid. now apply in_map.
Qed.

Lemma In_ids_removeFirst_other (id c : string) (cats : list Category) :
  c <> id -> In c (map c_id cats) ->
  In c (map c_id (removeFirst (prisma.category.hasId id) cats)).
Proof.
  intros Hne. induction cats as [|x l IH]; cbn; [auto|].
  unfold prisma.category.hasId at 1.
  destruct (String.eqb_spec (c_id x) id) as [Heq|Hx].
  - intros [Hc|Hin]; [congruence|assumption].
  - cbn. intros [Hc|Hin]; auto.
Qed.

Lemma NoDup_names_replaceFirst (id : string) (row old : Category) (rows : list Category) :
  NoDup (map c_id rows) -> NoDup (map c_name rows) ->
  find (prisma.category.hasId id) rows = Some old ->
  prisma.category.nameTaken (c_id old) (c_name row) rows = false ->
  NoDup (map c_name (replaceFirst (prisma.category.hasId id) row rows)).
Proof.
  unfold prisma.category.nameTaken.
  induction rows as [|x l IH]; cbn; [discriminate|].
  intros Hids Hnames Hfind Htaken.
  apply NoDup_cons in Hids as [Hxid Hids]. apply NoDup_cons in Hnames as [Hxn Hnames].
  apply orb_false_iff in Htaken as [Hx Hl].
  destruct (prisma.category.hasId id x) eqn:Hhx.
  - injection Hfind as <-. cbn. apply NoDup_cons. split; [|assumption].
    intros Hin. apply list_elem_of_In, in_map_iff in Hin as (y & Hy & Hyin).
    assert (Hy' : String.eqb (c_name y) (c_name row) && negb (String.eqb (c_id y) (c_id x))
                  = false).
    { destruct (String.eqb (c_name y) (c_name row) && negb (String.eqb (c_id y) (c_id x)))
        eqn:Hb; [|reflexivity].
      rewrite <- Hl. symmetry. apply existsb_exists. exists y. now split. }
    rewrite (proj2 (String.eqb_eq _ _) Hy) in Hy'. cbn in Hy'.
    apply negb_false_iff, String.eqb_eq in Hy'.
    apply Hxid. rewrite <- Hy'. now apply list_elem_of_In, in_map.
  - cbn. apply NoDup_cons. split; [|now apply IH].
    pose proof (find_some _ _ Hfind) as [Hold _].
    intros Hin. apply list_elem_of_In, in_map_iff in Hin as (y & Hy & Hyin).
    apply In_replaceFirst in Hyin as [->|Hyin].
    + rewrite Hy, String.eqb_refl in Hx. cbn in Hx.
      apply negb_false_iff, String.eqb_eq in Hx.
      apply Hxid. rewrite Hx. now apply list_elem_of_In, in_map.
    + apply Hxn. rewrite <- Hy. now apply list_elem_of_In, in_map.
Qed.

Lemma upload_keeps_db (req : Request) (w : World) :
  db (snd (UploadRoute.POST req w)) = db w.
Proof.
  unfold UploadRoute.POST. destruct (formBody req) as [form|]; [|reflexivity].
  destruct (UploadRoute.formGet form "file") as [[f|t]|]; try reflexivity.
  destruct (negb _); [reflexivity|]. destruct (_ <? _)%Z; [reflexivity|].
  unfold bind, gets, Fs.mkdir, Fs.writeFile, draw. cbn.
  repeat (destruct (decide _); cbn; try reflexivity).
Qed.

Lemma listing_keeps_world (k : Kind) (w : World) : snd (listing k w) = w.
Proof. destruct k; reflexivity. Qed.

Lemma consistent_withoutRecord (k : Kind) (id : string) (d : Db) :
  consistent d -> consistent (withoutRecord k id d).
Proof.
  intros (Hc & Hp & Ha & Hn & Hfk).
  destruct k; unfold consistent; cbn [withoutRecord categories partners announcements];
    repeat split; auto using NoDup_map_removeFirst.
  - rewrite map_map.
    replace (map (fun x => p_id (prisma.category.setNull id x)) (partners d))
      with (map p_id (partners d)); [assumption|].
    apply map_ext. intros p. unfold prisma.category.setNull.
    destruct (decide _); reflexivity.
  - apply Forall_forall. intros p' Hin c Hc'.
    apply list_elem_of_In, in_map_iff in Hin as (p & <- & Hin).
    unfold prisma.category.setNull in Hc'.
    destruct (decide (p_categoryId p = Some id)) as [Hid|Hid]; [discriminate|].
    apply In_ids_removeFirst_other; [congruence|].
    apply (proj1 (Forall_forall _ _) Hfk p); [now apply list_elem_of_In|assumption].
  - apply Forall_forall. intros p Hin.
    apply (proj1 (Forall_forall _ _) Hfk p).
    apply list_elem_of_In. apply list_elem_of_In in Hin. now apply In_removeFirst in Hin.
Qed.

Section Constraints.
Context `{Host}.

Lemma create_consistent (k : Kind) (req : Request) (w : World) :
  consistent (db w) -> consistent (db (snd (create k req w))).
Proof.
  intros (Hc & Hp & Ha & Hn & Hfk). destruct k; cbn [create].
  - unfold CategoriesRoute.POST.
    destruct (Zod.categorySchema (readJson req)) as [data|]; [|repeat split; assumption].
    unfold bind, prisma.category.create, draw. cbn.
    destruct (existsb (prisma.category.hasId _) _) eqn:Hid; cbn;
      [repeat split; assumption|].
    destruct (existsb (fun c => String.eqb (c_name c) (Zod.ci_name data)) (categories (db w)))
      eqn:Hname; cbn; [repeat split; assumption|].
    unfold consistent. cbn. repeat split; auto.
    + now apply (NoDup_snoc_fresh c_id).
    + now apply (NoDup_snoc_fresh c_name).
    + eapply Forall_impl; [exact Hfk|]. intros p Hp' c Hc'.
      rewrite map_app. apply in_or_app. left. now apply Hp'.
  - unfold PartnersRoute.POST.
    destruct (Zod.partnerSchema (readJson req)) as [data|]; [|repeat split; assumption].
    unfold bind, prisma.partner.create, draw. cbn.
    destruct (existsb (prisma.partner.hasId _) _) eqn:Hid; cbn;
      [repeat split; assumption|].
    destruct (prisma.partner.categoryExists _ _) eqn:Hex; cbn; [|repeat split; assumption].
    unfold consistent. cbn. repeat split; auto.
    + now apply (NoDup_snoc_fresh p_id).
    + apply Forall_app. split; [assumption|]. constructor; [|constructor].
      cbn. intros c [= <-]. now apply existsb_hasId_In.
  - unfold AnnouncementsRoute.POST.
    destruct (Zod.announcementSchema (readJson req)) as [data|]; [|repeat split; assumption].
    unfold bind, prisma.announcement.create, draw. cbn.
    destruct (existsb (prisma.announcement.hasId _) _) eqn:Hid; cbn;
      [repeat split; assumption|].
    unfold consistent. cbn. repeat split; auto.
    now apply (NoDup_snoc_fresh a_id).
Qed.

(** The tables a PUT leaves when its store write goes through, with the row
    it wrote spelled out. *)
Lemma category_PUT_tables (req : Request) (id : string) (w : World)
    (parsed : Zod.CategoryInput) (old : Category) :
  Zod.categorySchema (readJson req) = Zod.Success parsed ->
  find (prisma.category.hasId id) (categories (db w)) = Some old ->
  prisma.category.nameTaken (c_id old) (Zod.ci_name parsed) (categories (db w)) = false ->
  db (snd (CategoriesIdRoute.PUT req id w))
  = mkDb (replaceFirst (prisma.category.hasId id)
            (mkCategory (c_id old) (Zod.ci_name parsed)
               (applyImage (Zod.ci_imageUrl parsed) (c_imageUrl old))
               (c_createdAt old) (now w))
            (categories (db w)))
         (partners (db w)) (announcements (db w)).
Proof.
  intros Hparse Hfind Htaken.
  unfold CategoriesIdRoute.PUT. rewrite Hparse. cbv zeta.
  cbn [Zod.ci_name Zod.ci_imageUrl].
  replace (if decide (Zod.ci_imageUrl parsed <> Undefined) then _ else _)
    with (Zod.mkCategoryInput (Zod.ci_name parsed) (Zod.ci_imageUrl parsed))
    by (rewrite <- (supplied_or_omitted (Zod.ci_imageUrl parsed)) at 1;
        destruct (decide _); reflexivity).
  unfold bind, prisma.category.findUnique, prisma.category.update, gets.
  cbv beta. rewrite Hfind. cbv beta iota. rewrite Hfind.
  cbn [Zod.ci_name Zod.ci_imageUrl]. rewrite Htaken.
  match goal with
  | |- context [emit ?e ?w0] =>
      destruct (cleanup_run (Zod.ci_imageUrl parsed) (c_imageUrl old) (emit e w0))
        as (w' & Hrun & Hdb & _)
  end.
  rewrite Hrun. unfold respond, ret. cbn [snd]. rewrite Hdb. reflexivity.
Qed.

Lemma partner_PUT_tables (req : Request) (id : string) (w : World)
    (parsed : Zod.PartnerInput) (old : Partner) :
  Zod.partnerSchema (readJson req) = Zod.Success parsed ->
  find (prisma.partner.hasId id) (partners (db w)) = Some old ->
  prisma.partner.categoryExists (Zod.pi_categoryId parsed) w = true ->
  db (snd (PartnersIdRoute.PUT req id w))
  = mkDb (categories (db w))
         (replaceFirst (prisma.partner.hasId id)
            (mkPartner (p_id old) (Zod.pi_name parsed) (Zod.pi_link parsed)
               (Zod.pi_featured parsed) (Some (Zod.pi_categoryId parsed))
               (applyImage (Zod.pi_imageUrl parsed) (p_imageUrl old))
               (p_createdAt old) (now w))
            (partners (db w)))
         (announcements (db w)).
Proof.
  intros Hparse Hfind Hex.
  unfold PartnersIdRoute.PUT. rewrite Hparse. cbv zeta.
  cbn [Zod.pi_categoryId Zod.pi_name Zod.pi_link Zod.pi_featured Zod.pi_imageUrl].
  replace (if decide (Zod.pi_imageUrl parsed <> Undefined) then _ else _)
    with (Zod.mkPartnerInput (Zod.pi_name parsed) (Zod.pi_categoryId parsed)
            (Zod.pi_link parsed) (Zod.pi_featured parsed) (Zod.pi_imageUrl parsed))
    by (rewrite <- (supplied_or_omitted (Zod.pi_imageUrl parsed)) at 1;
        destruct (decide _); reflexivity).
  unfold bind, prisma.partner.findUnique, prisma.partner.update, gets.
  cbv beta. rewrite Hfind. cbv beta iota. rewrite Hfind.
  cbn [Zod.pi_categoryId Zod.pi_name Zod.pi_link Zod.pi_featured Zod.pi_imageUrl].
  rewrite Hex. cbn [negb].
  match goal with
  | |- context [emit ?e ?w0] =>
      destruct (cleanup_run (Zod.pi_imageUrl parsed) (p_imageUrl old) (emit e w0))
        as (w' & Hrun & Hdb & _)
  end.
  rewrite Hrun. unfold respond, ret. cbn [snd]. rewrite Hdb. reflexivity.
Qed.

Lemma announcement_PUT_tables (req : Request) (id : string) (w : World)
    (parsed : Zod.AnnouncementInput) (old : Announcement) :
  Zod.announcementSchema (readJson req) = Zod.Success parsed ->
  find (prisma.announcement.hasId id) (announcements (db w)) = Some old ->
  db (snd (AnnouncementsIdRoute.PUT req id w))
  = mkDb (categories (db w)) (partners (db w))
         (replaceFirst (prisma.announcement.hasId id)
            (mkAnnouncement (a_id old) (Zod.ai_title parsed)
               (Zod.ai_description parsed) (Zod.ai_link parsed)
               (Zod.ai_datePublished parsed)
               (applyImage (Zod.ai_imageUrl parsed) (a_imageUrl old))
               (a_createdAt old) (now w))
            (announcements (db w))).
Proof.
  intros Hparse Hfind.
  unfold AnnouncementsIdRoute.PUT. rewrite Hparse. cbv zeta.
  cbn [Zod.ai_title Zod.ai_description Zod.ai_link Zod.ai_datePublished Zod.ai_imageUrl].
  replace (if decide (Zod.ai_imageUrl parsed <> Undefined) then _ else _)
    with (Zod.mkAnnouncementInput (Zod.ai_title parsed) (Zod.ai_description parsed)
            (Zod.ai_link parsed) (Zod.ai_datePublished parsed) (Zod.ai_imageUrl parsed))
    by (rewrite <- (supplied_or_omitted (Zod.ai_imageUrl parsed)) at 1;
        destruct (decide _); reflexivity).
  unfold bind, prisma.announcement.findUnique, prisma.announcement.update, gets.
  cbv beta. rewrite Hfind. cbv beta iota. rewrite Hfind.
  cbn [Zod.ai_title Zod.ai_description Zod.ai_link Zod.ai_datePublished Zod.ai_imageUrl].
  match goal with
  | |- context [emit ?e ?w0] =>
      destruct (cleanup_run (Zod.ai_imageUrl parsed) (a_imageUrl old) (emit e w0))
        as (w' & Hrun & Hdb & _)
  end.
  rewrite Hrun. unfold respond, ret. cbn [snd]. rewrite Hdb. reflexivity.
Qed.

Lemma update_consistent (k : Kind) (req : Request) (id : string) (w : World) :
  consistent (db w) -> consistent (db (snd (update k req id w))).
Proof.
  intros Hinv.
  destruct (parsedImage k req) as [sig|] eqn:Hp.
  2:{ destruct (update_rejected k req id w Hp) as (issues & ->). exact Hinv. }
  destruct (imageOf k id (db w)) as [img|] eqn:Hold.
  2:{ rewrite (update_not_found k req id w sig Hp Hold). exact Hinv. }
  destruct Hinv as (Hc & Hp' & Ha & Hn & Hfk).
  destruct k; cbn [parsedImage imageOf update] in *;
    apply fmap_Some in Hold as (old & Hfind & ->);
    pose proof (find_some _ _ Hfind) as [Hin Hid].
  - destruct (Zod.categorySchema (readJson req)) as [parsed|] eqn:Hparse; [|discriminate].
    pose proof (category_PUT_run req id w parsed old Hparse Hfind) as Hrun.
    destruct (prisma.category.nameTaken _ _ _) eqn:Htaken.
    + rewrite Hrun. repeat split; assumption.
    + rewrite (category_PUT_tables req id w parsed old Hparse Hfind Htaken).
      unfold consistent. cbn [categories partners announcements].
      rewrite (map_replaceFirst_key c_id _ _ old) by auto.
      repeat split; auto.
      now apply (NoDup_names_replaceFirst id _ old).
  - destruct (Zod.partnerSchema (readJson req)) as [parsed|] eqn:Hparse; [|discriminate].
    pose proof (partner_PUT_run req id w parsed old Hparse Hfind) as Hrun.
    destruct (prisma.partner.categoryExists _ _) eqn:Hex.
    + rewrite (partner_PUT_tables req id w parsed old Hparse Hfind Hex).
      unfold consistent. cbn [categories partners announcements].
      rewrite (map_replaceFirst_key p_id _ _ old) by auto.
      repeat split; auto.
      apply Forall_replaceFirst; [assumption|].
      cbn. intros c [= <-]. now apply existsb_hasId_In.
    + rewrite Hrun. repeat split; assumption.
  - destruct (Zod.announcementSchema (readJson req)) as [parsed|] eqn:Hparse; [|discriminate].
    rewrite (announcement_PUT_tables req id w parsed old Hparse Hfind).
    unfold consistent. cbn [categories partners announcements].
    rewrite (map_replaceFirst_key a_id _ _ old) by auto.
    repeat split; auto.
Qed.

Lemma remove_consistent (k : Kind) (id : string) (w : World) :
  consistent (db w) -> consistent (db (snd (remove k id w))).
Proof.
  intros Hinv. destruct (imageOf k id (db w)) as [old|] eqn:Hold.
  - destruct (remove_found k id w old Hold) as (w' & -> & Hdb & _).
    cbn [snd]. rewrite Hdb. now apply consistent_withoutRecord.
  - now rewrite (remove_not_found k id w Hold).
Qed.

Lemma call_consistent (c : Call) (w : World) :
  consistent (db w) -> consistent (db (snd (call c w))).
Proof.
  destruct c; cbn [call].
  - now rewrite listing_keeps_world.
  - apply create_consistent.
  - apply update_consistent.
  - apply remove_consistent.
  - now rewrite upload_keeps_db.
Qed.

(** X7. Whatever requests are served, in whatever order and with whatever
    bodies, the tables keep what the migration declares: ids are unique in
    each table, category names are unique, and the category a partner refers
    to exists. *)
Theorem serve_keeps_constraints (cs : list Call) (w : World) :
  consistent (db w) -> consistent (db (serve cs w)).
Proof.
  revert w. induction cs as [|c cs IH]; intros w Hinv; cbn [serve]; [assumption|].
  apply IH. now apply call_consistent.
Qed.

End Constraints.

Lemma serve_keeps_constraints_witness :
  let w := demoWorld None in
  let cs := [CallCreate KCategory
               (mkRequest [] (Some (JObject [("name", JString "Media")])) None);
             CallUpdate KPartner (partnerPut "OKX" None) "p1";
             CallRemove KCategory "c1"] in
  consistent (db w) /\ consistent (db (@serve demoHost cs w)).
Proof.
  cbv zeta.
  assert (Hinv : consistent (db (demoWorld None))).
  { unfold consistent. cbn.
    repeat split; try (apply (bool_decide_unpack _); vm_compute; exact I).
    constructor; [|constructor]. cbn. intros cid [= <-]. now left. }
  split; [exact Hinv|].
  apply (@serve_keeps_constraints demoHost _ _ Hinv).
Defined.

(** ** The upload handler, accepted files *)

Lemma ALLOWED_has_cases (type : string) :
  UploadRoute.ALLOWED_has type = true ->
  type = "image/jpeg" \/ type = "image/png" \/ type = "image/webp" \/ type = "image/gif".
Proof.
  unfold UploadRoute.ALLOWED_has, UploadRoute.ALLOWED. intros Hin.
  apply bool_decide_eq_true in Hin. set_unfold in Hin. tauto.
Qed.

(** For an allowed type the extension comes from the type alone: the
    fallback on the extension of the original name is never reached. *)
Lemma extension_by_type (type origExt : string) :
  UploadRoute.ALLOWED_has type = true ->
  (if String.eqb type "image/jpeg" then ".jpg"
   else if String.eqb type "image/png" then ".png"
   else if String.eqb type "image/webp" then ".webp"
   else if String.eqb type "image/gif" then ".gif"
   else if String.eqb origExt "" then ".bin" else origExt)%string
  = extensionOf type.
Proof.
  intros Hin. destruct (ALLOWED_has_cases type Hin) as [-> | [-> | [-> | ->]]]; reflexivity.
Qed.

(** The upload handler past its two checks. *)
Lemma POST_accepted (req : Request) (form : list (string * FormEntry)) (f : File)
    (w : World) :
  formBody req = Some form ->
  UploadRoute.formGet form "file" = Some (FormFile f) ->
  UploadRoute.ALLOWED_has (declaredType f) = true ->
  (file_size f <= UploadRoute.MAX_BYTES)%Z ->
  UploadRoute.POST req w
  = (let* dir := gets (fun w => (cwd w ++ "/public/uploads")%string) in
     Fs.mkdir dir ;;
     let* stamp := gets now in
     let* rnd := (fun w => let (r, w') := draw w in (Done r, w')) in
     let name := (UploadRoute.decimal stamp ++ "_" ++ rnd
                  ++ extensionOf (declaredType f))%string in
     Fs.writeFile (dir ++ "/" ++ name)%string (file_bytes f) ;;
     respondWith 201 (BUrl ("/uploads/" ++ name)%string))%io w.
Proof.
  intros Hform Hget Htype Hsize. unfold UploadRoute.POST. rewrite Hform, Hget.
  fold (declaredType f). cbv zeta. rewrite Htype. cbn [negb].
  apply Z.ltb_ge in Hsize. rewrite Hsize.
  rewrite extension_by_type by assumption. reflexivity.
Qed.

Lemma POST_stored (req : Request) (form : list (string * FormEntry))
    (f : File) (w : World) :
  formBody req = Some form ->
  UploadRoute.formGet form "file" = Some (FormFile f) ->
  UploadRoute.ALLOWED_has (declaredType f) = true ->
  (file_size f <= 5 * 1024 * 1024)%Z ->
  readonly (fs w) = ∅ ->
  let name := (UploadRoute.decimal (now w) ++ "_" ++ randomSource w (drawn w)
               ++ extensionOf (declaredType f))%string in
  let path := ((cwd w ++ "/public/uploads") ++ "/" ++ name)%string in
  exists w',
    UploadRoute.POST req w = (Done (mkResponse 201 (BUrl ("/uploads/" ++ name)%string)), w')
    /\ files (fs w') = <[path := file_bytes f]> (files (fs w))
    /\ files (fs w') !! path = Some (file_bytes f)
    /\ db w' = db w
    /\ newEvents w w' = [EvWriteFile path]
    /\ cwd w' = cwd w
    /\ readonly (fs w') = readonly (fs w)
    /\ log w' = (log w ++ [EvWriteFile path])%list
    /\ now w' = now w
    /\ randomSource w' = randomSource w
    /\ drawn w' = S (drawn w).
Proof.
  intros Hform Hget Htype Hsize Hro. cbv zeta.
  rewrite (POST_accepted req form f w Hform Hget Htype Hsize).
  unfold bind, gets, Fs.mkdir, Fs.writeFile, draw, respondWith, ret. cbn.
  rewrite Hro.
  match goal with
  | |- context [decide (?p ∈ ∅)] =>
      destruct (decide (p ∈ (∅ : gset string))) as [Hin|_];
        [now apply not_elem_of_empty in Hin|]
  end.
  cbn. rewrite Hro.
  match goal with
  | |- context [decide (?p ∈ ∅)] =>
      destruct (decide (p ∈ (∅ : gset string))) as [Hin|_];
        [now apply not_elem_of_empty in Hin|]
  end.
  eexists. split; [reflexivity|]. cbn.
  split; [reflexivity|]. split; [apply lookup_insert_eq|]. split; [reflexivity|].
  split; [unfold newEvents; cbn; apply drop_app_length|].
  repeat split.
Qed.

(** X8. A file of an allowed type with at most 5 MiB, the bound included, is
    stored when nothing is write-protected: the answer is 201 with the
    address [/uploads/<time>_<random><extension>], the extension being the
    one of the declared type, and the file of that name below
    [public/uploads] holds exactly the bytes sent.  No table changes. *)
Theorem upload_stores_file (req : Request) (form : list (string * FormEntry))
    (f : File) (w : World) :
  formBody req = Some form ->
  UploadRoute.formGet form "file" = Some (FormFile f) ->
  UploadRoute.ALLOWED_has (declaredType f) = true ->
  (file_size f <= 5 * 1024 * 1024)%Z ->
  readonly (fs w) = ∅ ->
  let name := (UploadRoute.decimal (now w) ++ "_" ++ randomSource w (drawn w)
               ++ extensionOf (declaredType f))%string in
  let path := ((cwd w ++ "/public/uploads") ++ "/" ++ name)%string in
  exists w',
    UploadRoute.POST req w = (Done (mkResponse 201 (BUrl ("/uploads/" ++ name)%string)), w')
    /\ files (fs w') = <[path := file_bytes f]> (files (fs w))
    /\ files (fs w') !! path = Some (file_bytes f)
    /\ db w' = db w
    /\ newEvents w w' = [EvWriteFile path].
Proof.
  intros Hform Hget Htype Hsize Hro. cbv zeta.
  destruct (POST_stored req form f w Hform Hget Htype Hsize Hro)
    as (w' & Hrun & Hfiles & Hfile & Hdb & Hlog & _).
  exists w'. repeat split; assumption.
Qed.

Lemma upload_stores_file_witness :
  let f := mkFile (Some "logo.PNG") "image/png" [Byte.x89; Byte.x50] in
  let w := demoWorld None in
  let name := (UploadRoute.decimal (now w) ++ "_" ++ randomSource w (drawn w)
               ++ extensionOf (declaredType f))%string in
  let path := ((cwd w ++ "/public/uploads") ++ "/" ++ name)%string in
  exists w',
    UploadRoute.POST (uploadRequest f) w
    = (Done (mkResponse 201 (BUrl ("/uploads/" ++ name)%string)), w')
    /\ files (fs w') = <[path := file_bytes f]> (files (fs w))
    /\ files (fs w') !! path = Some (file_bytes f)
    /\ db w' = db w
    /\ newEvents w w' = [EvWriteFile path].
Proof.
  intros f w.
  apply (upload_stores_file (uploadRequest f) [("file", FormFile f)] f w);
    [reflexivity | reflexivity | reflexivity | vm_compute; discriminate | reflexivity].
Defined.

(** A file of exactly 5 MiB is within the bound. *)
Example upload_accepts_the_bound :
  exists url w',
    UploadRoute.POST (uploadRequest (zeroFile "image/gif" 5242880)) (demoWorld None)
    = (Done (mkResponse 201 (BUrl url)), w').
Proof.
  assert (Hsize : (file_size (zeroFile "image/gif" 5242880) <= 5 * 1024 * 1024)%Z)
    by (rewrite file_size_zeroFile by lia; discriminate).
  destruct (POST_stored (uploadRequest (zeroFile "image/gif" 5242880))
              [("file", FormFile (zeroFile "image/gif" 5242880))]
              (zeroFile "image/gif" 5242880) (demoWorld None)
              eq_refl eq_refl eq_refl Hsize eq_refl)
    as (w' & Hrun & _).
  eauto.
Qed.

(** X9. The name the client gave the file plays no part: two uploads that
    differ only in the file's name are answered alike and leave the same
    world.  A file name can therefore not steer where the file is stored. *)
Theorem upload_ignores_file_name (name1 name2 : option string) (type : string)
    (bytes : list Byte.byte) (w : World) :
  UploadRoute.POST (uploadRequest (mkFile name1 type bytes)) w
  = UploadRoute.POST (uploadRequest (mkFile name2 type bytes)) w.
Proof.
  set (f1 := mkFile name1 type bytes). set (f2 := mkFile name2 type bytes).
  assert (Hrun : forall f, UploadRoute.formGet [("file", FormFile f)] "file"
                           = Some (FormFile f)) by reflexivity.
  destruct (UploadRoute.ALLOWED_has (declaredType f1)) eqn:Htype.
  - destruct (Z.le_gt_cases (file_size f1) UploadRoute.MAX_BYTES) as [Hsize|Hsize].
    + rewrite (POST_accepted (uploadRequest f1) _ f1 w eq_refl (Hrun f1) Htype Hsize).
      rewrite (POST_accepted (uploadRequest f2) _ f2 w eq_refl (Hrun f2) Htype Hsize).
      reflexivity.
    + rewrite (POST_too_large (uploadRequest f1) _ f1 w eq_refl (Hrun f1) Htype Hsize).
      rewrite (POST_too_large (uploadRequest f2) _ f2 w eq_refl (Hrun f2) Htype Hsize).
      reflexivity.
  - rewrite (POST_unsupported (uploadRequest f1) _ f1 w eq_refl (Hrun f1) Htype).
    rewrite (POST_unsupported (uploadRequest f2) _ f2 w eq_refl (Hrun f2) Htype).
    reflexivity.
Qed.

(** X10. A form without a field [file], or whose field [file] is text, is
    answered 400 "No file provided"; nothing is written. *)
Theorem upload_without_file_is_refused (req : Request)
    (form : list (string * FormEntry)) (w : World) :
  formBody req = Some form ->
  (forall f, UploadRoute.formGet form "file" <> Some (FormFile f)) ->
  UploadRoute.POST req w = (Done (mkResponse 400 (BError "No file provided")), w).
Proof.
  intros Hform Hno. unfold UploadRoute.POST. rewrite Hform.
  destruct (UploadRoute.formGet form "file") as [[f|t]|]; try reflexivity.
  now destruct (Hno f).
Qed.

Lemma upload_without_file_is_refused_witness :
  let req := mkRequest [] None (Some [("file", FormText "logo.png"); ("note", FormText "x")]) in
  UploadRoute.POST req (demoWorld None)
  = (Done (mkResponse 400 (BError "No file provided")), demoWorld None).
Proof.
  cbv zeta.
  apply (upload_without_file_is_refused _ [("file", FormText "logo.png"); ("note", FormText "x")]);
    [reflexivity|]. intros f Heq. discriminate Heq.
Defined.

(* ================================================================== *)
(** * Paths *)

Local Open Scope string_scope.

Lemma append_cons (c : ascii) (a b : string) : String c a ++ b = String c (a ++ b).
Proof. reflexivity. Qed.

Lemma append_empty_r (s : string) : s ++ "" = s.
Proof. induction s as [|c s IH]; [reflexivity|]. now rewrite append_cons, IH. Qed.

Lemma append_assoc (a b c : string) : (a ++ b) ++ c = a ++ (b ++ c).
Proof. induction a as [|x a IH]; [reflexivity|]. now rewrite !append_cons, IH. Qed.

Lemma append_is_empty (a b : string) : a ++ b = "" -> a = "" /\ b = "".
Proof. destruct a; [auto|]. rewrite append_cons. discriminate. Qed.

Lemma prefix_append (p t : string) : String.prefix p (p ++ t) = true.
Proof.
  induction p as [|c p IH]; [apply prefix_empty|]. now rewrite append_cons, prefix_cons.
Qed.

Lemma prefix_append_same (a b c : string) :
  String.prefix (a ++ b) (a ++ c) = String.prefix b c.
Proof.
  induction a as [|x a IH]; [reflexivity|]. now rewrite !append_cons, prefix_cons.
Qed.

Lemma prefix_split (p s : string) :
  String.prefix p s = true -> exists t, s = p ++ t.
Proof.
  revert s. induction p as [|c p IH]; intros s; [exists s; reflexivity|].
  destruct s as [|d s]; cbn [String.prefix]; [discriminate|].
  destruct (ascii_dec c d) as [<-|]; [|discriminate].
  intros Hp. destruct (IH s Hp) as (t & ->). now exists t.
Qed.

Lemma list_ascii_of_append (a b : string) :
  list_ascii_of_string (a ++ b) = (list_ascii_of_string a ++ list_ascii_of_string b)%list.
Proof.
  induction a as [|x a IH]; [reflexivity|].
  rewrite append_cons. cbn [list_ascii_of_string app]. now rewrite IH.
Qed.

Lemma endsWithSlash_append (a b : string) :
  b <> "" -> Path.endsWithSlash (a ++ b) = Path.endsWithSlash b.
Proof.
  intros Hb. unfold Path.endsWithSlash. rewrite list_ascii_of_append, rev_app_distr.
  destruct b as [|c b]; [congruence|]. cbn [list_ascii_of_string rev].
  destruct (rev (list_ascii_of_string b)); reflexivity.
Qed.

(** ** Splitting and joining *)

Lemma split_not_nil (sep : ascii) (s : string) : JsString.split sep s <> [].
Proof.
  pose proof (split_head_prefix sep s). destruct (JsString.split sep s); [contradiction|].
  discriminate.
Qed.

Lemma split_append_sep (sep : ascii) (a b : string) :
  JsString.split sep (a ++ String sep b)
  = (JsString.split sep a ++ JsString.split sep b)%list.
Proof.
  induction a as [|c a IH].
  - change ("" ++ String sep b) with (String sep b). cbn [JsString.split app].
    now rewrite Ascii.eqb_refl.
  - rewrite append_cons. cbn [JsString.split].
    destruct (Ascii.eqb c sep); rewrite IH; [reflexivity|].
    pose proof (split_not_nil sep a).
    destruct (JsString.split sep a); [contradiction|reflexivity].
Qed.

Lemma split_without_sep (sep : ascii) (s : string) :
  hasChar sep s = false -> JsString.split sep s = [s].
Proof.
  unfold hasChar. induction s as [|c s IH]; cbn; [reflexivity|].
  intros Hno. apply orb_false_iff in Hno as [Hc Hs].
  rewrite Ascii.eqb_sym, Hc, (IH Hs). reflexivity.
Qed.

Lemma join_cons (sep p : string) (rest : list string) :
  rest <> [] -> JsString.join sep (p :: rest) = p ++ sep ++ JsString.join sep rest.
Proof. destruct rest; [congruence|reflexivity]. Qed.

Lemma join_app (sep : string) (A K : list string) :
  A <> [] -> K <> [] ->
  JsString.join sep (A ++ K) = JsString.join sep A ++ sep ++ JsString.join sep K.
Proof.
  intros HA HK. induction A as [|a A IH]; [congruence|].
  destruct A as [|a' A].
  - cbn [app]. now rewrite join_cons.
  - change ((a :: a' :: A) ++ K)%list with (a :: ((a' :: A) ++ K))%list.
    rewrite join_cons by discriminate. rewrite IH by discriminate.
    rewrite (join_cons sep a (a' :: A)) by discriminate.
    now rewrite !append_assoc.
Qed.

Lemma join_snoc_not_empty (A : list string) (x : string) :
  x <> "" -> JsString.join "/" (A ++ [x]) <> "".
Proof.
  intros Hx. destruct A as [|a A]; [exact Hx|].
  rewrite join_app by discriminate. intros Heq.
  apply append_is_empty in Heq as [_ Heq]. discriminate Heq.
Qed.

(** Segments without [..] only ever push: nothing already on the stack is
    taken off. *)
Lemma normalize_without_dotdot (above : bool) (segs st : list string) :
  ~ In ".." segs ->
  fold_left (Path.normalizeStep above) segs st
  = (rev (List.filter keptSegment segs) ++ st)%list.
Proof.
  revert st. induction segs as [|x segs IH]; intros st Hno; [reflexivity|].
  cbn [fold_left List.filter]. rewrite IH by (intros Hin; apply Hno; now right).
  unfold Path.normalizeStep, keptSegment.
  destruct (String.eqb x "" || String.eqb x "."); cbn [negb]; [reflexivity|].
  destruct (String.eqb_spec x ".."); [exfalso; apply Hno; now left|].
  cbn [rev]. now rewrite <- app_assoc.
Qed.

Lemma join_empty_inv (L : list string) :
  JsString.join "/" L = "" -> L = [] \/ L = [""].
Proof.
  destruct L as [|p [|q L]]; [now left| |].
  - cbn. intros ->. now right.
  - rewrite join_cons by discriminate. intros Heq.
    apply append_is_empty in Heq as [_ Heq]. discriminate Heq.
Qed.

(** ** [path.join] below an absolute directory *)

Lemma absolute_inv (c : string) :
  JsString.startsWith c "/" = true -> exists c', c = String "/" c'.
Proof.
  intros Hc. apply prefix_split in Hc as (t & ->). now exists t.
Qed.

Lemma absolute_append (c t : string) :
  JsString.startsWith c "/" = true -> JsString.startsWith (c ++ t) "/" = true.
Proof.
  intros Hc. destruct (absolute_inv c Hc) as (c' & ->).
  rewrite append_cons. unfold JsString.startsWith.
  rewrite (prefix_cons "/" "" (c' ++ t)). apply prefix_empty.
Qed.

Lemma normalize_absolute (s : string) :
  JsString.startsWith s "/" = true ->
  Path.normalize s
  = let path := Path.normalizeString false s in
    if String.eqb path "" then "/"
    else "/" ++ (if Path.endsWithSlash s then path ++ "/" else path).
Proof.
  intros Habs. destruct (absolute_inv s Habs) as (s' & ->).
  unfold Path.normalize. rewrite Habs. reflexivity.
Qed.

(** The segments of the working directory that [normalize] keeps. *)
Lemma join_public (c x : string) :
  JsString.startsWith c "/" = true ->
  x <> "" ->
  ~ In ".." (JsString.split "/" x) ->
  Path.join [c; "public"; x]
  = "/" ++ JsString.join "/"
             (rev (fold_left (Path.normalizeStep false) (JsString.split "/" c) [])
              ++ "public" :: List.filter keptSegment (JsString.split "/" x))%list
        ++ (if Path.endsWithSlash x then "/" else "").
Proof.
  intros Habs Hx Hno.
  destruct (absolute_inv c Habs) as (c' & ->).
  set (c := String "/" c') in *.
  assert (Hjoin : Path.join [c; "public"; x]
                  = Path.normalize (c ++ String "/" ("public" ++ String "/" x))).
  { unfold Path.join. cbn [filter list_filter].
    rewrite decide_True by discriminate. rewrite decide_True by discriminate.
    rewrite decide_True by exact Hx. reflexivity. }
  rewrite Hjoin. clear Hjoin.
  rewrite normalize_absolute by (apply absolute_append, Habs). cbv zeta.
  unfold Path.normalizeString.
  rewrite !split_append_sep, !fold_left_app.
  change (JsString.split "/" "public") with ["public"].
  set (st0 := fold_left (Path.normalizeStep false) (JsString.split "/" c) []).
  change (fold_left (Path.normalizeStep false) ["public"] st0) with ("public" :: st0).
  rewrite normalize_without_dotdot by exact Hno.
  rewrite rev_app_distr, rev_involutive. cbn [rev]. rewrite <- app_assoc. cbn [app].
  set (L := (rev st0 ++ "public" :: List.filter keptSegment (JsString.split "/" x))%list).
  destruct (String.eqb_spec (JsString.join "/" L) "") as [Hempty|_].
  { exfalso. apply join_empty_inv in Hempty as [Hempty|Hempty]; subst L.
    - now apply app_eq_nil in Hempty as [_ Hempty].
    - destruct (rev st0) as [|a [|b r]]; discriminate Hempty. }
  replace (c ++ String "/" ("public" ++ String "/" x))
    with ((c ++ "/public/") ++ x) by (now rewrite append_assoc).
  rewrite endsWithSlash_append by exact Hx.
  destruct (Path.endsWithSlash x); [reflexivity|]. now rewrite append_empty_r.
Qed.

Lemma prefix_refl (s : string) : String.prefix s s = true.
Proof. rewrite <- (append_empty_r s) at 2. apply prefix_append. Qed.

Lemma uploads_directory (c : string) :
  JsString.startsWith c "/" = true ->
  Path.join [c; "public"; "uploads"]
  = "/" ++ JsString.join "/"
             (rev (fold_left (Path.normalizeStep false) (JsString.split "/" c) [])
              ++ ["public"; "uploads"])%list.
Proof.
  intros Habs. rewrite join_public; [|exact Habs|discriminate|].
  - change (JsString.split "/" "uploads") with ["uploads"].
    change (List.filter keptSegment ["uploads"]) with ["uploads"].
    change (Path.endsWithSlash "uploads") with false. cbv iota.
    now rewrite append_empty_r.
  - intros [Heq|[]]. discriminate Heq.
Qed.

(** Where [toFsPath] sends a local upload: to the uploads directory or
    below it. *)
Lemma local_upload_path (c u : string) :
  JsString.startsWith c "/" = true ->
  Uploads.isLocalUpload (Str u) = true ->
  let d := Path.join [c; "public"; "uploads"] in
  let p := Path.join [c; "public"; u] in
  p = d \/ JsString.startsWith p (d ++ "/") = true.
Proof.
  intros Habs Hlocal. cbv zeta.
  destruct (isLocalUpload_inv _ Hlocal) as (u' & [= <-] & Hpre & Hdots).
  apply no_dotdot_segment in Hdots.
  apply prefix_split in Hpre as (t & ->).
  rewrite uploads_directory by exact Habs.
  rewrite join_public; [|exact Habs|discriminate|exact Hdots].
  set (A := rev (fold_left (Path.normalizeStep false) (JsString.split "/" c) [])).
  set (sfx := if Path.endsWithSlash ("/uploads/" ++ t) then "/" else "").
  change (JsString.split "/" ("/uploads/" ++ t))
    with (JsString.split "/" ("" ++ String "/" ("uploads" ++ String "/" t))).
  rewrite !split_append_sep.
  change (JsString.split "/" "") with [""].
  change (JsString.split "/" "uploads") with ["uploads"].
  change (List.filter keptSegment ([""] ++ ["uploads"] ++ JsString.split "/" t))
    with ("uploads" :: List.filter keptSegment (JsString.split "/" t)).
  set (K := List.filter keptSegment (JsString.split "/" t)).
  replace (A ++ "public" :: "uploads" :: K)%list
    with ((A ++ ["public"; "uploads"]) ++ K)%list by (now rewrite <- app_assoc).
  set (B := (A ++ ["public"; "uploads"])%list).
  destruct K as [|k K].
  - rewrite app_nil_r. subst sfx.
    destruct (Path.endsWithSlash _).
    + right. unfold JsString.startsWith.
      replace ("/" ++ JsString.join "/" B ++ "/")
        with (("/" ++ JsString.join "/" B) ++ "/") by (now rewrite !append_assoc).
      apply prefix_refl.
    + left. now rewrite append_empty_r.
  - right. rewrite join_app; [|subst B; now destruct A|discriminate].
    unfold JsString.startsWith.
    replace ("/" ++ (JsString.join "/" B ++ "/" ++ JsString.join "/" (k :: K)) ++ sfx)
      with ((("/" ++ JsString.join "/" B) ++ "/") ++ JsString.join "/" (k :: K) ++ sfx)
      by (now rewrite !append_assoc).
    apply prefix_append.
Qed.

(** ** What the handlers do to the files *)

Lemma withinUploads_cwd (w w' : World) (p : string) :
  cwd w' = cwd w -> withinUploads w' p <-> withinUploads w p.
Proof. unfold withinUploads, uploadsDir. now intros ->. Qed.

Lemma unlinkedPaths_app (a b : list Event) :
  unlinkedPaths (a ++ b)%list = (unlinkedPaths a ++ unlinkedPaths b)%list.
Proof. apply flat_map_app. Qed.

Lemma spares_refl (w : World) : sparesOutside w w.
Proof.
  split; [reflexivity|]. split; [|auto].
  exists []. split; [now rewrite app_nil_r|constructor].
Qed.

Lemma spares_trans (w1 w2 w3 : World) :
  sparesOutside w1 w2 -> sparesOutside w2 w3 -> sparesOutside w1 w3.
Proof.
  intros (Hc1 & (e1 & Hl1 & Hu1) & Hf1) (Hc2 & (e2 & Hl2 & Hu2) & Hf2).
  split; [congruence|]. split.
  - exists (e1 ++ e2)%list. split; [now rewrite Hl2, Hl1, <- app_assoc|].
    rewrite unlinkedPaths_app. apply Forall_app. split; [exact Hu1|].
    eapply Forall_impl; [exact Hu2|]. intros p. now apply withinUploads_cwd.
  - intros p Hout Hsome. apply Hf2.
    + intros Hin. apply Hout. now apply (withinUploads_cwd w1 w2).
    + now apply Hf1.
Qed.

Lemma spares_silent (w w' : World) :
  cwd w' = cwd w -> fs w' = fs w -> log w' = log w -> sparesOutside w w'.
Proof.
  intros Hc Hf Hl. split; [exact Hc|]. split.
  - exists []. split; [now rewrite app_nil_r|constructor].
  - intros p _. now rewrite Hf.
Qed.

Lemma spares_emit (w w' : World) (e : Event) :
  cwd w' = cwd w -> fs w' = fs w -> log w' = (log w ++ [e])%list ->
  isUnlink e = false -> sparesOutside w w'.
Proof.
  intros Hc Hf Hl He. split; [exact Hc|]. split.
  - exists [e]. split; [exact Hl|]. destruct e; try discriminate; constructor.
  - intros p _. now rewrite Hf.
Qed.

Lemma tame_ret {A} (a : A) : tame (ret a).
Proof. intros w _. apply spares_refl. Qed.

Lemma tame_throw {A} (e : Exn) : tame (@throw A e).
Proof. intros w _. apply spares_refl. Qed.

Lemma tame_gets {A} (f : World -> A) : tame (gets f).
Proof. intros w _. apply spares_refl. Qed.

Lemma tame_bind {A B} (m : Io A) (k : A -> Io B) :
  tame m -> (forall a, tame (k a)) -> tame (bind m k).
Proof.
  intros Hm Hk w Habs. unfold bind. specialize (Hm w Habs).
  destruct (m w) as [[a|e] w1]; cbn [snd] in *; [|exact Hm].
  eapply spares_trans; [exact Hm|]. apply Hk.
  destruct Hm as (-> & _). exact Habs.
Qed.

Lemma tame_tryCatch {A} (m : Io A) (h : Exn -> Io A) :
  tame m -> (forall e, tame (h e)) -> tame (tryCatch m h).
Proof.
  intros Hm Hh w Habs. unfold tryCatch. specialize (Hm w Habs).
  destruct (m w) as [[a|e] w1]; cbn [snd] in *; [exact Hm|].
  eapply spares_trans; [exact Hm|]. apply Hh.
  destruct Hm as (-> & _). exact Habs.
Qed.

Lemma tame_draw : tame (fun w => let (r, w') := draw w in (Done r, w')).
Proof. intros w _. now apply spares_silent. Qed.

Lemma tame_mkdir (dir : string) : tame (Fs.mkdir dir).
Proof.
  intros w _. unfold Fs.mkdir. destruct (decide _); apply spares_refl.
Qed.

(** A write may replace a file; it removes none. *)
Lemma tame_writeFile (path : string) (data : list Byte.byte) :
  tame (Fs.writeFile path data).
Proof.
  intros w _. unfold Fs.writeFile. cbv zeta.
  destruct (decide _); [now eapply spares_emit|].
  split; [reflexivity|]. split.
  - exists [EvWriteFile path]. split; [reflexivity|constructor].
  - intros p _ Hsome. cbn.
    destruct (decide (p = path)) as [->|Hne].
    + rewrite lookup_insert_eq. eauto.
    + now rewrite lookup_insert_ne by congruence.
Qed.

Lemma deleteUploadIfLocal_files (url : nullish) (w : World) :
  JsString.startsWith (cwd w) "/" = true ->
  let w' := snd (Uploads.deleteUploadIfLocal url w) in
  cwd w' = cwd w
  /\ readonly (fs w') = readonly (fs w)
  /\ Forall (withinUploads w) (unlinkedPaths (unlinkOf url w))
  /\ (forall p, ~ withinUploads w p -> files (fs w') !! p = files (fs w) !! p).
Proof.
  intros Habs. cbv zeta. unfold Uploads.deleteUploadIfLocal, unlinkOf.
  destruct url as [| |u]; try (cbn; repeat split; constructor).
  destruct (Uploads.isLocalUpload (Str u)) eqn:Hlocal;
    [|cbn; repeat split; constructor].
  pose proof (local_upload_path (cwd w) u Habs Hlocal) as Hin.
  unfold tryCatch, bind, Uploads.toFsPath, gets, Fs.unlink, ret. cbn.
  set (path := Path.join [cwd w; "public"; u]) in *.
  assert (Hout : forall p, ~ withinUploads w p -> p <> path).
  { intros p Hp ->. apply Hp. exact Hin. }
  destruct (decide _); [|destruct (files (fs w) !! path)]; cbn;
    (split; [reflexivity|]); (split; [reflexivity|]);
    (split; [constructor; [exact Hin|constructor]|]); try reflexivity.
  intros p Hp. apply lookup_delete_ne. intros Heq. now apply (Hout p Hp).
Qed.

Lemma tame_deleteUploadIfLocal (url : nullish) : tame (Uploads.deleteUploadIfLocal url).
Proof.
  intros w Habs.
  destruct (deleteUploadIfLocal_files url w Habs) as (Hc & _ & Hu & Hf).
  destruct (deleteUploadIfLocal_run url w) as (w' & Hrun & _ & Hlog & _).
  rewrite Hrun in *. cbn [snd] in *.
  split; [exact Hc|]. split; [now exists (unlinkOf url w)|].
  intros p Hp. now rewrite (Hf p Hp).
Qed.

(** The store only writes its tables and logs what it wrote. *)
Ltac tame_store :=
  intros w _; cbv beta delta [prisma.category.create prisma.category.update
    prisma.category.delete prisma.partner.create prisma.partner.update
    prisma.partner.delete prisma.announcement.create prisma.announcement.update
    prisma.announcement.delete draw] iota zeta;
  repeat match goal with
         | |- context [match ?x with _ => _ end] => destruct x
         end;
  first [ now apply spares_silent | now eapply spares_emit ].

Lemma tame_category_create (data : Zod.CategoryInput) : tame (prisma.category.create data).
Proof. tame_store. Qed.

Lemma tame_category_update (id : string) (data : Zod.CategoryInput) :
  tame (prisma.category.update id data).
Proof. tame_store. Qed.

Lemma tame_category_delete (id : string) : tame (prisma.category.delete id).
Proof. tame_store. Qed.

Lemma tame_partner_create (data : Zod.PartnerInput) : tame (prisma.partner.create data).
Proof. tame_store. Qed.

Lemma tame_partner_update (id : string) (data : Zod.PartnerInput) :
  tame (prisma.partner.update id data).
Proof. tame_store. Qed.

Lemma tame_partner_delete (id : string) : tame (prisma.partner.delete id).
Proof. tame_store. Qed.

Lemma tame_announcement_create (data : Zod.AnnouncementInput) :
  tame (prisma.announcement.create data).
Proof. tame_store. Qed.

Lemma tame_announcement_update (id : string) (data : Zod.AnnouncementInput) :
  tame (prisma.announcement.update id data).
Proof. tame_store. Qed.

Lemma tame_announcement_delete (id : string) : tame (prisma.announcement.delete id).
Proof. tame_store. Qed.

Ltac tame_handler :=
  repeat first
    [ apply tame_ret | apply tame_throw | apply tame_gets
    | apply tame_deleteUploadIfLocal | apply tame_writeFile | apply tame_mkdir
    | apply tame_draw
    | apply tame_category_create | apply tame_category_update
    | apply tame_category_delete | apply tame_partner_create
    | apply tame_partner_update | apply tame_partner_delete
    | apply tame_announcement_create | apply tame_announcement_update
    | apply tame_announcement_delete
    | apply tame_bind; [|intros ?]
    | apply tame_tryCatch; [|intros ?]
    | progress cbv zeta
    | match goal with
      | |- tame (match ?x with _ => _ end) => destruct x
      end ].

Lemma tame_call `{Host} (c : Call) : tame (call c).
Proof.
  destruct c as [k|k req|k req id|k id|req]; try destruct k;
    cbv beta delta [call listing create update remove
      CategoriesRoute.GET CategoriesRoute.POST CategoriesIdRoute.PUT
      CategoriesIdRoute.DELETE PartnersRoute.GET PartnersRoute.POST
      PartnersIdRoute.PUT PartnersIdRoute.DELETE AnnouncementsRoute.GET
      AnnouncementsRoute.POST AnnouncementsIdRoute.PUT AnnouncementsIdRoute.DELETE
      UploadRoute.POST prisma.category.findMany prisma.category.findUnique
      prisma.partner.findMany prisma.partner.findUnique
      prisma.announcement.findMany prisma.announcement.findUnique] iota;
    tame_handler.
Qed.

Lemma spares_serve `{Host} (cs : list Call) (w : World) :
  JsString.startsWith (cwd w) "/" = true -> sparesOutside w (serve cs w).
Proof.
  revert w. induction cs as [|c cs IH]; intros w Habs; [apply spares_refl|].
  cbn [serve]. pose proof (tame_call c w Habs) as Hc.
  eapply spares_trans; [exact Hc|]. apply IH.
  destruct Hc as (-> & _). exact Habs.
Qed.

(** ** The name the upload handler gives, and the way back from it *)

Lemma hasChar_cons (c x : ascii) (s : string) :
  hasChar c (String x s) = Ascii.eqb c x || hasChar c s.
Proof. reflexivity. Qed.

Lemma hasChar_append (c : ascii) (a b : string) :
  hasChar c (a ++ b) = hasChar c a || hasChar c b.
Proof. unfold hasChar. rewrite list_ascii_of_append. apply existsb_app. Qed.

(** [`${n}`] of an integer is a sign and digits. *)
Lemma hasChar_decimal (c : ascii) (n : Z) :
  hasChar c "-0123456789" = false -> hasChar c (UploadRoute.decimal n) = false.
Proof.
  intros Hc. rewrite !hasChar_cons in Hc.
  repeat (apply orb_false_iff in Hc as [? Hc]).
  assert (Hu : forall d, hasChar c (NilEmpty.string_of_uint d) = false).
  { induction d; cbn [NilEmpty.string_of_uint]; [reflexivity|..];
      rewrite hasChar_cons, IHd, orb_false_r; assumption. }
  assert (Hz : forall d, hasChar c (NilZero.string_of_uint d) = false).
  { intros d. destruct d; try apply Hu.
    unfold NilZero.string_of_uint. rewrite hasChar_cons, orb_false_r. assumption. }
  unfold UploadRoute.decimal, NilZero.string_of_int.
  destruct (Z.to_int n) as [d|d]; [apply Hz|].
  rewrite hasChar_cons, Hz, orb_false_r. assumption.
Qed.

Lemma hasChar_hex (c : ascii) (s : string) :
  isHexDigit c = false -> isHex s = true -> hasChar c s = false.
Proof.
  intros Hc. induction s as [|x s IH]; [reflexivity|].
  unfold isHex. cbn [list_ascii_of_string forallb].
  intros Hx. apply andb_true_iff in Hx as [Hx Hs].
  rewrite hasChar_cons, (IH Hs), orb_false_r.
  destruct (Ascii.eqb_spec c x) as [->|]; [congruence|reflexivity].
Qed.

Lemma includes_dotdot_append (a b : string) :
  hasChar "." a = false ->
  JsString.includes (a ++ b) ".." = JsString.includes b "..".
Proof.
  induction a as [|x a IH]; [reflexivity|].
  rewrite hasChar_cons. intros Hx. apply orb_false_iff in Hx as [Hx Ha].
  rewrite append_cons, includes_cons, (IH Ha). cbn [String.prefix].
  destruct (ascii_dec "." x) as [<-|]; [|reflexivity].
  rewrite Ascii.eqb_refl in Hx. discriminate Hx.
Qed.

Lemma endsWithSlash_without_slash (s : string) :
  hasChar "/" s = false -> Path.endsWithSlash s = false.
Proof.
  unfold hasChar, Path.endsWithSlash. intros Hno.
  destruct (rev (list_ascii_of_string s)) as [|c l] eqn:Hrev; [reflexivity|].
  destruct (Ascii.eqb_spec c "/") as [->|]; [|reflexivity].
  exfalso. apply not_true_iff_false in Hno. apply Hno.
  apply existsb_exists. exists "/"%char. split; [|apply Ascii.eqb_refl].
  apply in_rev. rewrite Hrev. now left.
Qed.

Lemma upload_name (stamp : Z) (rnd type : string) :
  isHex rnd = true ->
  let name := UploadRoute.decimal stamp ++ "_" ++ rnd ++ extensionOf type in
  hasChar "/" name = false
  /\ JsString.includes name ".." = false
  /\ keptSegment name = true.
Proof.
  intros Hhex. cbv zeta. split; [|split].
  - rewrite !hasChar_append, hasChar_decimal by reflexivity.
    rewrite (hasChar_hex "/" rnd) by (reflexivity || exact Hhex).
    unfold extensionOf. repeat destruct (String.eqb _ _); reflexivity.
  - rewrite includes_dotdot_append by (now apply hasChar_decimal).
    rewrite includes_dotdot_append by reflexivity.
    rewrite includes_dotdot_append by (now apply hasChar_hex).
    unfold extensionOf. repeat destruct (String.eqb _ _); reflexivity.
  - set (name := UploadRoute.decimal stamp ++ "_" ++ rnd ++ extensionOf type).
    assert (Hus : hasChar "_" name = true).
    { subst name. rewrite !hasChar_append.
      change (hasChar "_" "_") with true. now rewrite orb_true_r. }
    unfold keptSegment.
    destruct (String.eqb_spec name "") as [Heq|_]; [rewrite Heq in Hus; discriminate|].
    destruct (String.eqb_spec name ".") as [Heq|_]; [rewrite Heq in Hus; discriminate|].
    reflexivity.
Qed.

Lemma normalDirectory_inv (c : string) :
  normalDirectory c ->
  let A := rev (fold_left (Path.normalizeStep false) (JsString.split "/" c) []) in
  c = "/" ++ JsString.join "/" A /\ A <> [].
Proof.
  intros (Habs & Hend & Hnorm). cbv zeta.
  rewrite normalize_absolute in Hnorm by exact Habs. cbv zeta in Hnorm.
  unfold Path.normalizeString in Hnorm. rewrite Hend in Hnorm.
  set (A := rev (fold_left (Path.normalizeStep false) (JsString.split "/" c) [])) in *.
  destruct (String.eqb_spec (JsString.join "/" A) "") as [Hempty|Hfull].
  - rewrite <- Hnorm in Hend. discriminate Hend.
  - split; [now symmetry|]. intros HA. apply Hfull. now rewrite HA.
Qed.

(** For a name as the upload handler makes it, [toFsPath] of the address
    handed out is the path the file was written to. *)
Lemma uploaded_path (c name : string) :
  normalDirectory c ->
  hasChar "/" name = false ->
  JsString.includes name ".." = false ->
  keptSegment name = true ->
  Path.join [c; "public"; "/uploads/" ++ name] = (c ++ "/public/uploads") ++ "/" ++ name.
Proof.
  intros Hdir Hslash Hdots Hkept.
  destruct (normalDirectory_inv c Hdir) as (Hc & HA). cbv zeta in Hc, HA.
  destruct Hdir as (Habs & _ & _).
  assert (Hname : name <> "") by (intros ->; discriminate Hkept).
  rewrite join_public; [|exact Habs|discriminate|].
  - change (JsString.split "/" ("/uploads/" ++ name))
      with (JsString.split "/" ("" ++ String "/" ("uploads" ++ String "/" name))).
    rewrite !split_append_sep, (split_without_sep "/" name) by exact Hslash.
    change (JsString.split "/" "") with [""].
    change (JsString.split "/" "uploads") with ["uploads"].
    change (List.filter keptSegment ([""] ++ ["uploads"] ++ [name]))
      with ("uploads" :: (if keptSegment name then [name] else [])).
    rewrite Hkept.
    rewrite (endsWithSlash_append "/uploads/" name) by exact Hname.
    rewrite endsWithSlash_without_slash by exact Hslash.
    set (A := rev (fold_left (Path.normalizeStep false) (JsString.split "/" c) [])) in *.
    rewrite (join_app "/" A ["public"; "uploads"; name]) by (assumption || discriminate).
    cbn [JsString.join].
    transitivity ((("/" ++ JsString.join "/" A) ++ "/public/uploads") ++ "/" ++ name);
      [|now rewrite <- Hc].
    rewrite !append_assoc, append_empty_r. reflexivity.
  - apply no_dotdot_segment.
    rewrite (includes_dotdot_append "/uploads/" name) by reflexivity. exact Hdots.
Qed.

Lemma uploaded_address_is_local (name : string) :
  JsString.includes name ".." = false ->
  Uploads.isLocalUpload (Str ("/uploads/" ++ name)) = true.
Proof.
  intros Hdots. unfold Uploads.isLocalUpload.
  rewrite (includes_dotdot_append "/uploads/" name) by reflexivity. rewrite Hdots.
  unfold JsString.startsWith. rewrite prefix_append. reflexivity.
Qed.

(** ** Deletions stay within the uploads directory *)

(** X11. With an absolute working directory, whatever address
    [deleteUploadIfLocal] is given, the only path it can unlink is the
    uploads directory [<cwd>/public/uploads] or a path below it: [.] and
    empty segments of the address are normalized away and [..] is refused
    beforehand.  Every file elsewhere keeps its contents, and no write
    protection changes. *)
Theorem deleteUploadIfLocal_stays_within_uploads (url : nullish) (w : World) :
  JsString.startsWith (cwd w) "/" = true ->
  let w' := snd (Uploads.deleteUploadIfLocal url w) in
  Forall (withinUploads w) (unlinkedPaths (newEvents w w'))
  /\ readonly (fs w') = readonly (fs w)
  /\ (forall p, ~ withinUploads w p -> files (fs w') !! p = files (fs w) !! p).
Proof.
  intros Habs. cbv zeta.
  destruct (deleteUploadIfLocal_files url w Habs) as (_ & Hro & Hu & Hf).
  destruct (deleteUploadIfLocal_run url w) as (w' & Hrun & _ & Hlog & _).
  rewrite Hrun in *. cbn [snd] in *.
  rewrite (newEvents_app w w' _ Hlog). auto.
Qed.

Lemma deleteUploadIfLocal_stays_within_uploads_witness :
  let w := demoWorld (Some "/uploads/a.jpg") in
  let w' := snd (Uploads.deleteUploadIfLocal (Str "/uploads/./b//a.jpg") w) in
  JsString.startsWith (cwd w) "/" = true
  /\ Forall (withinUploads w) (unlinkedPaths (newEvents w w'))
  /\ readonly (fs w') = readonly (fs w)
  /\ (forall p, ~ withinUploads w p -> files (fs w') !! p = files (fs w) !! p).
Proof.
  cbv zeta. split; [reflexivity|].
  apply (deleteUploadIfLocal_stays_within_uploads (Str "/uploads/./b//a.jpg")
           (demoWorld (Some "/uploads/a.jpg"))).
  reflexivity.
Defined.

(** X12. The whole API only removes uploads: over any sequence of list,
    create, update, delete and upload requests, served from a world with an
    absolute working directory, every [unlink] names the uploads directory
    or a path below it, and every file that was elsewhere is still there. *)
Theorem serve_removes_only_uploads `{Host} (cs : list Call) (w : World) :
  JsString.startsWith (cwd w) "/" = true ->
  let w' := serve cs w in
  Forall (withinUploads w) (unlinkedPaths (newEvents w w'))
  /\ (forall p, ~ withinUploads w p ->
                is_Some (files (fs w) !! p) -> is_Some (files (fs w') !! p)).
Proof.
  intros Habs. cbv zeta.
  destruct (spares_serve cs w Habs) as (_ & (evs & Hlog & Hu) & Hf).
  rewrite (newEvents_app w _ _ Hlog). auto.
Qed.

Lemma serve_removes_only_uploads_witness :
  let w := demoWorld (Some "/uploads/a.jpg") in
  let cs := [CallUpdate KPartner (partnerPut "OKX" (Some JNull)) "p1";
             CallRemove KCategory "c1"] in
  let w' := @serve demoHost cs w in
  JsString.startsWith (cwd w) "/" = true
  /\ Forall (withinUploads w) (unlinkedPaths (newEvents w w'))
  /\ (forall p, ~ withinUploads w p ->
                is_Some (files (fs w) !! p) -> is_Some (files (fs w') !! p)).
Proof.
  cbv zeta. split; [reflexivity|].
  apply (@serve_removes_only_uploads demoHost). reflexivity.
Defined.

(** ** Upload, then delete *)

(** X13. The address an upload hands out leads back to the file it wrote.  In a
    world whose working directory is absolute and normalized, with nothing
    write-protected and a random part made of hexadecimal digits: after an
    accepted upload, [deleteUploadIfLocal] of the returned address takes the
    address for a local upload, unlinks exactly the path that was written,
    and leaves the files as they were before the upload, less that path. *)
Theorem upload_then_delete_round_trip (req : Request)
    (form : list (string * FormEntry)) (f : File) (w : World) :
  formBody req = Some form ->
  UploadRoute.formGet form "file" = Some (FormFile f) ->
  UploadRoute.ALLOWED_has (declaredType f) = true ->
  (file_size f <= 5 * 1024 * 1024)%Z ->
  readonly (fs w) = ∅ ->
  normalDirectory (cwd w) ->
  isHex (randomSource w (drawn w)) = true ->
  let name := UploadRoute.decimal (now w) ++ "_" ++ randomSource w (drawn w)
              ++ extensionOf (declaredType f) in
  let url := "/uploads/" ++ name in
  let path := (cwd w ++ "/public/uploads") ++ "/" ++ name in
  exists w1 w2,
    UploadRoute.POST req w = (Done (mkResponse 201 (BUrl url)), w1)
    /\ files (fs w1) !! path = Some (file_bytes f)
    /\ Uploads.isLocalUpload (Str url) = true
    /\ Uploads.deleteUploadIfLocal (Str url) w1 = (Done tt, w2)
    /\ newEvents w1 w2 = [EvUnlink path]
    /\ files (fs w2) = delete path (files (fs w))
    /\ (files (fs w) !! path = None -> files (fs w2) = files (fs w)).
Proof.
  intros Hform Hget Htype Hsize Hro Hdir Hhex. cbv zeta.
  destruct (POST_stored req form f w Hform Hget Htype Hsize Hro)
    as (w1 & Hrun & Hfiles & Hfile & _ & _ & Hcwd & Hro1 & _).
  cbv zeta in Hrun, Hfiles, Hfile.
  destruct (upload_name (now w) (randomSource w (drawn w)) (declaredType f) Hhex)
    as (Hslash & Hdots & Hkept).
  cbv zeta in Hslash, Hdots, Hkept.
  set (name := UploadRoute.decimal (now w) ++ "_" ++ randomSource w (drawn w)
               ++ extensionOf (declaredType f)) in *.
  pose proof (uploaded_address_is_local name Hdots) as Hlocal.
  pose proof (uploaded_path (cwd w) name Hdir Hslash Hdots Hkept) as Hpath.
  set (path := (cwd w ++ "/public/uploads") ++ "/" ++ name) in *.
  exists w1. unfold Uploads.deleteUploadIfLocal. rewrite Hlocal.
  unfold tryCatch, bind, Uploads.toFsPath, gets, Fs.unlink. cbv zeta.
  change (cwd (emit (EvUnlink (Path.join [cwd w1; "public"; "/uploads/" ++ name])) w1))
    with (cwd w1).
  rewrite Hcwd, Hpath.
  change (fs (emit (EvUnlink path) w1)) with (fs w1).
  rewrite Hro1, Hro.
  destruct (decide (path ∈ (∅ : gset string))) as [Hin|_];
    [now apply not_elem_of_empty in Hin|].
  rewrite Hfile. eexists. split; [exact Hrun|]. split; [reflexivity|].
  split; [reflexivity|]. split; [reflexivity|].
  split; [apply newEvents_app; reflexivity|].
  cbn [fs set_fs files emit]. rewrite Hfiles.
  split; [apply delete_insert_eq|]. apply delete_insert_id.
Qed.

Lemma upload_then_delete_round_trip_witness :
  let f := mkFile (Some "logo.PNG") "image/png" [Byte.x89; Byte.x50] in
  let w := demoWorld None in
  let name := UploadRoute.decimal (now w) ++ "_" ++ randomSource w (drawn w)
              ++ extensionOf (declaredType f) in
  let url := "/uploads/" ++ name in
  let path := (cwd w ++ "/public/uploads") ++ "/" ++ name in
  (normalDirectory (cwd w) /\ isHex (randomSource w (drawn w)) = true)
  /\ exists w1 w2,
    UploadRoute.POST (uploadRequest f) w = (Done (mkResponse 201 (BUrl url)), w1)
    /\ files (fs w1) !! path = Some (file_bytes f)
    /\ Uploads.isLocalUpload (Str url) = true
    /\ Uploads.deleteUploadIfLocal (Str url) w1 = (Done tt, w2)
    /\ newEvents w1 w2 = [EvUnlink path]
    /\ files (fs w2) = delete path (files (fs w))
    /\ (files (fs w) !! path = None -> files (fs w2) = files (fs w)).
Proof.
  intros f w.
  assert (Hdir : normalDirectory (cwd w)) by (repeat split; reflexivity).
  assert (Hhex : isHex (randomSource w (drawn w)) = true) by reflexivity.
  split; [split; assumption|].
  apply (upload_then_delete_round_trip (uploadRequest f) [("file", FormFile f)] f w);
    [reflexivity | reflexivity | reflexivity | vm_compute; discriminate
    | reflexivity | exact Hdir | exact Hhex].
Defined.

(** * The validators *)

(** ** [trim] *)

Lemma trimStart_head (s : string) :
  match JsString.trimStart s with
  | EmptyString => True
  | String c _ => JsString.isWhiteSpace c = false
  end.
Proof.
  induction s as [|c s IH]; cbn [JsString.trimStart]; [exact I|].
  destruct (JsString.isWhiteSpace c) eqn:Hc; [exact IH|exact Hc].
Qed.

Lemma trimEnd_idempotent (s : string) :
  JsString.trimEnd (JsString.trimEnd s) = JsString.trimEnd s.
Proof.
  induction s as [|c s IH]; [reflexivity|].
  cbn [JsString.trimEnd]. cbv zeta.
  destruct (JsString.isWhiteSpace c && String.eqb (JsString.trimEnd s) "") eqn:Hc;
    [reflexivity|].
  cbn [JsString.trimEnd]. cbv zeta. now rewrite IH, Hc.
Qed.

Lemma trimStart_trimEnd (s : string) :
  match s with
  | EmptyString => True
  | String c _ => JsString.isWhiteSpace c = false
  end ->
  JsString.trimStart (JsString.trimEnd s) = JsString.trimEnd s.
Proof.
  destruct s as [|c s]; [reflexivity|]. intros Hc.
  cbn [JsString.trimEnd]. cbv zeta. rewrite Hc. cbn [andb JsString.trimStart].
  now rewrite Hc.
Qed.

Lemma trim_idempotent (s : string) :
  JsString.trim (JsString.trim s) = JsString.trim s.
Proof.
  unfold JsString.trim.
  rewrite (trimStart_trimEnd (JsString.trimStart s)) by apply trimStart_head.
  apply trimEnd_idempotent.
Qed.

(** ** What the image member parses to *)

Lemma imageUrlSchema_address (v : option json) (s : string) :
  Zod.imageUrlSchema v = Some (Str s) -> isAddress s.
Proof.
  unfold Zod.imageUrlSchema, Zod.imageUrlUnion, Zod.emptyToNull.
  destruct v as [[| | |r| |]|]; try discriminate.
  destruct (Zod.imageUrlRefinement (JsString.trim r)) eqn:Href; [|discriminate].
  destruct (String.eqb_spec (JsString.trim r) "") as [|Hne]; [discriminate|].
  intros [= <-]. split; [exact Hne|]. split; [apply trim_idempotent|].
  unfold Zod.imageUrlRefinement in Href.
  apply orb_true_iff in Href as [Href|Href]; [|now right].
  apply orb_true_iff in Href as [Href|Href]; [|now left].
  apply String.eqb_eq in Href. contradiction.
Qed.

Lemma imageUrlSchema_again (v : option json) (i : nullish) :
  Zod.imageUrlSchema v = Some i ->
  Zod.imageUrlSchema (Zod.member (imageMember i) "imageUrl") = Some i.
Proof.
  intros Hv. destruct i as [| |s]; [reflexivity|reflexivity|].
  destruct (imageUrlSchema_address v s Hv) as (Hne & Htrim & Hshape).
  cbn [imageMember Zod.member]. rewrite String.eqb_refl.
  unfold Zod.imageUrlSchema, Zod.imageUrlUnion. cbv zeta. rewrite Htrim.
  assert (Href : Zod.imageUrlRefinement s = true).
  { unfold Zod.imageUrlRefinement. destruct Hshape as [->| ->];
      [now rewrite orb_true_r|now rewrite orb_true_r]. }
  rewrite Href. unfold Zod.emptyToNull.
  destruct (String.eqb_spec s ""); [contradiction|reflexivity].
Qed.

Lemma member_image_after (k : string) (v : json) (i : nullish) :
  k <> "imageUrl" ->
  Zod.member ((k, v) :: imageMember i) "imageUrl" = Zod.member (imageMember i) "imageUrl".
Proof.
  intros Hk. cbn [Zod.member].
  destruct (Zod.member (imageMember i) "imageUrl"); [reflexivity|].
  destruct (String.eqb_spec k "imageUrl"); [contradiction|reflexivity].
Qed.

Lemma member_before_image (key : string) (i : nullish) :
  key <> "imageUrl" -> Zod.member (imageMember i) key = None.
Proof.
  intros Hk. destruct i as [| |s]; cbn [imageMember Zod.member]; try reflexivity;
    destruct (String.eqb_spec "imageUrl" key); congruence.
Qed.

Lemma min_after_trim (n : Z) (r : option string) (s : string) :
  Zod.min n (Zod.trim r) = Some s ->
  Zod.min n (Zod.trim (Some s)) = Some s.
Proof.
  destruct r as [r|]; [|discriminate]. cbn [Zod.trim Zod.min].
  destruct (n <=? JsString.length (JsString.trim r))%Z eqn:Hlen; [|discriminate].
  intros [= <-]. now rewrite trim_idempotent, Hlen.
Qed.

Lemma min_again (n : Z) (r : option string) (s : string) :
  Zod.min n r = Some s -> Zod.min n (Some s) = Some s.
Proof.
  destruct r as [r|]; [|discriminate]. cbn [Zod.min].
  destruct (n <=? JsString.length r)%Z eqn:Hlen; [|discriminate].
  intros [= <-]. now rewrite Hlen.
Qed.

Lemma url_again `{Host} (r : option string) (s : string) :
  Zod.url r = Some s -> Zod.url (Some s) = Some s.
Proof.
  destruct r as [r|]; [|discriminate]. cbn [Zod.url].
  destruct (isUrl r) eqn:Hurl; [|discriminate].
  intros [= <-]. now rewrite Hurl.
Qed.

(** ** Validation is stable *)

(** X14. What [categorySchema] returns, written out as JSON and read again, is
    accepted and parses to itself: the name is already trimmed and long
    enough, and the image is already in the form the schema gives it. *)
Theorem categorySchema_round_trip (body : json) (d : Zod.CategoryInput) :
  Zod.categorySchema body = Zod.Success d ->
  Zod.categorySchema (categoryJson d) = Zod.Success d.
Proof.
  intros Hparse.
  unfold Zod.categorySchema in Hparse. destruct body as [| | | | |o]; try discriminate.
  cbv zeta in Hparse.
  destruct (Zod.min 2 (Zod.trim _)) as [n|] eqn:Hname; [|discriminate].
  destruct (Zod.imageUrlSchema _) as [i|] eqn:Himg; [|discriminate].
  injection Hparse as <-.
  unfold categoryJson, Zod.categorySchema. cbv zeta.
  cbn [Zod.ci_name Zod.ci_imageUrl Zod.field].
  rewrite member_image_after by discriminate.
  rewrite (imageUrlSchema_again _ _ Himg).
  cbn [Zod.member]. rewrite member_before_image by discriminate.
  cbn [String.eqb Ascii.eqb Bool.eqb Zod.zString].
  now rewrite (min_after_trim 2 _ n Hname).
Qed.

Lemma categorySchema_round_trip_witness :
  let body := JObject [("imageUrl", JString "  /uploads/a.jpg "); ("name", JString " Exchange ")] in
  let d := Zod.mkCategoryInput "Exchange" (Str "/uploads/a.jpg") in
  Zod.categorySchema body = Zod.Success d
  /\ Zod.categorySchema (categoryJson d) = Zod.Success d.
Proof.
  cbv zeta. split; [reflexivity|].
  apply (categorySchema_round_trip
           (JObject [("imageUrl", JString "  /uploads/a.jpg "); ("name", JString " Exchange ")])).
  reflexivity.
Defined.

Lemma member_cons_ne (k key : string) (v : json) (rest : list (string * json)) :
  k <> key -> Zod.member ((k, v) :: rest) key = Zod.member rest key.
Proof.
  intros Hk. cbn [Zod.member]. destruct (Zod.member rest key); [reflexivity|].
  destruct (String.eqb_spec k key); [contradiction|reflexivity].
Qed.

Lemma member_cons_eq (key : string) (v : json) (rest : list (string * json)) :
  Zod.member rest key = None -> Zod.member ((key, v) :: rest) key = Some v.
Proof. intros Hrest. cbn [Zod.member]. now rewrite Hrest, String.eqb_refl. Qed.

(** X15. What [partnerSchema] returns, written out as JSON and read again,
    is accepted and parses to itself: name (which this schema does not
    trim), category, link, flag and image all come back as they were
    returned. *)
Theorem partnerSchema_round_trip `{Host} (body : json) (d : Zod.PartnerInput) :
  Zod.partnerSchema body = Zod.Success d ->
  Zod.partnerSchema (partnerJson d) = Zod.Success d.
Proof.
  intros Hparse.
  unfold Zod.partnerSchema in Hparse. destruct body as [| | | | |o]; try discriminate.
  cbv zeta in Hparse.
  destruct (Zod.min 2 _) as [n|] eqn:Hname; [|discriminate].
  destruct (Zod.min 1 _) as [c|] eqn:Hcat;
    [|destruct (Zod.url _); destruct (Zod.zBoolean _); destruct (Zod.imageUrlSchema _);
      discriminate].
  destruct (Zod.url _) as [l|] eqn:Hlink;
    [|destruct (Zod.zBoolean _); destruct (Zod.imageUrlSchema _); discriminate].
  destruct (Zod.zBoolean _) as [f|] eqn:Hflag;
    [|destruct (Zod.imageUrlSchema _); discriminate].
  destruct (Zod.imageUrlSchema _) as [i|] eqn:Himg; [|discriminate].
  injection Hparse as <-.
  unfold partnerJson, Zod.partnerSchema. cbv zeta.
  cbn [Zod.pi_name Zod.pi_categoryId Zod.pi_link Zod.pi_featured Zod.pi_imageUrl
       Zod.field app].
  rewrite (member_cons_eq "name")
    by (rewrite !member_cons_ne by discriminate; now apply member_before_image).
  rewrite (member_cons_ne "name" "categoryId") by discriminate.
  rewrite (member_cons_eq "categoryId")
    by (rewrite !member_cons_ne by discriminate; now apply member_before_image).
  rewrite !(member_cons_ne _ "link") by discriminate.
  rewrite (member_cons_eq "link")
    by (rewrite !member_cons_ne by discriminate; now apply member_before_image).
  rewrite !(member_cons_ne _ "featured") by discriminate.
  rewrite (member_cons_eq "featured") by (now apply member_before_image).
  rewrite !(member_cons_ne _ "imageUrl") by discriminate.
  rewrite (imageUrlSchema_again _ _ Himg).
  cbn [Zod.zString Zod.zBoolean].
  now rewrite (min_again 2 _ n Hname), (min_again 1 _ c Hcat), (url_again _ l Hlink).
Qed.

Lemma partnerSchema_round_trip_witness :
  let body := partnerBody "OKX" (Some (JString " HTTPS://cdn.okx.com/logo.png")) in
  let d := Zod.mkPartnerInput "OKX" "c1" "https://okx.com" true
             (Str "HTTPS://cdn.okx.com/logo.png") in
  @Zod.partnerSchema demoHost body = Zod.Success d
  /\ @Zod.partnerSchema demoHost (partnerJson d) = Zod.Success d.
Proof.
  cbv zeta. split; [reflexivity|].
  apply (@partnerSchema_round_trip demoHost
           (partnerBody "OKX" (Some (JString " HTTPS://cdn.okx.com/logo.png")))).
  reflexivity.
Defined.

(** ** What the image columns hold *)

Section StoredImages.
Context `{Host}.
Variable good : string -> Prop.
Hypothesis schema_good :
  forall v s, Zod.imageUrlSchema v = Some (Str s) -> good s.

Lemma applyImage_good (v : option json) (sig : nullish) (old : option string) :
  Zod.imageUrlSchema v = Some sig ->
  (forall s, old = Some s -> good s) ->
  forall s, applyImage sig old = Some s -> good s.
Proof.
  intros Hsig Hold s. destruct sig as [| |t]; cbn [applyImage].
  - apply Hold.
  - discriminate.
  - intros [= <-]. now apply (schema_good v).
Qed.

Lemma imagesAre_withoutRecord (k : Kind) (id : string) (d : Db) :
  imagesAre good d -> imagesAre good (withoutRecord k id d).
Proof.
  intros (Hc & Hp & Ha).
  destruct k; unfold imagesAre; cbn [withoutRecord categories partners announcements];
    repeat split; try assumption.
  - apply Forall_forall. intros c Hin. apply list_elem_of_In, In_removeFirst in Hin.
    apply (proj1 (Forall_forall _ _) Hc), list_elem_of_In, Hin.
  - apply Forall_forall. intros p' Hin.
    apply list_elem_of_In, in_map_iff in Hin as (p & <- & Hin).
    replace (p_imageUrl (prisma.category.setNull id p)) with (p_imageUrl p)
      by (unfold prisma.category.setNull; destruct (decide _); reflexivity).
    apply (proj1 (Forall_forall _ _) Hp), list_elem_of_In, Hin.
  - apply Forall_forall. intros p Hin. apply list_elem_of_In, In_removeFirst in Hin.
    apply (proj1 (Forall_forall _ _) Hp), list_elem_of_In, Hin.
  - apply Forall_forall. intros a Hin. apply list_elem_of_In, In_removeFirst in Hin.
    apply (proj1 (Forall_forall _ _) Ha), list_elem_of_In, Hin.
Qed.

Lemma update_images (k : Kind) (req : Request) (id : string) (w : World) :
  imagesAre good (db w) -> imagesAre good (db (snd (update k req id w))).
Proof.
  intros Hinv.
  destruct (parsedImage k req) as [sig|] eqn:Hp.
  2:{ destruct (update_rejected k req id w Hp) as (issues & ->). exact Hinv. }
  pose proof (parsedImage_schema k req sig Hp) as Hsig.
  destruct (imageOf k id (db w)) as [old|] eqn:Hold.
  2:{ rewrite (update_not_found k req id w sig Hp Hold). exact Hinv. }
  destruct Hinv as (Hc & Hp' & Ha).
  destruct k; cbn [parsedImage imageOf update] in *;
    apply fmap_Some in Hold as (existing & Hfind & ->);
    pose proof (find_some _ _ Hfind) as [Hin _].
  - destruct (Zod.categorySchema (readJson req)) as [parsed|] eqn:Hparse; [|discriminate].
    injection Hp as <-.
    pose proof (category_PUT_run req id w parsed existing Hparse Hfind) as Hrun.
    destruct (prisma.category.nameTaken _ _ _).
    + rewrite Hrun. repeat split; assumption.
    + destruct Hrun as (updated & w' & -> & Himg & Hdb & _). cbn [snd]. rewrite Hdb.
      repeat split; cbn; try assumption.
      apply Forall_replaceFirst; [assumption|]. rewrite Himg.
      apply (applyImage_good _ _ _ Hsig).
      apply (proj1 (Forall_forall _ _) Hc), list_elem_of_In, Hin.
  - destruct (Zod.partnerSchema (readJson req)) as [parsed|] eqn:Hparse; [|discriminate].
    injection Hp as <-.
    pose proof (partner_PUT_run req id w parsed existing Hparse Hfind) as Hrun.
    destruct (prisma.partner.categoryExists _ _).
    + destruct Hrun as (updated & w' & -> & Himg & Hdb & _). cbn [snd]. rewrite Hdb.
      repeat split; cbn; try assumption.
      apply Forall_replaceFirst; [assumption|]. rewrite Himg.
      apply (applyImage_good _ _ _ Hsig).
      apply (proj1 (Forall_forall _ _) Hp'), list_elem_of_In, Hin.
    + rewrite Hrun. repeat split; assumption.
  - destruct (Zod.announcementSchema (readJson req)) as [parsed|] eqn:Hparse; [|discriminate].
    injection Hp as <-.
    destruct (announcement_PUT_run req id w parsed existing Hparse Hfind)
      as (updated & w' & -> & Himg & Hdb & _). cbn [snd]. rewrite Hdb.
    repeat split; cbn; try assumption.
    apply Forall_replaceFirst; [assumption|]. rewrite Himg.
    apply (applyImage_good _ _ _ Hsig).
    apply (proj1 (Forall_forall _ _) Ha), list_elem_of_In, Hin.
Qed.

Lemma create_images (k : Kind) (req : Request) (w : World) :
  imagesAre good (db w) -> imagesAre good (db (snd (create k req w))).
Proof.
  intros (Hc & Hp & Ha).
  assert (Hnone : forall s : string, @None string = Some s -> good s) by discriminate.
  destruct k; cbn [create].
  - unfold CategoriesRoute.POST.
    destruct (Zod.categorySchema (readJson req)) as [data|] eqn:Hparse;
      [|repeat split; assumption].
    pose proof (categorySchema_image _ _ Hparse) as Hsig.
    unfold bind, prisma.category.create, draw. cbn.
    destruct (_ || _); cbn; repeat split; cbn; try assumption.
    apply Forall_app. split; [assumption|]. constructor; [|constructor].
    cbn. now apply (applyImage_good _ _ _ Hsig).
  - unfold PartnersRoute.POST.
    destruct (Zod.partnerSchema (readJson req)) as [data|] eqn:Hparse;
      [|repeat split; assumption].
    pose proof (partnerSchema_image _ _ Hparse) as Hsig.
    unfold bind, prisma.partner.create, draw. cbn.
    destruct (existsb _ _); cbn; [repeat split; assumption|].
    destruct (negb _); cbn; repeat split; cbn; try assumption.
    apply Forall_app. split; [assumption|]. constructor; [|constructor].
    cbn. now apply (applyImage_good _ _ _ Hsig).
  - unfold AnnouncementsRoute.POST.
    destruct (Zod.announcementSchema (readJson req)) as [data|] eqn:Hparse;
      [|repeat split; assumption].
    pose proof (announcementSchema_image _ _ Hparse) as Hsig.
    unfold bind, prisma.announcement.create, draw. cbn.
    destruct (existsb _ _); cbn; repeat split; cbn; try assumption.
    apply Forall_app. split; [assumption|]. constructor; [|constructor].
    cbn. now apply (applyImage_good _ _ _ Hsig).
Qed.

Lemma call_images (c : Call) (w : World) :
  imagesAre good (db w) -> imagesAre good (db (snd (call c w))).
Proof.
  intros Hinv. destruct c as [k|k req|k req id|k id|req]; cbn [call].
  - now rewrite listing_keeps_world.
  - now apply create_images.
  - now apply update_images.
  - destruct (imageOf k id (db w)) as [old|] eqn:Hold.
    + destruct (remove_found k id w old Hold) as (w' & -> & Hdb & _).
      cbn [snd]. rewrite Hdb. now apply imagesAre_withoutRecord.
    + now rewrite (remove_not_found k id w Hold).
  - now rewrite upload_keeps_db.
Qed.

Lemma serve_images (cs : list Call) (w : World) :
  imagesAre good (db w) -> imagesAre good (db (serve cs w)).
Proof.
  revert w. induction cs as [|c cs IH]; intros w Hinv; [exact Hinv|].
  cbn [serve]. now apply IH, call_images.
Qed.

End StoredImages.

(** X16. Whatever requests are served, the image columns only ever hold
    addresses: when every stored image is a trimmed, non-empty string that
    is below [/uploads/] or has an http(s) scheme, that is still so after
    any sequence of list, create, update, delete and upload requests, valid
    or not. *)
Theorem serve_keeps_images_addresses `{Host} (cs : list Call) (w : World) :
  imagesAre isAddress (db w) -> imagesAre isAddress (db (serve cs w)).
Proof. apply serve_images. apply imageUrlSchema_address. Qed.

Lemma serve_keeps_images_addresses_witness :
  let w := demoWorld (Some "/uploads/a.jpg") in
  let cs := [CallUpdate KPartner (partnerPut "OKX" (Some (JString " https://cdn.okx.com/l.png "))) "p1";
             CallCreate KCategory (mkRequest [] (Some (JObject [("name", JString "Media")])) None)] in
  imagesAre isAddress (db w)
  /\ imagesAre isAddress (db (@serve demoHost cs w)).
Proof.
  cbv zeta.
  assert (Hw : imagesAre isAddress (db (demoWorld (Some "/uploads/a.jpg")))).
  { unfold imagesAre. cbn [db demoWorld categories partners announcements].
    split; [|split].
    - apply Forall_cons_2; [|apply Forall_nil_2]. cbn. intros s Heq. discriminate Heq.
    - apply Forall_cons_2; [|apply Forall_nil_2]. cbn. intros s [= <-].
      split; [discriminate|]. split; [reflexivity|now left].
    - apply Forall_cons_2; [|apply Forall_cons_2; [|apply Forall_nil_2]]; cbn;
        intros s Heq; discriminate Heq. }
  split; [exact Hw|].
  apply (@serve_keeps_images_addresses demoHost). exact Hw.
Defined.

(** * The placeholder store *)

Lemma filter_shorter {A} (f : A -> bool) (l : list A) :
  (List.length (List.filter f l) <= List.length l)%nat.
Proof.
  induction l as [|x l IH]; cbn [List.filter List.length]; [lia|].
  destruct (f x); cbn [List.length]; lia.
Qed.

(** [filter] makes the list shorter exactly when it drops something. *)
Lemma filter_drops {A} (f : A -> bool) (l : list A) :
  (List.length (List.filter f l) <? List.length l)%nat = existsb (fun x => negb (f x)) l.
Proof.
  induction l as [|x l IH]; [reflexivity|].
  cbn [List.filter List.length existsb]. pose proof (filter_shorter f l) as Hle.
  destruct (f x); cbn [negb orb List.length].
  - exact IH.
  - apply Nat.ltb_lt. lia.
Qed.

Lemma filter_out_drops {A} (f : A -> bool) (l : list A) :
  (List.length (List.filter (fun x => negb (f x)) l) <? List.length l)%nat = existsb f l.
Proof.
  rewrite filter_drops. induction l as [|x l IH]; [reflexivity|].
  cbn [existsb]. now rewrite IH, negb_involutive.
Qed.

Lemma filter_keeps_all {A} (f : A -> bool) (l : list A) :
  (forall x, In x l -> f x = true) -> List.filter f l = l.
Proof.
  induction l as [|x l IH]; intros Hall; [reflexivity|].
  cbn [List.filter]. rewrite (Hall x) by now left.
  f_equal. apply IH. intros y Hy. apply Hall. now right.
Qed.

Lemma map_keeps_all {A} (f : A -> A) (l : list A) :
  (forall x, In x l -> f x = x) -> map f l = l.
Proof.
  induction l as [|x l IH]; intros Hall; [reflexivity|].
  cbn [map]. rewrite (Hall x) by now left.
  f_equal. apply IH. intros y Hy. apply Hall. now right.
Qed.

Lemma In_replaceFirst_other {A} (f : A -> bool) (x' x : A) (l : list A) :
  In x l -> f x = false -> In x (replaceFirst f x' l).
Proof.
  intros Hin Hx. induction l as [|y l IH]; [contradiction|].
  cbn [replaceFirst]. destruct (f y) eqn:Hy.
  - destruct Hin as [->|Hin]; [congruence|now right].
  - destruct Hin as [->|Hin]; [now left|right; now apply IH].
Qed.

Lemma In_replaceFirst_new {A} (f : A -> bool) (x' old : A) (l : list A) :
  find f l = Some old -> In x' (replaceFirst f x' l).
Proof.
  induction l as [|y l IH]; cbn [find replaceFirst]; [discriminate|].
  destruct (f y); [now left|]. intros Hfind. right. now apply IH.
Qed.

Lemma insertBy_Permutation {A} (cmp : A -> A -> Z) (x : A) (l : list A) :
  Permutation (InMemory.insertBy cmp x l) (x :: l).
Proof.
  induction l as [|y l IH]; cbn [InMemory.insertBy]; [reflexivity|].
  destruct (cmp x y <=? 0)%Z; [reflexivity|].
  rewrite IH. apply perm_swap.
Qed.

Lemma sort_Permutation {A} (cmp : A -> A -> Z) (l : list A) :
  Permutation (InMemory.sort cmp l) l.
Proof.
  unfold InMemory.sort. induction l as [|x l IH]; cbn [foldr]; [reflexivity|].
  now rewrite insertBy_Permutation, IH.
Qed.

(** X17. What [deleteCategory] and [deletePartner] answer: [true] exactly
    when a record had the id.  Afterwards the records are the ones there
    were, in their order, without those of that id.  After [deleteCategory]
    no partner names the id as its category (unless the id is the empty
    string, which is what a cleared reference is set to), also when the
    answer is [false], no category having had the id. *)
Theorem in_memory_delete_reports_existence (id : string) (st : InMemory.Store) :
  let hasId := fun c => String.eqb (InMemory.cat_id c) id in
  let names := fun p => String.eqb (InMemory.prt_id p) id in
  (fst (InMemory.deleteCategory id st) = existsb hasId (InMemory._categories st)
   /\ InMemory._categories (snd (InMemory.deleteCategory id st))
      = List.filter (fun c => negb (hasId c)) (InMemory._categories st)
   /\ Forall (fun p => InMemory.prt_categoryId p <> id \/ id = "")
        (InMemory._partners (snd (InMemory.deleteCategory id st))))
  /\ (fst (InMemory.deletePartner id st) = existsb names (InMemory._partners st)
      /\ InMemory._partners (snd (InMemory.deletePartner id st))
         = List.filter (fun p => negb (names p)) (InMemory._partners st)
      /\ InMemory._categories (snd (InMemory.deletePartner id st))
         = InMemory._categories st).
Proof.
  cbv zeta. unfold InMemory.deleteCategory, InMemory.deletePartner.
  cbn [fst snd InMemory._categories InMemory._partners].
  rewrite !filter_out_drops. repeat split.
  apply Forall_forall. intros p' Hin.
    apply list_elem_of_In, in_map_iff in Hin as (p & <- & _).
    destruct (String.eqb_spec (InMemory.prt_categoryId p) id) as [Heq|Hne];
      cbn [InMemory.prt_categoryId]; [|now left].
    destruct (String.eqb_spec id "") as [->|Hid]; [now right|left; congruence].
Qed.

Lemma NoDup_map_filter {A B} (g : A -> B) (f : A -> bool) (l : list A) :
  NoDup (map g l) -> NoDup (map g (List.filter f l)).
Proof.
  induction l as [|x l IH]; cbn [map List.filter]; [auto|].
  intros Hnd. apply NoDup_cons in Hnd as [Hx Hnd].
  destruct (f x); [|now apply IH].
  cbn [map]. apply NoDup_cons. split; [|now apply IH].
  intros Hin. apply Hx. apply list_elem_of_In in Hin. apply list_elem_of_In.
  apply in_map_iff in Hin as (y & Hy & Hin). apply filter_In in Hin as [Hin _].
  apply in_map_iff. now exists y.
Qed.

(** X18. [createCategory] and [deleteCategory] keep the category names distinct
    up to letter case: when no two names of the store agree once put in
    lower case, that is still so after either call, whether the creation
    went through or threw. *)
Theorem in_memory_names_stay_distinct (st : InMemory.Store) (name rnd id : string) :
  NoDup (lowerNames st) ->
  NoDup (lowerNames (snd (InMemory.createCategory name rnd st)))
  /\ NoDup (lowerNames (snd (InMemory.deleteCategory id st))).
Proof.
  intros Hnd. split.
  - unfold InMemory.createCategory. cbv zeta.
    destruct (existsb _ (InMemory._categories st)) eqn:Hex; [exact Hnd|].
    unfold lowerNames. cbn [snd InMemory._categories map InMemory.cat_name].
    apply NoDup_cons. split; [|exact Hnd].
    intros Hin. apply list_elem_of_In, in_map_iff in Hin as (c & Hc & Hin).
    apply not_true_iff_false in Hex. apply Hex.
    apply existsb_exists. exists c. split; [exact Hin|]. now apply String.eqb_eq.
  - unfold lowerNames, InMemory.deleteCategory. cbn [snd InMemory._categories].
    now apply NoDup_map_filter.
Qed.

Lemma in_memory_names_stay_distinct_witness :
  let st := InMemory.initial "2025-01-01T00:00:00.000Z" in
  NoDup (lowerNames st)
  /\ NoDup (lowerNames (snd (InMemory.createCategory "Wallet" "k3x9q2ab" st)))
  /\ NoDup (lowerNames (snd (InMemory.deleteCategory "cat_brand" st))).
Proof.
  cbv zeta.
  assert (Hnd : NoDup (lowerNames (InMemory.initial "2025-01-01T00:00:00.000Z")))
    by (apply (bool_decide_unpack _); vm_compute; exact I).
  split; [exact Hnd|].
  apply (in_memory_names_stay_distinct _ "Wallet" "k3x9q2ab" "cat_brand"). exact Hnd.
Defined.

(** X19. [updateCategory] renames without the check [createCategory] makes: given
    two categories with different ids, renaming the first to the name of the
    second goes through, and the store then holds two categories with
    different ids and the same name. *)
Theorem in_memory_updateCategory_can_duplicate (st : InMemory.Store)
    (a b : InMemory.Category) :
  In a (InMemory._categories st) ->
  In b (InMemory._categories st) ->
  InMemory.cat_id a <> InMemory.cat_id b ->
  exists a',
    fst (InMemory.updateCategory (InMemory.cat_id a) (InMemory.cat_name b) st) = Some a'
    /\ InMemory.cat_id a' = InMemory.cat_id a
    /\ InMemory.cat_name a' = InMemory.cat_name b
    /\ In a' (InMemory._categories
                (snd (InMemory.updateCategory (InMemory.cat_id a) (InMemory.cat_name b) st)))
    /\ In b (InMemory._categories
               (snd (InMemory.updateCategory (InMemory.cat_id a) (InMemory.cat_name b) st))).
Proof.
  intros Ha Hb Hne. unfold InMemory.updateCategory.
  destruct (find _ (InMemory._categories st)) as [old|] eqn:Hfind.
  - pose proof (find_some _ _ Hfind) as [_ Hid]. apply String.eqb_eq in Hid.
    eexists. cbn [fst snd InMemory._categories].
    split; [reflexivity|]. split; [exact Hid|]. split; [reflexivity|]. split.
    + eapply In_replaceFirst_new. exact Hfind.
    + apply In_replaceFirst_other; [exact Hb|].
      apply String.eqb_neq. congruence.
  - exfalso. apply (find_none _ _ Hfind) in Ha.
    rewrite String.eqb_refl in Ha. discriminate Ha.
Qed.

Lemma in_memory_updateCategory_can_duplicate_witness :
  let st := InMemory.initial "2025-01-01T00:00:00.000Z" in
  let a := InMemory.mkCategory "cat_exch" "Exchange" in
  let b := InMemory.mkCategory "cat_brand" "Brand" in
  (In a (InMemory._categories st) /\ In b (InMemory._categories st)
   /\ InMemory.cat_id a <> InMemory.cat_id b)
  /\ exists a',
    fst (InMemory.updateCategory (InMemory.cat_id a) (InMemory.cat_name b) st) = Some a'
    /\ InMemory.cat_id a' = InMemory.cat_id a
    /\ InMemory.cat_name a' = InMemory.cat_name b
    /\ In a' (InMemory._categories
                (snd (InMemory.updateCategory (InMemory.cat_id a) (InMemory.cat_name b) st)))
    /\ In b (InMemory._categories
               (snd (InMemory.updateCategory (InMemory.cat_id a) (InMemory.cat_name b) st))).
Proof.
  cbv zeta.
  assert (Ha : In (InMemory.mkCategory "cat_exch" "Exchange")
                 (InMemory._categories (InMemory.initial "2025-01-01T00:00:00.000Z")))
    by (cbn; auto).
  assert (Hb : In (InMemory.mkCategory "cat_brand" "Brand")
                 (InMemory._categories (InMemory.initial "2025-01-01T00:00:00.000Z")))
    by (cbn; auto).
  assert (Hne : InMemory.cat_id (InMemory.mkCategory "cat_exch" "Exchange")
                <> InMemory.cat_id (InMemory.mkCategory "cat_brand" "Brand"))
    by discriminate.
  split; [auto|].
  apply (in_memory_updateCategory_can_duplicate _ _ _ Ha Hb Hne).
Defined.

(** X20. A category that was just created can be deleted again, and the store is
    then what it was: when the new id is the id of no category and the
    category of no partner, [deleteCategory] of the id [createCategory]
    returned answers [true] and gives back the store from before. *)
Theorem in_memory_create_then_delete_category (st st' : InMemory.Store)
    (name rnd : string) (c : InMemory.Category) :
  InMemory.createCategory name rnd st = (Done c, st') ->
  (forall x, In x (InMemory._categories st) ->
             InMemory.cat_id x <> InMemory.newId "cat" rnd) ->
  (forall p, In p (InMemory._partners st) ->
             InMemory.prt_categoryId p <> InMemory.newId "cat" rnd) ->
  InMemory.cat_id c = InMemory.newId "cat" rnd
  /\ InMemory.deleteCategory (InMemory.cat_id c) st' = (true, st).
Proof.
  intros Hrun Hfresh Hfree. unfold InMemory.createCategory in Hrun. cbv zeta in Hrun.
  destruct (existsb _ (InMemory._categories st)); [discriminate|].
  injection Hrun as <- <-. split; [reflexivity|].
  unfold InMemory.deleteCategory.
  cbn [InMemory.cat_id InMemory._categories InMemory._partners List.filter List.length].
  rewrite String.eqb_refl. cbn [negb].
  rewrite filter_keeps_all.
  2:{ intros x Hx. apply negb_true_iff, String.eqb_neq. now apply Hfresh. }
  rewrite map_keeps_all.
  2:{ intros p Hp. destruct (String.eqb_spec (InMemory.prt_categoryId p)
                               (InMemory.newId "cat" rnd)) as [Heq|_]; [|reflexivity].
      now apply Hfree in Hp. }
  destruct st as [cats parts]. cbn [InMemory._categories InMemory._partners].
  f_equal. apply Nat.ltb_lt. lia.
Qed.

Lemma in_memory_create_then_delete_category_witness :
  let st := InMemory.initial "2025-01-01T00:00:00.000Z" in
  let c := InMemory.mkCategory "cat_k3x9q2ab" "Wallet" in
  let st' := InMemory.mkStore (c :: InMemory._categories st) (InMemory._partners st) in
  InMemory.createCategory "Wallet" "k3x9q2ab" st = (Done c, st')
  /\ InMemory.cat_id c = InMemory.newId "cat" "k3x9q2ab"
  /\ InMemory.deleteCategory (InMemory.cat_id c) st' = (true, st).
Proof.
  cbv zeta. split; [reflexivity|].
  apply (in_memory_create_then_delete_category
           (InMemory.initial "2025-01-01T00:00:00.000Z") _ "Wallet" "k3x9q2ab").
  - reflexivity.
  - intros x [<-|[<-|[<-|[]]]]; discriminate.
  - intros p [<-|[]]; discriminate.
Defined.

(** X21. A partner that was just created can be deleted again, and the
    store is then what it was: [createPartner] stores the partner under the
    id [prtn_<random>] with the category id it was given, whether a category
    has that id or not, and the partner is in the next listing; when no
    partner had the id before, [deletePartner] of it answers [true] and gives
    back the store from before. *)
Theorem in_memory_create_then_delete_partner (st : InMemory.Store)
    (data : InMemory.PartnerData) (rnd t1 t2 : string) :
  (forall p, In p (InMemory._partners st) ->
             InMemory.prt_id p <> InMemory.newId "prtn" rnd) ->
  let created := InMemory.createPartner data rnd t1 t2 st in
  InMemory.prt_id (fst created) = InMemory.newId "prtn" rnd
  /\ InMemory.prt_categoryId (fst created) = InMemory.pd_categoryId data
  /\ In (fst created) (InMemory.listPartners (snd created))
  /\ InMemory.deletePartner (InMemory.prt_id (fst created)) (snd created) = (true, st).
Proof.
  intros Hfresh. cbv zeta. unfold InMemory.createPartner. cbv zeta.
  cbn [fst snd InMemory.prt_id InMemory.prt_categoryId].
  split; [reflexivity|]. split; [reflexivity|]. split.
  - unfold InMemory.listPartners. cbn [InMemory._partners].
    eapply Permutation_in; [symmetry; apply sort_Permutation|]. now left.
  - unfold InMemory.deletePartner.
    cbn [InMemory.prt_id InMemory._categories InMemory._partners List.filter List.length].
    rewrite String.eqb_refl. cbn [negb].
    rewrite filter_keeps_all.
    2:{ intros x Hx. apply negb_true_iff, String.eqb_neq. now apply Hfresh. }
    destruct st as [cats parts]. cbn [InMemory._categories InMemory._partners].
    f_equal. apply Nat.ltb_lt. lia.
Qed.

Lemma in_memory_create_then_delete_partner_witness :
  let st := InMemory.initial "2025-01-01T00:00:00.000Z" in
  let data := InMemory.mkPartnerData "Bybit" "cat_none" "https://www.bybit.com" false in
  let created := InMemory.createPartner data "k3x9q2ab" "2025-01-02" "2025-01-02" st in
  InMemory.prt_id (fst created) = InMemory.newId "prtn" "k3x9q2ab"
  /\ InMemory.prt_categoryId (fst created) = InMemory.pd_categoryId data
  /\ In (fst created) (InMemory.listPartners (snd created))
  /\ InMemory.deletePartner (InMemory.prt_id (fst created)) (snd created) = (true, st).
Proof.
  cbv zeta.
  apply (in_memory_create_then_delete_partner
           (InMemory.initial "2025-01-01T00:00:00.000Z")).
  intros p [<-|[]]; discriminate.
Defined.

(** X22. The listings of the placeholder store hold the records of the store,
    each as often as the store does, whatever the comparison of names is.
    A category that [createCategory] returned is in the next listing, and a
    creation that threw left the store as it was. *)
Theorem in_memory_listings_are_permutations `{Host} (st : InMemory.Store)
    (name rnd : string) :
  Permutation (InMemory.listCategories st) (InMemory._categories st)
  /\ Permutation (InMemory.listPartners st) (InMemory._partners st)
  /\ match InMemory.createCategory name rnd st with
     | (Done c, st') =>
         InMemory.cat_name c = name /\ In c (InMemory.listCategories st')
     | (Thrown _, st') => st' = st
     end.
Proof.
  split; [apply sort_Permutation|]. split; [apply sort_Permutation|].
  unfold InMemory.createCategory. cbv zeta.
  destruct (existsb _ (InMemory._categories st)); [reflexivity|].
  split; [reflexivity|].
  eapply Permutation_in; [symmetry; apply sort_Permutation|]. now left.
Qed.

(** * The categories page *)

Lemma fold_collect_not_nil (issues map : list (string * string)) :
  map <> [] ->
  fold_left
    (fun map issue =>
       match find (fun e => String.eqb (fst e) (fst issue)) map with
       | Some e =>
           if String.eqb (snd e) ""
           then replaceFirst (fun e => String.eqb (fst e) (fst issue)) issue map
           else map
       | None => (map ++ [issue])%list
       end)
    issues map <> [].
Proof.
  revert map. induction issues as [|i issues IH]; intros map Hmap; [exact Hmap|].
  cbn [fold_left]. apply IH.
  destruct (find _ map) as [e|].
  - destruct (String.eqb (snd e) ""); [|exact Hmap].
    destruct map as [|m map]; [congruence|]. cbn [replaceFirst].
    destruct (String.eqb (fst m) (fst i)); discriminate.
  - destruct map; discriminate.
Qed.

Lemma collect_nil (issues : list (string * string)) :
  CategoriesPage.collect issues = [] -> issues = [].
Proof.
  destruct issues as [|i issues]; [reflexivity|]. unfold CategoriesPage.collect.
  cbn [fold_left find app]. intros Hnil. exfalso.
  revert Hnil. apply fold_collect_not_nil. discriminate.
Qed.

Lemma CategorySchema_passes (name : string) (imageUrl : nullish) :
  CategoriesPage.collect (CategoriesPage.CategorySchema name imageUrl) = [] ->
  (2 <=? JsString.length (JsString.trim name))%Z = true
  /\ match imageUrl with
     | Str s => JsString.startsWith (JsString.trim s) "/uploads/"
                || JsString.testHttpScheme (JsString.trim s) = true
     | _ => True
     end.
Proof.
  intros Hnil. apply collect_nil in Hnil. unfold CategoriesPage.CategorySchema in Hnil.
  apply app_eq_nil in Hnil as [Hname Himg]. split.
  - destruct (2 <=? _)%Z; [reflexivity|discriminate].
  - destruct imageUrl as [| |s]; try exact I. cbv zeta in Himg.
    destruct (_ || _); [reflexivity|discriminate].
Qed.

(** What [api] makes of the answer of a handler. *)
Lemma api_run (handler : Io Response) (w : World) :
  Browser.api handler w
  = match handler w with
    | (Done res, w') =>
        if Browser.ok res
        then match body res with
             | BNone => (Thrown (Error "Unexpected end of JSON input"), w')
             | b => (Done b, w')
             end
        else (Thrown (Error (default "Request failed" (Browser.errorOf (body res)))), w')
    | (Thrown _, w') => (Thrown (Error "Request failed"), w')
    end.
Proof.
  unfold Browser.api, Browser.fetch, Browser.parseJson, bind, tryCatch, respondWith, ret, throw.
  destruct (handler w) as [[res|e] w']; [|reflexivity].
  destruct (Browser.ok res); cbn [negb]; [|reflexivity].
  destruct (body res); reflexivity.
Qed.

Lemma api_world (handler : Io Response) (w : World) :
  snd (Browser.api handler w) = snd (handler w).
Proof.
  rewrite api_run. destruct (handler w) as [[res|e] w']; [|reflexivity].
  destruct (Browser.ok res); [|reflexivity]. destruct (body res); reflexivity.
Qed.

(** The body [add] sends is one the server's schema accepts. *)
Lemma addPayload_accepted (d : CategoriesPage.NewDraft) (uploaded : nullish) :
  (2 <=? JsString.length (JsString.trim (CategoriesPage.nd_name d)))%Z = true ->
  match uploaded with
  | Str u => JsString.startsWith u "/uploads/" = true /\ JsString.trim u = u
  | _ => True
  end ->
  Zod.categorySchema (CategoriesPage.addPayload d uploaded)
  = Zod.Success
      (Zod.mkCategoryInput (JsString.trim (CategoriesPage.nd_name d))
         (match uploaded with Str u => Str u | _ => Null end)).
Proof.
  intros Hname Hup. unfold CategoriesPage.addPayload, Zod.categorySchema. cbv zeta.
  cbn [Zod.field].
  rewrite (member_cons_eq "name") by (now rewrite member_cons_ne by discriminate).
  rewrite (member_cons_ne "name" "imageUrl") by discriminate.
  rewrite (member_cons_eq "imageUrl") by reflexivity.
  cbn [Zod.zString Zod.trim Zod.min]. rewrite trim_idempotent, Hname.
  destruct uploaded as [| |u]; [reflexivity|reflexivity|].
  destruct Hup as (Hpre & Htrim).
  unfold Zod.imageUrlSchema, Zod.imageUrlUnion. cbv zeta. rewrite Htrim.
  unfold Zod.imageUrlRefinement. rewrite Hpre, orb_true_r. cbn [orb Zod.emptyToNull].
  destruct (String.eqb_spec u "") as [->|_]; [discriminate Hpre|reflexivity].
Qed.

Lemma category_POST_run (req : Request) (data : Zod.CategoryInput) (w : World) :
  Zod.categorySchema (readJson req) = Zod.Success data ->
  CategoriesRoute.POST req w
  = let id := randomSource w (drawn w) in
    let w1 := snd (draw w) in
    if existsb (prisma.category.hasId id) (categories (db w))
       || existsb (fun c => String.eqb (c_name c) (Zod.ci_name data)) (categories (db w))
    then (Thrown (PrismaError "P2002"), w1)
    else
      let row := mkCategory id (Zod.ci_name data)
                   (applyImage (Zod.ci_imageUrl data) None) (now w) (now w) in
      (Done (mkResponse 201 (BCategory row)),
       emit (EvDbCreate TCategory id)
         (prisma.setCategories (categories (db w) ++ [row])%list w1)).
Proof.
  intros Hparse. unfold CategoriesRoute.POST. rewrite Hparse. cbv zeta.
  unfold bind, prisma.category.create, draw. cbn.
  destruct (_ || _); reflexivity.
Qed.

(** X23. Adding a category without an image.  A draft the page's validation
    lets through is sent with its name trimmed and [imageUrl: null], and
    the server never refuses it as invalid: either the row is inserted under
    the trimmed name, without image, and the page shows it first and resets
    the form; or the id or the name is taken, the store's error surfaces as
    a 500, and the page alerts "Request failed" and keeps list and form.  No
    file is touched either way. *)
Theorem categories_page_add_without_file (p : CategoriesPage.Page) (w : World) :
  CategoriesPage.validateNew (CategoriesPage.create p) = [] ->
  CategoriesPage.nd_file (CategoriesPage.create p) = None ->
  let name := JsString.trim (CategoriesPage.nd_name (CategoriesPage.create p)) in
  let id := randomSource w (drawn w) in
  exists p' w',
    CategoriesPage.add p w = (Done p', w')
    /\ CategoriesPage.createBusy p' = false
    /\ fs w' = fs w
    /\ if existsb (prisma.category.hasId id) (categories (db w))
          || existsb (fun c => String.eqb (c_name c) name) (categories (db w))
       then db w' = db w
            /\ CategoriesPage.items p' = CategoriesPage.items p
            /\ CategoriesPage.create p' = CategoriesPage.create p
            /\ CategoriesPage.alerts p' = (CategoriesPage.alerts p ++ ["Request failed"])%list
       else let c := mkCategory id name None (now w) (now w) in
            categories (db w') = (categories (db w) ++ [c])%list
            /\ CategoriesPage.items p' = c :: CategoriesPage.items p
            /\ CategoriesPage.create p' = CategoriesPage.mkNewDraft "" Undefined None None
            /\ CategoriesPage.alerts p' = CategoriesPage.alerts p.
Proof.
  intros Hvalid Hfile. cbv zeta.
  destruct (CategorySchema_passes _ _ Hvalid) as (Hname & _).
  unfold CategoriesPage.add. rewrite Hvalid. cbv zeta.
  cbn [CategoriesPage.create CategoriesPage.setCreateBusy CategoriesPage.setCreateErrors].
  rewrite Hfile. cbn [CategoriesPage.upload].
  unfold tryCatch at 1. unfold bind at 1. unfold bind at 1. unfold ret at 1.
  unfold tryCatch at 1. unfold bind at 1.
  rewrite api_run.
  rewrite (category_POST_run
             (Browser.jsonRequest (CategoriesPage.addPayload (CategoriesPage.create p) Null))
             _ w (addPayload_accepted _ Null Hname I)).
  cbv zeta. cbn [Zod.ci_name Zod.ci_imageUrl applyImage].
  destruct (_ || _).
  - cbn. eexists _, _. split; [reflexivity|]. cbn. repeat split.
  - cbn. eexists _, _. split; [reflexivity|]. cbn. repeat split.
Qed.

Lemma categories_page_add_without_file_witness :
  let p := CategoriesPage.setCreate (CategoriesPage.mkNewDraft " Media " Undefined None None)
             CategoriesPage.initial in
  let w := demoWorld None in
  let name := JsString.trim (CategoriesPage.nd_name (CategoriesPage.create p)) in
  let id := randomSource w (drawn w) in
  (CategoriesPage.validateNew (CategoriesPage.create p) = []
   /\ CategoriesPage.nd_file (CategoriesPage.create p) = None)
  /\ exists p' w',
    CategoriesPage.add p w = (Done p', w')
    /\ CategoriesPage.createBusy p' = false
    /\ fs w' = fs w
    /\ if existsb (prisma.category.hasId id) (categories (db w))
          || existsb (fun c => String.eqb (c_name c) name) (categories (db w))
       then db w' = db w
            /\ CategoriesPage.items p' = CategoriesPage.items p
            /\ CategoriesPage.create p' = CategoriesPage.create p
            /\ CategoriesPage.alerts p' = (CategoriesPage.alerts p ++ ["Request failed"])%list
       else let c := mkCategory id name None (now w) (now w) in
            categories (db w') = (categories (db w) ++ [c])%list
            /\ CategoriesPage.items p' = c :: CategoriesPage.items p
            /\ CategoriesPage.create p' = CategoriesPage.mkNewDraft "" Undefined None None
            /\ CategoriesPage.alerts p' = CategoriesPage.alerts p.
Proof.
  intros p w. split; [split; reflexivity|].
  apply (categories_page_add_without_file p w); reflexivity.
Defined.

Lemma trimEnd_append (x e : string) :
  JsString.trimEnd e = e -> e <> "" -> JsString.trimEnd (x ++ e) = x ++ e.
Proof.
  intros He Hne. induction x as [|c x IH]; [exact He|].
  rewrite append_cons. cbn [JsString.trimEnd]. cbv zeta. rewrite IH.
  destruct (String.eqb_spec (x ++ e) "") as [Heq|_].
  - apply append_is_empty in Heq as [_ Heq]. contradiction.
  - now rewrite andb_false_r.
Qed.

(** The address an upload hands out is already trimmed. *)
Lemma uploaded_address_trimmed (x type : string) :
  JsString.trim ("/uploads/" ++ x ++ extensionOf type) = "/uploads/" ++ x ++ extensionOf type.
Proof.
  unfold JsString.trim.
  replace ("/uploads/" ++ x ++ extensionOf type)
    with (("/uploads/" ++ x) ++ extensionOf type) by apply append_assoc.
  change (JsString.trimStart (("/uploads/" ++ x) ++ extensionOf type))
    with (("/uploads/" ++ x) ++ extensionOf type).
  apply trimEnd_append; unfold extensionOf;
    repeat destruct (String.eqb _ _); (reflexivity || discriminate).
Qed.

Lemma upload_run (f : File) (w : World) :
  UploadRoute.ALLOWED_has (declaredType f) = true ->
  (file_size f <= 5 * 1024 * 1024)%Z ->
  readonly (fs w) = ∅ ->
  let name := UploadRoute.decimal (now w) ++ "_" ++ randomSource w (drawn w)
              ++ extensionOf (declaredType f) in
  let path := (cwd w ++ "/public/uploads") ++ "/" ++ name in
  exists w',
    CategoriesPage.upload (Some f) w = (Done (Str ("/uploads/" ++ name)), w')
    /\ files (fs w') = <[path := file_bytes f]> (files (fs w))
    /\ db w' = db w
    /\ log w' = (log w ++ [EvWriteFile path])%list
    /\ cwd w' = cwd w
    /\ readonly (fs w') = readonly (fs w)
    /\ now w' = now w
    /\ randomSource w' = randomSource w
    /\ drawn w' = S (drawn w).
Proof.
  intros Htype Hsize Hro. cbv zeta.
  destruct (POST_stored (uploadRequest f) [("file", FormFile f)] f w
              eq_refl eq_refl Htype Hsize Hro)
    as (w' & Hrun & Hfiles & _ & Hdb & _ & Hcwd & Hro' & Hlog & Hnow & Hrnd & Hdrawn).
  cbv zeta in Hrun, Hfiles, Hlog.
  exists w'. unfold CategoriesPage.upload, Browser.fetch, Next.handle.
  cbn [uploadRouteExports]. unfold tryCatch, bind. rewrite Hrun.
  cbn. repeat split; assumption.
Qed.

Lemma uploaded_name_trimmed (stamp rnd type : string) :
  JsString.trim ("/uploads/" ++ stamp ++ "_" ++ rnd ++ extensionOf type)
  = "/uploads/" ++ stamp ++ "_" ++ rnd ++ extensionOf type.
Proof.
  replace (stamp ++ "_" ++ rnd ++ extensionOf type)
    with ((stamp ++ "_" ++ rnd) ++ extensionOf type) by (now rewrite !append_assoc).
  apply uploaded_address_trimmed.
Qed.

(** The cleanup request finds no handler: it is answered 405 and changes
    nothing. *)
Lemma page_cleanup_run (uploaded : nullish) (w : World) :
  CategoriesPage.cleanup uploaded w = (Done tt, w).
Proof.
  unfold CategoriesPage.cleanup. destruct uploaded as [| |u]; try reflexivity.
  destruct (negb (String.eqb u "") && JsString.startsWith u "/uploads/"); reflexivity.
Qed.

(** X24. An image uploaded for a category that is then refused stays behind.  A
    valid draft with a file of an allowed type and size, under a name some
    category already has: the file is written, the insert fails on the
    unique name, the page alerts "Request failed", and the cleanup request
    [DELETE /api/upload] unlinks nothing.  The tables are as before, and the
    uploaded file is in the uploads directory with no record naming it. *)
Theorem categories_page_add_leaves_upload_behind (p : CategoriesPage.Page) (f : File)
    (w : World) :
  CategoriesPage.validateNew (CategoriesPage.create p) = [] ->
  CategoriesPage.nd_file (CategoriesPage.create p) = Some f ->
  UploadRoute.ALLOWED_has (declaredType f) = true ->
  (file_size f <= 5 * 1024 * 1024)%Z ->
  readonly (fs w) = ∅ ->
  existsb (fun c => String.eqb (c_name c)
                      (JsString.trim (CategoriesPage.nd_name (CategoriesPage.create p))))
    (categories (db w)) = true ->
  let name := UploadRoute.decimal (now w) ++ "_" ++ randomSource w (drawn w)
              ++ extensionOf (declaredType f) in
  let path := (cwd w ++ "/public/uploads") ++ "/" ++ name in
  exists p' w',
    CategoriesPage.add p w = (Done p', w')
    /\ db w' = db w
    /\ files (fs w') = <[path := file_bytes f]> (files (fs w))
    /\ newEvents w w' = [EvWriteFile path]
    /\ CategoriesPage.items p' = CategoriesPage.items p
    /\ CategoriesPage.alerts p' = (CategoriesPage.alerts p ++ ["Request failed"])%list.
Proof.
  intros Hvalid Hfile Htype Hsize Hro Htaken. cbv zeta.
  destruct (CategorySchema_passes _ _ Hvalid) as (Hname & _).
  destruct (upload_run f w Htype Hsize Hro)
    as (w1 & Hup & Hfiles & Hdb & Hlog & _).
  cbv zeta in Hup, Hfiles, Hlog.
  set (url := "/uploads/" ++ UploadRoute.decimal (now w) ++ "_" ++ randomSource w (drawn w)
              ++ extensionOf (declaredType f)) in *.
  assert (Hurl : JsString.startsWith url "/uploads/" = true /\ JsString.trim url = url).
  { split; [apply prefix_append|apply uploaded_name_trimmed]. }
  unfold CategoriesPage.add. rewrite Hvalid. cbv zeta.
  cbn [CategoriesPage.create CategoriesPage.setCreateBusy CategoriesPage.setCreateErrors].
  rewrite Hfile.
  unfold tryCatch at 1. unfold bind at 1. unfold bind at 1. rewrite Hup.
  unfold tryCatch at 1. unfold bind at 1.
  rewrite api_run.
  rewrite (category_POST_run
             (Browser.jsonRequest (CategoriesPage.addPayload (CategoriesPage.create p) (Str url)))
             _ w1 (addPayload_accepted _ (Str url) Hname Hurl)).
  cbv zeta. cbn [Zod.ci_name Zod.ci_imageUrl applyImage].
  rewrite Hdb, Htaken, orb_true_r.
  unfold bind. rewrite page_cleanup_run. unfold ret.
  eexists _, _. split; [reflexivity|]. cbn.
  split; [exact Hdb|]. split; [exact Hfiles|].
  split; [apply newEvents_app; exact Hlog|]. split; reflexivity.
Qed.

Lemma categories_page_add_leaves_upload_behind_witness :
  let f := mkFile (Some "logo.png") "image/png" [Byte.x89; Byte.x50] in
  let p := CategoriesPage.setCreate
             (CategoriesPage.mkNewDraft "Exchange " Undefined (Some f) (Some "blob:1"))
             CategoriesPage.initial in
  let w := demoWorld None in
  let name := UploadRoute.decimal (now w) ++ "_" ++ randomSource w (drawn w)
              ++ extensionOf (declaredType f) in
  let path := (cwd w ++ "/public/uploads") ++ "/" ++ name in
  CategoriesPage.validateNew (CategoriesPage.create p) = []
  /\ exists p' w',
    CategoriesPage.add p w = (Done p', w')
    /\ db w' = db w
    /\ files (fs w') = <[path := file_bytes f]> (files (fs w))
    /\ newEvents w w' = [EvWriteFile path]
    /\ CategoriesPage.items p' = CategoriesPage.items p
    /\ CategoriesPage.alerts p' = (CategoriesPage.alerts p ++ ["Request failed"])%list.
Proof.
  intros f p w. split; [reflexivity|].
  apply (categories_page_add_leaves_upload_behind p f w);
    [reflexivity | reflexivity | reflexivity | vm_compute; discriminate
    | reflexivity | reflexivity].
Defined.

Section PageEdits.
Context `{Host}.

(** A PUT whose body has no member [imageUrl] leaves image and files. *)
Lemma update_omitted_image (k : Kind) (req : Request) (id : string) (w : World) :
  Zod.field (readJson req) "imageUrl" = None ->
  imageOf k id (db (snd (update k req id w))) = imageOf k id (db w)
  /\ fs (snd (update k req id w)) = fs w
  /\ ~ deletionAttempted w (snd (update k req id w)).
Proof.
  intros Homit. unfold deletionAttempted.
  destruct (parsedImage k req) as [sig|] eqn:Hp.
  - pose proof (parsedImage_omitted k req sig Homit Hp) as ->.
    destruct (imageOf k id (db w)) as [old|] eqn:Hold.
    + destruct (update_found k req id w Undefined old Hp Hold)
        as [(e & ->)|(resp & w' & -> & _ & _ & Himg & Hlog & Hfs)]; cbn [snd].
      * rewrite Hold, newEvents_same. cbn. auto.
      * assert (Hnone : cleanupOf Undefined old w = [])
          by (unfold cleanupOf; destruct (decide _) as [[Hu _]|]; [congruence|reflexivity]).
        rewrite Hnone in Hlog. rewrite (newEvents_app _ _ _ Hlog).
        cbn. rewrite Himg. auto.
    + rewrite (update_not_found k req id w Undefined Hp Hold). cbn [snd].
      rewrite Hold, newEvents_same. cbn. auto.
  - destruct (update_rejected k req id w Hp) as (issues & ->). cbn [snd].
    rewrite newEvents_same. cbn. auto.
Qed.

(** Without a file chosen, [save] makes at most one request, the PUT. *)
Lemma save_without_file_world (d : CategoriesPage.EditDraft) (p : CategoriesPage.Page)
    (w : World) :
  CategoriesPage.edit p = Some d ->
  CategoriesPage.ed_file d = None ->
  let uploaded := match CategoriesPage.ed_imageUrl d with Null => Undefined | v => v end in
  let req := Browser.jsonRequest (CategoriesPage.savePayload d uploaded) in
  snd (CategoriesPage.save p w) = w
  \/ (CategoriesPage.validateEdit d = []
      /\ snd (CategoriesPage.save p w)
         = snd (CategoriesIdRoute.PUT req (CategoriesPage.ed_id d) w)).
Proof.
  intros Hedit Hfile. cbv zeta. unfold CategoriesPage.save. rewrite Hedit. cbv zeta.
  destruct (CategoriesPage.validateEdit d) as [|e errs]; [|now left].
  right. split; [reflexivity|]. rewrite Hfile.
  unfold tryCatch at 1. unfold bind at 1. unfold bind at 1. unfold ret at 1.
  unfold tryCatch at 1. unfold bind at 1.
  set (req := Browser.jsonRequest _).
  pose proof (api_world (CategoriesIdRoute.PUT req (CategoriesPage.ed_id d)) w) as Hapi.
  destruct (Browser.api (CategoriesIdRoute.PUT req (CategoriesPage.ed_id d)) w)
    as [[b|e] w1]; cbn [snd] in Hapi; subst w1.
  - reflexivity.
  - unfold bind. rewrite page_cleanup_run. reflexivity.
Qed.

(** X25. Edit, then Save with the image untouched: [startEdit] leaves the image
    of the draft [undefined], so the body [save] sends has no member
    [imageUrl], whatever is typed into the name.  The image of the category
    is then what it was, no file is touched, and no deletion is attempted,
    whether the server answers 200, 400, 404 or fails. *)
Theorem categories_page_edit_keeps_image (c : Category) (name : string)
    (p : CategoriesPage.Page) (w : World) :
  let d := CategoriesPage.mkEditDraft (c_id c) name Undefined None None in
  let p1 := CategoriesPage.setEdit (Some d) (CategoriesPage.startEdit c p) in
  let w' := snd (CategoriesPage.save p1 w) in
  CategoriesPage.edit (CategoriesPage.startEdit c p)
  = Some (CategoriesPage.mkEditDraft (c_id c) (c_name c) Undefined None None)
  /\ imageOf KCategory (c_id c) (db w') = imageOf KCategory (c_id c) (db w)
  /\ fs w' = fs w
  /\ ~ deletionAttempted w w'.
Proof.
  cbv zeta. split; [reflexivity|].
  set (d := CategoriesPage.mkEditDraft (c_id c) name Undefined None None).
  destruct (save_without_file_world d
              (CategoriesPage.setEdit (Some d) (CategoriesPage.startEdit c p)) w
              eq_refl eq_refl) as [->|[_ ->]].
  - unfold deletionAttempted. rewrite newEvents_same. cbn. auto.
  - apply (update_omitted_image KCategory _ (c_id c) w). reflexivity.
Qed.

End PageEdits.

(** * The partners page *)

Section PartnerPageProperties.
Context `{Host}.

Lemma PartnerFormSchema_passes (d : PartnersPage.PartnerFormState) :
  PartnersPage.validateDraft d = [] ->
  (2 <=? JsString.length (JsString.trim (PartnersPage.fs_name d)))%Z = true
  /\ (exists c, PartnersPage.fs_categoryId d = Some c /\ (1 <=? JsString.length c)%Z = true)
  /\ isUrl (JsString.trim (PartnersPage.fs_link d)) = true
  /\ match PartnersPage.fs_imageUrl d with
     | Str s => JsString.startsWith (JsString.trim s) "/uploads/"
                || JsString.testHttpScheme (JsString.trim s) = true
     | _ => True
     end.
Proof.
  intros Hnil. apply collect_nil in Hnil. unfold PartnersPage.PartnerFormSchema in Hnil.
  apply app_eq_nil in Hnil as [Hname Hnil].
  apply app_eq_nil in Hnil as [Hcat Hnil].
  apply app_eq_nil in Hnil as [Hlink Himg].
  split; [destruct (2 <=? _)%Z; [reflexivity|discriminate]|].
  split.
  { destruct (PartnersPage.fs_categoryId d) as [c|]; [|discriminate].
    exists c. split; [reflexivity|]. destruct (1 <=? _)%Z; [reflexivity|discriminate]. }
  split; [destruct (isUrl _); [reflexivity|discriminate]|].
  destruct (PartnersPage.fs_imageUrl d) as [| |s]; try exact I. cbv zeta in Himg.
  destruct (_ || _); [reflexivity|discriminate].
Qed.

(** What the image of a draft parses to on the server. *)
Lemma client_image_accepted (s : string) :
  JsString.startsWith (JsString.trim s) "/uploads/"
  || JsString.testHttpScheme (JsString.trim s) = true ->
  Zod.imageUrlSchema (Some (JString s)) = Some (Str (JsString.trim s)).
Proof.
  intros Hshape. unfold Zod.imageUrlSchema, Zod.imageUrlUnion. cbv zeta.
  unfold Zod.imageUrlRefinement. rewrite <- orb_assoc, Hshape, orb_true_r.
  unfold Zod.emptyToNull.
  destruct (String.eqb_spec (JsString.trim s) "") as [Hempty|_]; [|reflexivity].
  rewrite Hempty in Hshape. discriminate Hshape.
Qed.

(** The body [submitDraft] sends for a draft that passed [validateDraft],
    with no file chosen, is one [partnerSchema] accepts. *)
Lemma partner_payload_accepted (d : PartnersPage.PartnerFormState) :
  PartnersPage.validateDraft d = [] ->
  let kept := match PartnersPage.fs_imageUrl d with Undefined => Null | v => v end in
  exists c,
    PartnersPage.fs_categoryId d = Some c
    /\ Zod.partnerSchema (PartnersPage.payload d kept)
       = Zod.Success
           (Zod.mkPartnerInput (JsString.trim (PartnersPage.fs_name d)) c
              (JsString.trim (PartnersPage.fs_link d)) (PartnersPage.fs_featured d)
              (match PartnersPage.fs_imageUrl d with
               | Str s => Str (JsString.trim s)
               | _ => Null
               end)).
Proof.
  intros Hvalid. cbv zeta.
  destruct (PartnerFormSchema_passes d Hvalid) as (Hname & (c & Hc & Hcat) & Hlink & Himg).
  exists c. split; [exact Hc|].
  unfold PartnersPage.payload, Zod.partnerSchema. cbv zeta. rewrite Hc.
  set (img := match match PartnersPage.fs_imageUrl d with Undefined => Null | v => v end with
              | Undefined => []
              | Null => [("imageUrl", JNull)]
              | Str u => [("imageUrl", JString u)]
              end).
  assert (Himage : Zod.imageUrlSchema (Zod.member img "imageUrl")
                   = Some (match PartnersPage.fs_imageUrl d with
                           | Str s => Str (JsString.trim s)
                           | _ => Null
                           end)).
  { subst img. destruct (PartnersPage.fs_imageUrl d) as [| |s]; [reflexivity|reflexivity|].
    cbn [Zod.member]. rewrite String.eqb_refl. now apply client_image_accepted. }
  assert (Hother : forall key, key <> "imageUrl" -> Zod.member img key = None).
  { intros key Hkey. subst img.
    destruct (PartnersPage.fs_imageUrl d) as [| |s]; cbn [Zod.member];
      destruct (String.eqb_spec "imageUrl" key); congruence. }
  cbn [Zod.field app].
  rewrite (member_cons_eq "name")
    by (rewrite !member_cons_ne by discriminate; now apply Hother).
  rewrite (member_cons_ne "name" "categoryId") by discriminate.
  rewrite (member_cons_eq "categoryId")
    by (rewrite !member_cons_ne by discriminate; now apply Hother).
  rewrite !(member_cons_ne _ "link") by discriminate.
  rewrite (member_cons_eq "link")
    by (rewrite !member_cons_ne by discriminate; now apply Hother).
  rewrite !(member_cons_ne _ "featured") by discriminate.
  rewrite (member_cons_eq "featured") by (now apply Hother).
  rewrite !(member_cons_ne _ "imageUrl") by discriminate.
  rewrite Himage. cbn [Zod.zString Zod.zBoolean Zod.min Zod.url].
  now rewrite Hname, Hcat, Hlink.
Qed.

End PartnerPageProperties.

(** What [api] makes of an answer that is 200 or 201 with a record, 404
    "Not found", or an exception. *)
Lemma api_of_save (handler : Io Response) (w : World) :
  match handler w with
  | (Done res, _) =>
      ((status res = 200 \/ status res = 201) /\ bodyImage (body res) <> None)
      \/ res = mkResponse 404 (BError "Not found")
  | (Thrown _, _) => True
  end ->
  (exists b, Browser.api handler w = (Done b, snd (handler w)) /\ bodyImage b <> None)
  \/ Browser.api handler w = (Thrown (Error "Request failed"), snd (handler w))
  \/ Browser.api handler w = (Thrown (Error "Not found"), snd (handler w)).
Proof.
  rewrite api_run. destruct (handler w) as [[res|e] w']; cbn [snd]; [|auto].
  intros [[Hst Hbody]| ->]; [|right; right; reflexivity].
  left. exists (body res). split; [|exact Hbody].
  assert (Hok : Browser.ok res = true)
    by (unfold Browser.ok; destruct Hst as [-> | ->]; reflexivity).
  rewrite Hok. destruct (body res); try reflexivity. now cbn in Hbody.
Qed.

Section PartnerPageFlows.
Context `{Host}.

Lemma partner_POST_answers (req : Request) (w : World) (sig : nullish) :
  parsedImage KPartner req = Some sig ->
  match PartnersRoute.POST req w with
  | (Done res, _) =>
      ((status res = 200 \/ status res = 201) /\ bodyImage (body res) <> None)
      \/ res = mkResponse 404 (BError "Not found")
  | (Thrown _, _) => True
  end.
Proof.
  intros Hp.
  destruct (create_accepted KPartner req w sig Hp)
    as [(e & w' & Hrun & _)|(resp & w' & Hrun & Hst & Hbody & _)];
    cbn [create] in Hrun; rewrite Hrun; [exact I|].
  left. split; [now right|]. now rewrite Hbody.
Qed.

Lemma partner_PUT_answers (req : Request) (id : string) (w : World) (sig : nullish) :
  parsedImage KPartner req = Some sig ->
  match PartnersIdRoute.PUT req id w with
  | (Done res, _) =>
      ((status res = 200 \/ status res = 201) /\ bodyImage (body res) <> None)
      \/ res = mkResponse 404 (BError "Not found")
  | (Thrown _, _) => True
  end.
Proof.
  intros Hp. destruct (imageOf KPartner id (db w)) as [old|] eqn:Hold.
  - destruct (update_found KPartner req id w sig old Hp Hold)
      as [(e & Hrun)|(resp & w' & Hrun & Hst & Hbody & _)];
      cbn [update] in Hrun; rewrite Hrun; [exact I|].
    left. split; [now left|]. now rewrite Hbody.
  - pose proof (update_not_found KPartner req id w sig Hp Hold) as Hrun.
    cbn [update] in Hrun. rewrite Hrun. now right.
Qed.

(** X26. A partner draft that passes the form's validation is never refused by
    the server as invalid input.  With no file chosen, [submitDraft] ends in
    one of three ways: the record is saved and the dialog closed; the alert
    is "Not found" (the edited partner is gone); or the alert is "Request
    failed" (the store refused the write, for one a category that does not
    exist). *)
Theorem partners_page_valid_draft_is_accepted (p : PartnersPage.Page)
    (d : PartnersPage.PartnerFormState) (w : World) :
  PartnersPage.draft p = Some d ->
  PartnersPage.validateDraft d = [] ->
  PartnersPage.fs_file d = None ->
  exists p' w',
    PartnersPage.submitDraft p w = (Done p', w')
    /\ PartnersPage.saving p' = false
    /\ ((PartnersPage.formAlert p' = None
         /\ PartnersPage.draft p' = None
         /\ PartnersPage.modalOpen p' = false)
        \/ PartnersPage.formAlert p' = Some "Request failed"
        \/ PartnersPage.formAlert p' = Some "Not found").
Proof.
  intros Hdraft Hvalid Hfile.
  destruct (partner_payload_accepted d Hvalid) as (c & Hc & Hschema). cbv zeta in Hschema.
  set (kept := match PartnersPage.fs_imageUrl d with Undefined => Null | v => v end) in *.
  set (req := Browser.jsonRequest (PartnersPage.payload d kept)).
  assert (Hp : parsedImage KPartner req
               = Some (match PartnersPage.fs_imageUrl d with
                       | Str s => Str (JsString.trim s)
                       | _ => Null
                       end)).
  { cbn [parsedImage]. subst req. unfold Browser.jsonRequest, readJson.
    cbn [jsonBody]. now rewrite Hschema. }
  unfold PartnersPage.submitDraft. rewrite Hdraft, Hvalid. cbv zeta.
  unfold PartnersPage.uploadFileIfNeeded.
  cbn [PartnersPage.draft PartnersPage.setFormAlert PartnersPage.setSaving
       PartnersPage.setErrors].
  rewrite Hdraft, Hfile. fold kept.
  unfold tryCatch at 1. unfold bind at 1. unfold bind at 1. unfold ret at 1.
  fold req.
  unfold tryCatch at 1. unfold bind at 1.
  assert (Hcases :
    forall (handler : Io Response) (g : Body -> PartnersPage.Page),
      (forall b, PartnersPage.formAlert (g b) = None) ->
      match handler w with
      | (Done res, _) =>
          ((status res = 200 \/ status res = 201) /\ bodyImage (body res) <> None)
          \/ res = mkResponse 404 (BError "Not found")
      | (Thrown _, _) => True
      end ->
      exists p' w',
        (let (o, w1) := (let* r := Browser.api handler in ret (g r)) w in
         match o with
         | Done a => ret (PartnersPage.setDraft None (PartnersPage.setModalOpen false a)) w1
         | Thrown e => (Thrown e, w1)
         end) = (p', w')
        /\ match p' with
           | Done a => PartnersPage.formAlert a = None /\ PartnersPage.draft a = None
                       /\ PartnersPage.modalOpen a = false
           | Thrown e => e = Error "Request failed" \/ e = Error "Not found"
           end).
  { intros handler g Hg Hans. unfold bind at 1.
    destruct (api_of_save handler w Hans) as [(b & -> & _)|[-> | ->]].
    - eexists _, _. split; [reflexivity|]. cbn. now rewrite Hg.
    - eexists _, _. split; [reflexivity|]. now left.
    - eexists _, _. split; [reflexivity|]. now right. }
  assert (Hclean : forall w1, PartnersPage.cleanup d kept w1 = (Done tt, w1)).
  { intros w1. unfold PartnersPage.cleanup.
    destruct (PartnersPage.fs_id d) as [id|]; [|reflexivity].
    destruct (String.eqb id ""); [reflexivity|apply page_cleanup_run]. }
  assert (Hend : forall (o : outcome PartnersPage.Page) (w1 : World) (p0 : PartnersPage.Page),
    match o with
    | Done a => PartnersPage.formAlert a = None /\ PartnersPage.draft a = None
                /\ PartnersPage.modalOpen a = false
    | Thrown e => e = Error "Request failed" \/ e = Error "Not found"
    end ->
    exists p' w',
      (let (o0, w0) :=
         (let (o', w') :=
            match o with
            | Done a => (Done a, w1)
            | Thrown e => (PartnersPage.cleanup d kept ;; ret (PartnersPage.failed e p0)) w1
            end in
          match o' with
          | Done a => (Done a, w')
          | Thrown e => ret (PartnersPage.failed e p0) w'
          end) in
       match o0 with
       | Done a => ret (PartnersPage.setSaving false a) w0
       | Thrown e => (Thrown e, w0)
       end) = (Done p', w')
      /\ PartnersPage.saving p' = false
      /\ ((PartnersPage.formAlert p' = None /\ PartnersPage.draft p' = None
           /\ PartnersPage.modalOpen p' = false)
          \/ PartnersPage.formAlert p' = Some "Request failed"
          \/ PartnersPage.formAlert p' = Some "Not found")).
  { intros o w1 p0 Ho. destruct o as [a|e].
    - eexists _, _. split; [reflexivity|]. split; [reflexivity|]. left. exact Ho.
    - unfold bind. rewrite Hclean. eexists _, _. split; [reflexivity|].
      split; [reflexivity|].
      right. destruct Ho as [-> | ->]; [left|right]; reflexivity. }
  destruct (PartnersPage.fs_id d) as [id|]; [destruct (String.eqb id "")|].
  - edestruct Hcases as (o & w1 & Hrun & Ho);
      [|apply (partner_POST_answers req w _ Hp)|rewrite Hrun; now apply Hend].
    intros b. destruct b; reflexivity.
  - edestruct Hcases as (o & w1 & Hrun & Ho);
      [|apply (partner_PUT_answers req id w _ Hp)|rewrite Hrun; now apply Hend].
    intros b. destruct b; reflexivity.
  - edestruct Hcases as (o & w1 & Hrun & Ho);
      [|apply (partner_POST_answers req w _ Hp)|rewrite Hrun; now apply Hend].
    intros b. destruct b; reflexivity.
Qed.

End PartnerPageFlows.

Lemma partners_page_valid_draft_is_accepted_witness :
  let d := PartnersPage.mkPartnerFormState (Some "p1") " OKX " (Some "c1")
             "https://okx.com " true (Str "/uploads/a.jpg") None None in
  let p := PartnersPage.mkPage [] [] false None true (Some d) [] None false [] in
  let w := demoWorld (Some "/uploads/a.jpg") in
  @PartnersPage.validateDraft demoHost d = []
  /\ exists p' w',
    @PartnersPage.submitDraft demoHost p w = (Done p', w')
    /\ PartnersPage.saving p' = false
    /\ ((PartnersPage.formAlert p' = None
         /\ PartnersPage.draft p' = None
         /\ PartnersPage.modalOpen p' = false)
        \/ PartnersPage.formAlert p' = Some "Request failed"
        \/ PartnersPage.formAlert p' = Some "Not found").
Proof.
  intros d p w. split; [reflexivity|].
  apply (@partners_page_valid_draft_is_accepted demoHost p d w); reflexivity.
Defined.

Section PartnerPageEdit.
Context `{Host}.

(** Without a file chosen, [submitDraft] of an edit makes at most one
    request, the PUT. *)
Lemma submit_without_file_world (d : PartnersPage.PartnerFormState) (id : string)
    (p : PartnersPage.Page) (w : World) :
  PartnersPage.draft p = Some d ->
  PartnersPage.fs_id d = Some id ->
  id <> "" ->
  PartnersPage.fs_file d = None ->
  let kept := match PartnersPage.fs_imageUrl d with Undefined => Null | v => v end in
  let req := Browser.jsonRequest (PartnersPage.payload d kept) in
  snd (PartnersPage.submitDraft p w) = w
  \/ snd (PartnersPage.submitDraft p w) = snd (PartnersIdRoute.PUT req id w).
Proof.
  intros Hdraft Hid Hne Hfile. cbv zeta.
  unfold PartnersPage.submitDraft. rewrite Hdraft. cbv zeta.
  destruct (PartnersPage.validateDraft d) as [|e errs]; [|now left].
  right. unfold PartnersPage.uploadFileIfNeeded.
  cbn [PartnersPage.draft PartnersPage.setFormAlert PartnersPage.setSaving
       PartnersPage.setErrors].
  rewrite Hdraft, Hfile, Hid.
  destruct (String.eqb_spec id "") as [|_]; [contradiction|].
  unfold tryCatch at 1. unfold bind at 1. unfold bind at 1. unfold ret at 1.
  unfold tryCatch at 1. unfold bind at 1. unfold bind at 1.
  set (req := Browser.jsonRequest _).
  pose proof (api_world (PartnersIdRoute.PUT req id) w) as Hapi.
  destruct (Browser.api (PartnersIdRoute.PUT req id) w) as [[b|e] w1];
    cbn [snd] in Hapi; subst w1.
  - reflexivity.
  - unfold bind, PartnersPage.cleanup. rewrite Hid.
    destruct (String.eqb id ""); [reflexivity|]. rewrite page_cleanup_run. reflexivity.
Qed.

(** A PUT that sends back the image the record has deletes nothing. *)
Lemma update_same_image (k : Kind) (req : Request) (id : string) (w : World)
    (old : option string) :
  imageOf k id (db w) = Some old ->
  (forall sig, parsedImage k req = Some sig -> sig = ofColumn old) ->
  imageOf k id (db (snd (update k req id w))) = imageOf k id (db w)
  /\ fs (snd (update k req id w)) = fs w
  /\ ~ deletionAttempted w (snd (update k req id w)).
Proof.
  intros Hold Hsame. unfold deletionAttempted.
  destruct (parsedImage k req) as [sig|] eqn:Hp.
  2:{ destruct (update_rejected k req id w Hp) as (issues & ->). cbn [snd].
      rewrite newEvents_same. cbn. auto. }
  pose proof (Hsame sig eq_refl) as ->.
  assert (Hnone : cleanupOf (ofColumn old) old w = []).
  { unfold cleanupOf. destruct (decide _) as [[_ Hd]|]; [congruence|reflexivity]. }
  destruct (update_found k req id w (ofColumn old) old Hp Hold)
    as [(e & ->)|(resp & w' & -> & _ & _ & Himg & Hlog & Hfs)]; cbn [snd].
  - rewrite newEvents_same. cbn. auto.
  - rewrite Hnone in Hlog. rewrite (newEvents_app _ _ _ Hlog). cbn.
    rewrite Himg, Hold. split; [|split; [now apply Hfs|discriminate]].
    destruct old; reflexivity.
Qed.

(** When the PUT of an edit fails, [submitDraft] runs the cleanup of the
    [catch] block on what [uploadFileIfNeeded] returned, and then shows the
    error. *)
Lemma submit_failed_edit (d : PartnersPage.PartnerFormState) (id : string)
    (p : PartnersPage.Page) (w w1 : World) (e : Exn) :
  PartnersPage.draft p = Some d ->
  PartnersPage.validateDraft d = [] ->
  PartnersPage.fs_id d = Some id ->
  id <> "" ->
  PartnersPage.fs_file d = None ->
  let kept := match PartnersPage.fs_imageUrl d with Undefined => Null | v => v end in
  let req := Browser.jsonRequest (PartnersPage.payload d kept) in
  let p2 := PartnersPage.setFormAlert None
              (PartnersPage.setSaving true (PartnersPage.setErrors [] p)) in
  Browser.api (PartnersIdRoute.PUT req id) w = (Thrown e, w1) ->
  PartnersPage.submitDraft p w
  = (PartnersPage.cleanup d kept ;;
     ret (PartnersPage.setSaving false (PartnersPage.failed e p2))) w1.
Proof.
  intros Hdraft Hvalid Hid Hne Hfile kept req p2 Hrun.
  assert (Hclean : PartnersPage.cleanup d kept w1 = (Done tt, w1)).
  { unfold PartnersPage.cleanup. rewrite Hid.
    destruct (String.eqb id ""); [reflexivity|apply page_cleanup_run]. }
  transitivity (Done (PartnersPage.setSaving false (PartnersPage.failed e p2)), w1);
    [|unfold bind; now rewrite Hclean].
  unfold PartnersPage.submitDraft. rewrite Hdraft, Hvalid. cbv zeta.
  unfold PartnersPage.uploadFileIfNeeded.
  cbn [PartnersPage.draft PartnersPage.setFormAlert PartnersPage.setSaving
       PartnersPage.setErrors].
  rewrite Hdraft, Hfile, Hid.
  destruct (String.eqb_spec id "") as [|_]; [contradiction|].
  unfold tryCatch at 1. unfold bind at 1. unfold bind at 1. unfold ret at 1.
  unfold tryCatch at 1. unfold bind at 1. unfold bind at 1.
  fold kept. fold req. rewrite Hrun.
  unfold bind. rewrite Hclean. reflexivity.
Qed.

(** X27. Edit, then Save with the image untouched.  The draft [openEdit] makes
    carries the image of the row, and [submitDraft] sends it back (or
    [null] when there is none).  When the row is the stored one and its
    image is an address as the server stores them, the image of the partner
    is afterwards what it was, and no file is written or unlinked, whatever
    was typed into the other fields and whatever the server answers.  The
    page does ask for a deletion, though: when the PUT fails, the [catch]
    block runs its cleanup on the image the draft kept, and for an image
    below [/uploads/] that is the request [DELETE /api/upload?url=...] for
    the file the partner still has.  The file survives because the upload
    route exports no DELETE handler: the request is answered 405 and
    changes nothing. *)
Theorem partners_page_edit_keeps_image (row : Partner) (name link : string)
    (categoryId : option string) (featured : bool) (p : PartnersPage.Page) (w : World) :
  find (prisma.partner.hasId (p_id row)) (partners (db w)) = Some row ->
  p_id row <> "" ->
  (forall s, p_imageUrl row = Some s -> isAddress s) ->
  let image := match p_imageUrl row with Some s => Str s | None => Undefined end in
  let d := PartnersPage.mkPartnerFormState (Some (p_id row)) name categoryId link featured
             image None None in
  let p1 := PartnersPage.setDraft (Some d) (PartnersPage.openEdit row p) in
  let w' := snd (PartnersPage.submitDraft p1 w) in
  let kept := match PartnersPage.fs_imageUrl d with Undefined => Null | v => v end in
  let put := PartnersIdRoute.PUT (Browser.jsonRequest (PartnersPage.payload d kept))
               (p_id row) in
  let p2 := PartnersPage.setFormAlert None
              (PartnersPage.setSaving true (PartnersPage.setErrors [] p1)) in
  PartnersPage.draft (PartnersPage.openEdit row p)
  = Some (PartnersPage.mkPartnerFormState (Some (p_id row)) (p_name row) (p_categoryId row)
            (p_link row) (p_featured row) image None None)
  /\ imageOf KPartner (p_id row) (db w') = imageOf KPartner (p_id row) (db w)
  /\ fs w' = fs w
  /\ ~ deletionAttempted w w'
  /\ (forall e w1,
        PartnersPage.validateDraft d = [] ->
        Browser.api put w = (Thrown e, w1) ->
        PartnersPage.submitDraft p1 w
        = (PartnersPage.cleanup d kept ;;
           ret (PartnersPage.setSaving false (PartnersPage.failed e p2))) w1)
  /\ (forall s,
        p_imageUrl row = Some s ->
        JsString.startsWith s "/uploads/" = true ->
        let undo :=
          Next.handle uploadRouteExports M_DELETE (mkRequest [("url", s)] None None) in
        PartnersPage.cleanup d kept = (Browser.fetch undo ;; ret tt)
        /\ forall w1, undo w1 = (Done (mkResponse 405 BNone), w1)).
Proof.
  intros Hfind Hid Haddr. cbv zeta. split; [reflexivity|].
  set (image := match p_imageUrl row with Some s => Str s | None => Undefined end).
  set (d := PartnersPage.mkPartnerFormState (Some (p_id row)) name categoryId link featured
              image None None).
  assert (Hkeeps :
    imageOf KPartner (p_id row)
      (db (snd (PartnersPage.submitDraft
                  (PartnersPage.setDraft (Some d) (PartnersPage.openEdit row p)) w)))
    = imageOf KPartner (p_id row) (db w)
    /\ fs (snd (PartnersPage.submitDraft
                  (PartnersPage.setDraft (Some d) (PartnersPage.openEdit row p)) w)) = fs w
    /\ ~ deletionAttempted w
           (snd (PartnersPage.submitDraft
                   (PartnersPage.setDraft (Some d) (PartnersPage.openEdit row p)) w))).
  { destruct (submit_without_file_world d (p_id row)
                (PartnersPage.setDraft (Some d) (PartnersPage.openEdit row p)) w
                eq_refl eq_refl Hid eq_refl) as [->| ->].
    - unfold deletionAttempted. rewrite newEvents_same. cbn. auto.
    - apply (update_same_image KPartner _ (p_id row) w (p_imageUrl row)).
      + cbn [imageOf]. now rewrite Hfind.
      + intros sig Hp. apply parsedImage_schema in Hp.
        unfold Browser.jsonRequest, readJson in Hp. cbn [jsonBody] in Hp.
        unfold PartnersPage.payload in Hp. cbn [Zod.field app] in Hp.
        rewrite !(member_cons_ne _ "imageUrl") in Hp by discriminate.
        cbn [PartnersPage.fs_imageUrl d] in Hp. subst image.
        destruct (p_imageUrl row) as [s|].
        * destruct (Haddr s eq_refl) as (Hne & Htrim & Hshape).
          cbn [Zod.member] in Hp. rewrite String.eqb_refl in Hp.
          rewrite client_image_accepted in Hp.
          -- rewrite Htrim in Hp. now injection Hp as <-.
          -- rewrite Htrim. destruct Hshape as [-> | ->]; [reflexivity|apply orb_true_r].
        * cbn in Hp. now injection Hp as <-. }
  destruct Hkeeps as (Himage & Hfs & Hunlink).
  split; [exact Himage|]. split; [exact Hfs|]. split; [exact Hunlink|]. split.
  - intros e w1 Hvalid Hrun.
    apply (submit_failed_edit d (p_id row)
             (PartnersPage.setDraft (Some d) (PartnersPage.openEdit row p)) w w1 e
             eq_refl Hvalid eq_refl Hid eq_refl Hrun).
  - intros s Hs Hlocal. split; [|reflexivity].
    unfold PartnersPage.cleanup. cbn [PartnersPage.fs_id PartnersPage.fs_imageUrl d].
    destruct (String.eqb_spec (p_id row) "") as [|_]; [contradiction|].
    unfold image. rewrite Hs. unfold CategoriesPage.cleanup. rewrite Hlocal.
    destruct (String.eqb_spec s "") as [Hempty|_]; [|reflexivity].
    rewrite Hempty in Hlocal. discriminate Hlocal.
Qed.

End PartnerPageEdit.

Lemma partners_page_edit_keeps_image_witness :
  let row := mkPartner "p1" "OKX" "https://okx.com" true (Some "c1")
               (Some "/uploads/a.jpg") 5 5 in
  let w := demoWorld (Some "/uploads/a.jpg") in
  let p := PartnersPage.mkPage [row] [] false None false None [] None false [] in
  let image := match p_imageUrl row with Some s => Str s | None => Undefined end in
  let d := PartnersPage.mkPartnerFormState (Some (p_id row)) "OKX Global" (Some "nope")
             "https://okx.com" false image None None in
  let p1 := PartnersPage.setDraft (Some d) (@PartnersPage.openEdit demoHost row p) in
  let w' := snd (@PartnersPage.submitDraft demoHost p1 w) in
  let kept := match PartnersPage.fs_imageUrl d with Undefined => Null | v => v end in
  let put := @PartnersIdRoute.PUT demoHost (Browser.jsonRequest (PartnersPage.payload d kept))
               (p_id row) in
  let p2 := PartnersPage.setFormAlert None
              (PartnersPage.setSaving true (PartnersPage.setErrors [] p1)) in
  find (prisma.partner.hasId (p_id row)) (partners (db w)) = Some row
  /\ PartnersPage.draft (@PartnersPage.openEdit demoHost row p)
     = Some (PartnersPage.mkPartnerFormState (Some (p_id row)) (p_name row) (p_categoryId row)
               (p_link row) (p_featured row) image None None)
  /\ imageOf KPartner (p_id row) (db w') = imageOf KPartner (p_id row) (db w)
  /\ fs w' = fs w
  /\ ~ deletionAttempted w w'
  /\ (forall e w1,
        @PartnersPage.validateDraft demoHost d = [] ->
        Browser.api put w = (Thrown e, w1) ->
        @PartnersPage.submitDraft demoHost p1 w
        = (PartnersPage.cleanup d kept ;;
           ret (PartnersPage.setSaving false (PartnersPage.failed e p2))) w1)
  /\ (forall s,
        p_imageUrl row = Some s ->
        JsString.startsWith s "/uploads/" = true ->
        let undo :=
          Next.handle uploadRouteExports M_DELETE (mkRequest [("url", s)] None None) in
        PartnersPage.cleanup d kept = (Browser.fetch undo ;; ret tt)
        /\ forall w1, undo w1 = (Done (mkResponse 405 BNone), w1)).
Proof.
  intros row w p. split; [reflexivity|].
  apply (@partners_page_edit_keeps_image demoHost row "OKX Global" "https://okx.com"
           (Some "nope") false p w).
  - reflexivity.
  - discriminate.
  - intros s [= <-]. split; [discriminate|]. split; [reflexivity|now left].
Defined.

(** The failing edit, run.  The category [nope] does not exist, so the store
    refuses the write and the PUT escapes as a 500; the cleanup then asks
    [DELETE /api/upload] for [/uploads/a.jpg], the image the partner has
    and keeps; the page ends with the alert "Request failed", the dialog
    open, and the world as it was.  With the category [c1] the same edit
    is saved and nothing is asked of the upload route. *)
Example partners_page_failed_edit_asks_for_deletion :
  let row := mkPartner "p1" "OKX" "https://okx.com" true (Some "c1")
               (Some "/uploads/a.jpg") 5 5 in
  let w := demoWorld (Some "/uploads/a.jpg") in
  let p := PartnersPage.mkPage [row] [] false None false None [] None false [] in
  let d category :=
    PartnersPage.mkPartnerFormState (Some "p1") "OKX Global" (Some category)
      "https://okx.com" false (Str "/uploads/a.jpg") None None in
  let p1 category :=
    PartnersPage.setDraft (Some (d category)) (@PartnersPage.openEdit demoHost row p) in
  let put category :=
    @PartnersIdRoute.PUT demoHost
      (Browser.jsonRequest (PartnersPage.payload (d category) (Str "/uploads/a.jpg"))) "p1" in
  let undo :=
    Next.handle uploadRouteExports M_DELETE (mkRequest [("url", "/uploads/a.jpg")] None None) in
  Browser.api (put "nope") w = (Thrown (Error "Request failed"), w)
  /\ PartnersPage.cleanup (d "nope") (Str "/uploads/a.jpg") = (Browser.fetch undo ;; ret tt)
  /\ undo w = (Done (mkResponse 405 BNone), w)
  /\ match @PartnersPage.submitDraft demoHost (p1 "nope") w with
     | (Done p', w') =>
         PartnersPage.formAlert p' = Some "Request failed"
         /\ PartnersPage.modalOpen p' = true
         /\ w' = w
     | _ => False
     end
  /\ match @PartnersPage.submitDraft demoHost (p1 "c1") w with
     | (Done p', w') =>
         PartnersPage.formAlert p' = None
         /\ PartnersPage.modalOpen p' = false
         /\ map p_name (partners (db w')) = ["OKX Global"]
         /\ map p_imageUrl (partners (db w')) = [Some "/uploads/a.jpg"]
         /\ fs w' = fs w
     | _ => False
     end.
Proof.
  cbv zeta. split; [vm_compute; reflexivity|]. split; [reflexivity|].
  split; [reflexivity|]. split; vm_compute; repeat split.
Qed.

(** * The announcements page *)

Section AnnouncementPageProperties.
Context `{Host}.

Lemma announcement_title_too_long (d : AnnouncementsPage.Draft) (imageUrl : nullish) :
  (120 < JsString.length (JsString.trim (AnnouncementsPage.dr_title d)))%Z ->
  exists issues,
    Zod.announcementSchema (AnnouncementsPage.payload d imageUrl) = Zod.Failure issues
    /\ In "title" issues.
Proof.
  intros Hlong. unfold AnnouncementsPage.payload, Zod.announcementSchema. cbv zeta.
  set (img := match imageUrl with
              | Undefined => []
              | Null => [("imageUrl", JNull)]
              | Str u => [("imageUrl", JString u)]
              end).
  assert (Hother : forall key, key <> "imageUrl" -> Zod.member img key = None).
  { intros key Hkey. subst img. destruct imageUrl as [| |s]; cbn [Zod.member];
      try reflexivity; destruct (String.eqb_spec "imageUrl" key); congruence. }
  cbn [Zod.field app].
  rewrite (member_cons_eq "title")
    by (rewrite !member_cons_ne by discriminate; now apply Hother).
  cbn [Zod.zString Zod.min].
  destruct (2 <=? _)%Z; cbn [Zod.max].
  - apply Z.leb_gt in Hlong. rewrite Hlong.
    eexists. split; [reflexivity|]. now left.
  - eexists. split; [reflexivity|]. now left.
Qed.

(** X28. The form lets a title of any length through, the server caps it at 120
    characters.  Take a draft with no file chosen that passes the form's
    validation and whose trimmed title is longer than 120 characters.  The
    body [submitDraft] sends carries the image the draft has ([null] when
    it has none); the server's schema refuses that body with an issue on
    [title], so the route, POST or PUT, answers 400.  [submitDraft] ends
    with the alert "Invalid input", the dialog stays open with the draft,
    the list is as it was and nothing is stored. *)
Theorem announcements_page_long_title_is_refused (p : AnnouncementsPage.Page)
    (d : AnnouncementsPage.Draft) (w : World) :
  AnnouncementsPage.draft p = Some d ->
  AnnouncementsPage.validateDraft d = [] ->
  AnnouncementsPage.dr_file d = None ->
  (120 < JsString.length (JsString.trim (AnnouncementsPage.dr_title d)))%Z ->
  let kept := match AnnouncementsPage.dr_imageUrl d with Undefined => Null | v => v end in
  let body := Browser.jsonRequest (AnnouncementsPage.payload d kept) in
  (exists issues,
      Zod.announcementSchema (AnnouncementsPage.payload d kept) = Zod.Failure issues
      /\ In "title" issues
      /\ AnnouncementsRoute.POST body w = (Done (mkResponse 400 (BInvalid issues)), w)
      /\ forall id,
           AnnouncementsIdRoute.PUT body id w = (Done (mkResponse 400 (BInvalid issues)), w))
  /\ exists p',
    AnnouncementsPage.submitDraft p w = (Done p', w)
    /\ AnnouncementsPage.formAlert p' = Some "Invalid input"
    /\ AnnouncementsPage.draft p' = Some d
    /\ AnnouncementsPage.modalOpen p' = AnnouncementsPage.modalOpen p
    /\ AnnouncementsPage.items p' = AnnouncementsPage.items p
    /\ AnnouncementsPage.saving p' = false.
Proof.
  intros Hdraft Hvalid Hfile Hlong kept body.
  destruct (announcement_title_too_long d kept Hlong) as (issues & Hschema & Htitle).
  assert (Hpost400 : AnnouncementsRoute.POST body w
                     = (Done (mkResponse 400 (BInvalid issues)), w)).
  { unfold AnnouncementsRoute.POST. subst body.
    unfold Browser.jsonRequest, readJson. cbn [jsonBody]. rewrite Hschema. reflexivity. }
  assert (Hput400 : forall id, AnnouncementsIdRoute.PUT body id w
                               = (Done (mkResponse 400 (BInvalid issues)), w)).
  { intros id. unfold AnnouncementsIdRoute.PUT. subst body.
    unfold Browser.jsonRequest, readJson. cbn [jsonBody]. rewrite Hschema. reflexivity. }
  split; [exists issues; repeat split; assumption|].
  unfold AnnouncementsPage.submitDraft. rewrite Hdraft, Hvalid. cbv zeta.
  unfold AnnouncementsPage.uploadFileIfNeeded.
  cbn [AnnouncementsPage.draft AnnouncementsPage.setFormAlert AnnouncementsPage.setSaving
       AnnouncementsPage.setErrors].
  rewrite Hdraft, Hfile. fold kept.
  unfold tryCatch at 1. unfold bind at 1. unfold bind at 1. unfold ret at 1.
  fold body.
  assert (Hpost : Browser.api (AnnouncementsRoute.POST body) w
                  = (Thrown (Error "Invalid input"), w)).
  { rewrite api_run, Hpost400. reflexivity. }
  assert (Hput : forall id, Browser.api (AnnouncementsIdRoute.PUT body id) w
                            = (Thrown (Error "Invalid input"), w)).
  { intros id. rewrite api_run, Hput400. reflexivity. }
  destruct (AnnouncementsPage.dr_id d) as [id|]; [destruct (String.eqb id "")|];
    unfold bind at 1; unfold bind at 1; rewrite ?Hpost, ?Hput;
    eexists; (split; [reflexivity|]); cbn; rewrite Hdraft; repeat split.
Qed.

End AnnouncementPageProperties.

Lemma announcements_page_long_title_is_refused_witness :
  let title := string_of_list_ascii (repeat "a"%char 121) in
  let d := AnnouncementsPage.mkDraft None title "We are live" "https://trl.co"
             "2025-01-31" Undefined None None in
  let p := AnnouncementsPage.mkPage [] false None true (Some d) false [] None [] in
  let w := demoWorld None in
  let body := Browser.jsonRequest (AnnouncementsPage.payload d Null) in
  (@AnnouncementsPage.validateDraft demoHost d = []
   /\ (120 < JsString.length (JsString.trim (AnnouncementsPage.dr_title d)))%Z)
  /\ (exists issues,
        @Zod.announcementSchema demoHost (AnnouncementsPage.payload d Null)
        = Zod.Failure issues
        /\ In "title" issues
        /\ @AnnouncementsRoute.POST demoHost body w
           = (Done (mkResponse 400 (BInvalid issues)), w)
        /\ forall id,
             @AnnouncementsIdRoute.PUT demoHost body id w
             = (Done (mkResponse 400 (BInvalid issues)), w))
  /\ exists p',
    @AnnouncementsPage.submitDraft demoHost p w = (Done p', w)
    /\ AnnouncementsPage.formAlert p' = Some "Invalid input"
    /\ AnnouncementsPage.draft p' = Some d
    /\ AnnouncementsPage.modalOpen p' = AnnouncementsPage.modalOpen p
    /\ AnnouncementsPage.items p' = AnnouncementsPage.items p
    /\ AnnouncementsPage.saving p' = false.
Proof.
  intros title d p w body.
  assert (Hvalid : @AnnouncementsPage.validateDraft demoHost d = [])
    by (vm_compute; reflexivity).
  assert (Hlong : (120 < JsString.length (JsString.trim (AnnouncementsPage.dr_title d)))%Z)
    by (vm_compute; reflexivity).
  split; [split; assumption|].
  apply (@announcements_page_long_title_is_refused demoHost p d w);
    [reflexivity | exact Hvalid | reflexivity | exact Hlong].
Defined.

(** On the stand-in host the title is the only thing the server holds
    against that draft: its issues are [title] alone, and the same draft
    with a title of 120 characters is stored, under the day it names, and
    closes the dialog. *)
Example announcements_page_title_at_the_bound :
  let draftOf n :=
    AnnouncementsPage.mkDraft None (string_of_list_ascii (repeat "a"%char n)) "We are live"
      "https://trl.co" "2025-01-31" Undefined None None in
  let pageOf n :=
    AnnouncementsPage.mkPage [] false None true (Some (draftOf n)) false [] None [] in
  let w := demoWorld None in
  @Zod.announcementSchema demoHost (AnnouncementsPage.payload (draftOf 121%nat) Null)
  = Zod.Failure ["title"]
  /\ match @AnnouncementsPage.submitDraft demoHost (pageOf 120%nat) w with
     | (Done p', w') =>
         AnnouncementsPage.formAlert p' = None
         /\ AnnouncementsPage.modalOpen p' = false
         /\ AnnouncementsPage.draft p' = None
         /\ map a_datePublished (AnnouncementsPage.items p') = [1738281600000]
         /\ map a_datePublished (announcements (db w'))
            = (map a_datePublished (announcements (db w)) ++ [1738281600000])%list
     | _ => False
     end.
Proof. vm_compute. repeat split. Qed.

(** The dates of the stand-in host: midnight UTC of the day named, a day
    past the end of the month counted on, and no date for a month or a
    shape outside the form; the start of the day, and the years below 100
    moved into the twentieth century. *)
Example demoHost_reads_dates :
  let read s := @coerceDate demoHost (Some (JString s)) in
  read "1970-01-01" = Some 0
  /\ read "2025-01-31" = Some 1738281600000
  /\ read "2024-02-29" = Some 1709164800000
  /\ read "2025-02-30" = read "2025-03-02"
  /\ read "1969-12-31" = Some (-86400000)
  /\ read "2025-13-01" = None
  /\ read "2025-1-31" = None
  /\ @coerceDate demoHost None = None
  /\ @coerceDate demoHost (Some (JNumber 1738281600000)) = Some 1738281600000
  /\ @startOfDay demoHost 1738324800123 = 1738281600000
  /\ @startOfDay demoHost (-1) = -86400000
  /\ (@startOfDay demoHost <$> read "0099-12-31") = read "1999-12-31"
  /\ (@startOfDay demoHost <$> read "0100-01-01") = read "0100-01-01".
Proof. vm_compute. repeat split. Qed.

(** * The middleware *)

Lemma prefix_differs (a b : ascii) (p s : string) :
  a <> b -> String.prefix (String a p) (String b s) = false.
Proof.
  intros Hne. cbn [String.prefix]. destruct (ascii_dec a b); [contradiction|reflexivity].
Qed.

Lemma searchParamsGet_set (name value : string) (l : list (string * string)) :
  Middleware.searchParamsGet name (Middleware.searchParamsSet name value l) = Some value.
Proof.
  unfold Middleware.searchParamsGet.
  induction l as [|[k v] l IH]; cbn [Middleware.searchParamsSet find fst].
  - now rewrite String.eqb_refl.
  - destruct (String.eqb k name) eqn:Hk; cbn [find fst].
    + now rewrite String.eqb_refl.
    + rewrite Hk. exact IH.
Qed.

Section Guard.
Context `{Jose}.

(** X29. The API is behind the session.  A request whose path starts with
    [/api/] and does not start with the string [/api/login] passes exactly
    when it carries a non-empty session token that [jwtVerify] accepts
    under the secret.  Otherwise it is redirected to the login page, with
    [next] set to the path asked for and the other search parameters kept:
    to [/login], or to [/login/] when the path asked for ends in a slash.
    Either target is let through without a session.  The exemption of the
    login route is a test on the string, not on the segments of the path:
    every path that starts with [/api/login], such as
    [/api/loginx/partners], passes without a session as well. *)
Theorem middleware_guards_api (AUTH_SECRET : option string) (req : Middleware.NextRequest) :
  JsString.startsWith (Middleware.pathname req) "/api/" = true ->
  JsString.startsWith (Middleware.pathname req) "/api/login" = false ->
  let verified :=
    match Middleware.session req with
    | Some token => negb (String.eqb token "")
                    && jwtVerify token (Middleware.SECRET AUTH_SECRET)
    | None => false
    end in
  let target :=
    if Middleware.endsWithSlash (Middleware.pathname req) then "/login/" else "/login" in
  let search :=
    Middleware.searchParamsSet "next" (Middleware.pathname req) (Middleware.searchParams req) in
  (if verified
   then Middleware.middleware AUTH_SECRET req = Middleware.next
   else Middleware.middleware AUTH_SECRET req = Middleware.redirect target search
        /\ Middleware.searchParamsGet "next" search = Some (Middleware.pathname req))
  /\ (forall search' session,
       Middleware.middleware AUTH_SECRET (Middleware.mkNextRequest target search' session)
       = Middleware.next)
  /\ (forall path search' session,
       JsString.startsWith path "/api/login" = true ->
       Middleware.middleware AUTH_SECRET (Middleware.mkNextRequest path search' session)
       = Middleware.next).
Proof.
  intros Hapi Hlogin. cbv zeta.
  assert (Hprivate : Middleware.isPublic (Middleware.pathname req) = false).
  { apply prefix_split in Hapi as (t & Hpath). rewrite Hpath in *.
    unfold Middleware.isPublic, Middleware.PUBLIC_PREFIXES. cbn [existsb].
    unfold JsString.startsWith in *. rewrite Hlogin.
    change ("/api/" ++ t) with (String "/" (String "a" ("pi/" ++ t))).
    rewrite !(prefix_cons "/"), !prefix_differs by discriminate.
    repeat match goal with
           | |- context [String.eqb ?a ?b] =>
               destruct (String.eqb_spec a b) as [Heq|_];
                 [first [discriminate Heq
                        |change (String "/" (String "a" ("pi/" ++ t))) with ("/api/" ++ t) in Heq;
                         rewrite Heq, prefix_refl in Hlogin; discriminate Hlogin]|]
           end.
    reflexivity. }
  assert (Htarget : Middleware.loginPath req
                    = if Middleware.endsWithSlash (Middleware.pathname req)
                      then "/login/" else "/login").
  { unfold Middleware.loginPath, Middleware.trailingSlash.
    destruct (String.eqb_spec (Middleware.pathname req) "/") as [Heq|_]; [|reflexivity].
    rewrite Heq in Hapi. discriminate Hapi. }
  split; [|split].
  - unfold Middleware.middleware, Middleware.toLogin. rewrite Hprivate, Htarget.
    destruct (Middleware.session req) as [token|].
    + destruct (String.eqb token ""); cbn [negb andb].
      * split; [reflexivity|apply searchParamsGet_set].
      * destruct (jwtVerify token _); [reflexivity|].
        split; [reflexivity|apply searchParamsGet_set].
    + split; [reflexivity|apply searchParamsGet_set].
  - intros search' session. destruct (Middleware.endsWithSlash _); reflexivity.
  - intros path search' session Hpath. unfold Middleware.middleware.
    cbn [Middleware.pathname].
    assert (Hpub : Middleware.isPublic path = true).
    { unfold Middleware.isPublic, Middleware.PUBLIC_PREFIXES. cbn [existsb].
      rewrite Hpath. now rewrite !orb_true_r. }
    now rewrite Hpub.
Qed.

(** X30. Uploaded files are served without a session: every address that is a
    local upload is public, whatever the request carries. *)
Theorem uploads_are_public (AUTH_SECRET : option string) (u : string)
    (search : list (string * string)) (session : option string) :
  Uploads.isLocalUpload (Str u) = true ->
  Middleware.isPublic u = true
  /\ Middleware.middleware AUTH_SECRET (Middleware.mkNextRequest u search session)
     = Middleware.next.
Proof.
  intros Hlocal. destruct (isLocalUpload_inv _ Hlocal) as (u' & [= <-] & Hpre & _).
  assert (Hpub : Middleware.isPublic u = true).
  { unfold Middleware.isPublic, Middleware.PUBLIC_PREFIXES. cbn [existsb].
    rewrite Hpre. now rewrite !orb_true_r. }
  split; [exact Hpub|]. unfold Middleware.middleware. cbn [Middleware.pathname].
  now rewrite Hpub.
Qed.

End Guard.

Lemma middleware_guards_api_witness :
  let req := Middleware.mkNextRequest "/api/partners/" [("next", "/x"); ("q", "1")] None in
  (JsString.startsWith (Middleware.pathname req) "/api/" = true
   /\ JsString.startsWith (Middleware.pathname req) "/api/login" = false)
  /\ (@Middleware.middleware demoJose None req
      = Middleware.redirect "/login/" [("next", "/api/partners/"); ("q", "1")]
      /\ Middleware.searchParamsGet "next" [("next", "/api/partners/"); ("q", "1")]
         = Some "/api/partners/")
  /\ (forall search' session,
       @Middleware.middleware demoJose None (Middleware.mkNextRequest "/login/" search' session)
       = Middleware.next)
  /\ (forall path search' session,
       JsString.startsWith path "/api/login" = true ->
       @Middleware.middleware demoJose None (Middleware.mkNextRequest path search' session)
       = Middleware.next).
Proof.
  intros req. split; [split; reflexivity|].
  apply (@middleware_guards_api demoJose None req); reflexivity.
Defined.

(** The same request without the slash at the end, with a session and
    without, and a path that only starts like the login route. *)
Example middleware_on_api_paths :
  let ask path session := Middleware.mkNextRequest path [("q", "1")] session in
  @Middleware.middleware demoJose None (ask "/api/partners/p1" (Some "signed:dev_secret_change_me"))
  = Middleware.next
  /\ @Middleware.middleware demoJose None (ask "/api/partners/p1" (Some "signed:other"))
     = Middleware.redirect "/login" [("q", "1"); ("next", "/api/partners/p1")]
  /\ @Middleware.middleware demoJose None (ask "/api/partners/p1" None)
     = Middleware.redirect "/login" [("q", "1"); ("next", "/api/partners/p1")]
  /\ @Middleware.middleware demoJose None (ask "/" None)
     = Middleware.redirect "/login" [("q", "1"); ("next", "/")]
  /\ @Middleware.middleware demoJose None (ask "/api/loginx/partners" None) = Middleware.next.
Proof. vm_compute. repeat split. Qed.

Lemma uploads_are_public_witness :
  let u := "/uploads/100_0a1b2c3d4e5f.png" in
  Uploads.isLocalUpload (Str u) = true
  /\ Middleware.isPublic u = true
  /\ @Middleware.middleware demoJose None (Middleware.mkNextRequest u [] None)
     = Middleware.next.
Proof.
  cbv zeta. split; [reflexivity|].
  apply (@uploads_are_public demoJose None "/uploads/100_0a1b2c3d4e5f.png" [] None).
  reflexivity.
Defined.
